(** * Worksheet generator: extraction layer, sandboxed plot run and orchestrator

    A shallow embedding of the two workflow scripts of the repository,
    [ged_worksheet_workflow.py] (module [V1] below) and
    [ged_worksheet_workflow_2.py] (module [V2]), together with the text
    helpers both share ([_extract_code], [_extract_json]).

    Conventions.
    - A Python [str] is a [string]; a character stands for the code point
      of the same number, so the model covers texts whose code points are
      below 256.
    - A value decoded from JSON is a [json]; Python's dynamically typed
      operations on such values ([.get], subscripting, iteration, truth
      value) are written out with the exception each one raises.
    - [print], the file system and exceptions are threaded through the
      monad [M]: a state holding the files and the printed lines, and a
      result that is a value or a raised exception.
    - The outside world (environment variable, keyboard, model gateway,
      child interpreter, the encoding of the locale) is a record of
      oracles, [world].
    - Writing a text file raises [UnicodeEncodeError] when the encoding
      the file was opened with cannot encode the text, and leaves the
      file empty; failures of the disk itself are not modelled.
    - A printed line is its fixed text, without the leading newline and
      the check mark some lines carry, and the values interpolated into
      it; a prompt is the name of its template and the values
      interpolated into it.
    - Exceptions are the classes below [Exception] that the scripts and
      the libraries they call raise; signals such as [KeyboardInterrupt]
      are not modelled. *)

From Stdlib Require Import Floats.PrimFloat Strings.Ascii Numbers.DecimalString.
From stdpp Require Import gmap strings list.

Set Warnings "-register-all".

(** ** Text *)

Definition nl : string := String "010"%char "".
Definition dq : string := String "034"%char "".

(** [str.isspace] on code points below 256: TAB..CR, FS..US and space,
    NEL (133) and NBSP (160). *)
Definition is_space (c : ascii) : bool :=
  let n := Ascii.N_of_ascii c in
  (((9 <=? n) && (n <=? 13)) || ((28 <=? n) && (n <=? 32))
   || (n =? 133) || (n =? 160))%N.

Fixpoint lstrip (s : string) : string :=
  match s with
  | "" => ""
  | String c s' => if is_space c then lstrip s' else s
  end.

Fixpoint rstrip (s : string) : string :=
  match s with
  | "" => ""
  | String c s' =>
      match rstrip s' with
      | "" => if is_space c then "" else String c ""
      | r => String c r
      end
  end.

(** [s.strip()] *)
Definition strip (s : string) : string := rstrip (lstrip s).

(** [s.startswith(p)] *)
Definition startswith (s p : string) : bool := String.prefix p s.

(** [s.endswith(p)]: some suffix of [s] is [p]. *)
Fixpoint endswith (s p : string) : bool :=
  String.eqb s p ||
  match s with
  | "" => false
  | String _ s' => endswith s' p
  end.

(** [s[n:]] *)
Fixpoint str_drop (n : nat) (s : string) : string :=
  match n, s with
  | O, _ => s
  | S _, "" => ""
  | S n', String _ s' => str_drop n' s'
  end.

(** [s[:n]] *)
Fixpoint str_take (n : nat) (s : string) : string :=
  match n, s with
  | O, _ => ""
  | S _, "" => ""
  | S n', String c s' => String c (str_take n' s')
  end.

(** [s[3:-3]]: from index 3 up to three characters before the end; empty
    when the two bounds cross. *)
Definition slice_3_m3 (s : string) : string :=
  str_take (String.length s - 3 - 3) (str_drop 3 s).

(** *** The fenced-block pattern

    [re.compile(rf'```{language}\n(.*?)\n```', re.DOTALL).search(text)]
    for a tag that is a plain word (as 'python', 'json' and 'latex' are):
    the pattern is the literal [opening], a lazy group of any characters
    (newlines included) and the literal [closing]. [lazy_until] grows the
    group one character at a time until [closing] matches; [re_search]
    tries the start positions from left to right. The result is the text
    of group 1. *)

Fixpoint lazy_until (closing s : string) {struct s} : option string :=
  if String.prefix closing s then Some ""
  else match s with
       | "" => None
       | String c s' => String c <$> lazy_until closing s'
       end.

Definition match_here (opening closing s : string) : option string :=
  if String.prefix opening s
  then lazy_until closing (str_drop (String.length opening) s)
  else None.

Fixpoint re_search (opening closing s : string) {struct s} : option string :=
  match match_here opening closing s with
  | Some g => Some g
  | None =>
      match s with
      | "" => None
      | String _ s' => re_search opening closing s'
      end
  end.

Definition fence_open (language : string) : string := "```" +:+ language +:+ nl.
Definition fence_close : string := nl +:+ "```".

(** [_extract_code(text, language)], the same function in both scripts. *)
Definition _extract_code (text language : string) : string :=
  match re_search (fence_open language) fence_close text with
  | Some g => strip g
  | None =>
      if startswith (strip text) "```" && endswith (strip text) "```"
      then strip (slice_3_m3 (strip text))
      else text
  end.

(** [pat in s] for two strings: [pat] occurs somewhere in [s]. *)
Fixpoint occurs (pat s : string) {struct s} : bool :=
  String.prefix pat s ||
  match s with
  | "" => false
  | String _ s' => occurs pat s'
  end.

(** ** Values decoded from JSON

    What [json.loads] returns: [None], [bool], [int], [float], [str],
    [list] and [dict] (string keys, in insertion order; a lookup takes the
    first binding of a key). *)

Inductive json :=
| JNull
| JBool (b : bool)
| JInt (n : Z)
| JFloat (f : float)
| JStr (s : string)
| JArr (items : list json)
| JObj (fields : list (string * json)).

(** The decoder is Python's library, not code of the scripts: it is an
    interface here. [None] stands for [json.JSONDecodeError]. *)
Class JsonLib := json_loads : string -> option json.

(** ** Exceptions *)

Inductive exn_class :=
| Exception
| ValueError | UnicodeDecodeError | UnicodeEncodeError | JSONDecodeError
| OSError | FileNotFoundError
| RequestException | Timeout | ConnectionError | HTTPError
| CalledProcessError
| LookupError | KeyError | IndexError
| AttributeError | TypeError
| NameError | UnboundLocalError.

Global Instance exn_class_eq_dec : EqDecision exn_class.
Proof. solve_decision. Defined.

(** The direct base class. [requests]' exceptions derive from [IOError],
    which is [OSError]. *)
Definition base (c : exn_class) : option exn_class :=
  match c with
  | Exception => None
  | UnicodeDecodeError | UnicodeEncodeError | JSONDecodeError => Some ValueError
  | FileNotFoundError | RequestException => Some OSError
  | Timeout | ConnectionError | HTTPError => Some RequestException
  | KeyError | IndexError => Some LookupError
  | UnboundLocalError => Some NameError
  | ValueError | OSError | CalledProcessError | LookupError
  | AttributeError | TypeError | NameError => Some Exception
  end.

Fixpoint subclass_upto (fuel : nat) (c d : exn_class) : bool :=
  bool_decide (c = d) ||
  match fuel, base c with
  | S fuel', Some b => subclass_upto fuel' b d
  | _, _ => false
  end.

(** [issubclass(c, d)]; no chain of bases is longer than three. *)
Definition subclass : exn_class -> exn_class -> bool := subclass_upto 3.

(** A raised exception: its class and the texts it carries (the message;
    for [JSONDecodeError] the document that failed to parse; for
    [CalledProcessError] the captured stdout and stderr). *)
Record exn := Exn { cls : exn_class; carried : list string }.

(** ** Printed lines, state and the monad *)

(** A value interpolated into a printed line or a prompt. *)
Inductive arg :=
| AStr (s : string)
| AJson (v : json)
| AExn (e : exn)
| ANat (n : nat)
| AList (l : list arg).

(** One [print]: the fixed text of the line and the interpolated values. *)
Inductive event := Printed (line : string) (args : list arg).

Record state := State {
  files : gmap string string;   (* path |-> contents *)
  printed : list event          (* oldest first *)
}.

Inductive result (A : Type) :=
| Ok (a : A)
| Raise (e : exn).
Arguments Ok {A} a.
Arguments Raise {A} e.

Definition M (A : Type) : Type := state -> result A * state.

Definition ret {A} (a : A) : M A := fun st => (Ok a, st).

Definition bind {A B} (m : M A) (k : A -> M B) : M B :=
  fun st =>
    match m st with
    | (Ok a, st') => k a st'
    | (Raise e, st') => (Raise e, st')
    end.

Definition raise {A} (e : exn) : M A := fun st => (Raise e, st).

Declare Scope py_scope.
Delimit Scope py_scope with py.
Notation "x ← y ; z" := (bind y (fun x => z))
  (at level 20, y at level 100, z at level 200, only parsing) : py_scope.
Notation "' x ← y ; z" := (bind y (fun x => z))
  (at level 20, x pattern, y at level 100, z at level 200, only parsing) : py_scope.
Notation "x ;; z" := (bind x (fun _ => z))
  (at level 100, z at level 200, only parsing, right associativity) : py_scope.
Open Scope py_scope.

Definition of_result {A} (r : result A) : M A := fun st => (r, st).

Definition print (line : string) (args : list arg) : M unit :=
  fun st => (Ok tt, State (files st) (printed st ++ [Printed line args])).

Fixpoint mapM {A B} (f : A -> M B) (l : list A) : M (list B) :=
  match l with
  | [] => ret []
  | x :: l' => y ← f x; ys ← mapM f l'; ret (y :: ys)
  end.

(** [except (C1, C2, ...) as e: handler]. *)
Definition clause (A : Type) : Type := list exn_class * (exn -> M A).

Definition catches (cs : list exn_class) (e : exn) : bool :=
  existsb (subclass (cls e)) cs.

Fixpoint select {A} (hs : list (clause A)) (e : exn) : option (M A) :=
  match hs with
  | [] => None
  | (cs, h) :: hs' => if catches cs e then Some (h e) else select hs' e
  end.

(** [try: body except ...: ...]: the first clause that names a class of
    the exception runs; with none, the exception goes on. *)
Definition try_except {A} (body : M A) (hs : list (clause A)) : M A :=
  fun st =>
    match body st with
    | (Ok a, st') => (Ok a, st')
    | (Raise e, st') =>
        match select hs e with
        | Some h => h st'
        | None => (Raise e, st')
        end
    end.

(** [try: body finally: fin]: [fin] runs on every way out of [body]; the
    outcome of [body] stands unless [fin] raises itself. *)
Definition try_finally {A} (body : M A) (fin : M unit) : M A :=
  fun st =>
    let '(r, st') := body st in
    match fin st' with
    | (Ok _, st'') => (r, st'')
    | (Raise e, st'') => (Raise e, st'')
    end.

(** ** Python's operations on decoded values *)

Fixpoint assoc (k : string) (kvs : list (string * json)) : option json :=
  match kvs with
  | [] => None
  | (k', v) :: kvs' => if String.eqb k k' then Some v else assoc k kvs'
  end.

(** [bool(v)] *)
Definition truthy (v : json) : bool :=
  match v with
  | JNull => false
  | JBool b => b
  | JInt n => negb (n =? 0)%Z
  | JFloat f => negb (PrimFloat.eqb f 0%float)
  | JStr s => negb (String.eqb s "")
  | JArr items => match items with [] => false | _ => true end
  | JObj fields => match fields with [] => false | _ => true end
  end.

Definition is_dict (v : json) : bool := match v with JObj _ => true | _ => false end.
Definition is_list (v : json) : bool := match v with JArr _ => true | _ => false end.

Definition type_name (v : json) : string :=
  match v with
  | JNull => "NoneType" | JBool _ => "bool" | JInt _ => "int" | JFloat _ => "float"
  | JStr _ => "str" | JArr _ => "list" | JObj _ => "dict"
  end.

(** [v.get(k, default)]: only a [dict] has the method. *)
Definition py_get (v : json) (k : string) (default : json) : M json :=
  match v with
  | JObj fields => ret (from_option id default (assoc k fields))
  | _ => raise (Exn AttributeError [type_name v; "get"])
  end.

(** [v[k]] for a string [k]. *)
Definition py_getitem (v : json) (k : string) : M json :=
  match v with
  | JObj fields =>
      match assoc k fields with
      | Some x => ret x
      | None => raise (Exn KeyError [k])
      end
  | _ => raise (Exn TypeError [type_name v; "subscript"])
  end.

(** [v[0]]: the keys of a decoded [dict] are strings, so 0 is never one. *)
Definition py_getitem0 (v : json) : M json :=
  match v with
  | JArr (x :: _) => ret x
  | JStr (String c _) => ret (JStr (String c ""))
  | JArr [] | JStr "" => raise (Exn IndexError [type_name v])
  | JObj _ => raise (Exn KeyError ["0"])
  | _ => raise (Exn TypeError [type_name v; "subscript"])
  end.

Fixpoint chars (s : string) : list json :=
  match s with
  | "" => []
  | String c s' => JStr (String c "") :: chars s'
  end.

(** The items a [for] loop or a comprehension over [v] visits. *)
Definition py_iter (v : json) : M (list json) :=
  match v with
  | JArr items => ret items
  | JStr s => ret (chars s)
  | JObj fields => ret (map (fun kv => JStr (fst kv)) fields)
  | _ => raise (Exn TypeError [type_name v; "iter"])
  end.

Definition is_str (k : string) (v : json) : bool :=
  match v with JStr s => String.eqb s k | _ => false end.

(** [k in v] for a string [k]. *)
Definition py_contains (k : string) (v : json) : M bool :=
  match v with
  | JObj fields => ret (bool_decide (is_Some (assoc k fields)))
  | JArr items => ret (existsb (is_str k) items)
  | JStr s => ret (occurs k s)
  | _ => raise (Exn TypeError [type_name v; "in"])
  end.

(** [len(v)] of a list. *)
Definition py_len (v : json) : nat :=
  match v with JArr items => length items | _ => 0 end.

(** ** The outside world *)

(** What the child interpreter did: it ran to an exit status with its two
    captured streams, or [subprocess.run] itself raised. *)
Inductive spawn_error :=
| NoInterpreter      (* FileNotFoundError: no [python] on the path *)
| OutputNotUtf8      (* UnicodeDecodeError while decoding a stream *)
| OtherOSError.

Inductive proc_outcome :=
| Exited (returncode : Z) (out err : string)
| SpawnRaised (why : spawn_error).

(** A prompt: which template, and the values interpolated into it, in the
    order the f-string evaluates them. The fixed text of a template is
    left out. *)
Record prompt := Prompt { template : string; interpolated : list arg }.

Record world := World {
  (** [os.getenv('OPENROUTER_API_KEY')] *)
  getenv_api_key : option string;
  (** the line [input(...)] reads *)
  input_line : string;
  (** [requests.post] up to [response_json['choices'][0]['message']['content']]:
      by API key, model, prompt and timeout. *)
  post : string -> string -> prompt -> nat -> result string;
  (** [python temp_plot_script.py] in the current directory: from the
      files it finds to what it did and the files it leaves. *)
  run_python : gmap string string -> proc_outcome * gmap string string;
  (** whether the locale's preferred encoding, the one [open] takes when
      it is given no [encoding], can encode a text *)
  locale_encodes : string -> bool
}.

Definition PLOTS_DIR : string := "./plots".
Definition TEMP_PLOT_SCRIPT : string := "temp_plot_script.py".

(** ** File and process primitives *)

(** The encoding a file is opened with: [encoding='utf-8'], or none
    given, which is the locale's. *)
Inductive encoding := Utf8 | LocaleEncoding.

(** UTF-8 encodes every text of the model (code points below 256, so no
    surrogate); what the locale's encoding takes is the world's. *)
Definition can_encode (w : world) (enc : encoding) (text : string) : bool :=
  match enc with
  | Utf8 => true
  | LocaleEncoding => locale_encodes w text
  end.

(** [with open(path, 'w', encoding=enc) as f: f.write(text)]: [open]
    creates the file or empties it; [f.write] raises [UnicodeEncodeError]
    on a text the encoding cannot encode, and the file stays behind,
    empty. Failures of the disk itself (permissions, no space) are not
    modelled. *)
Definition write_file (w : world) (enc : encoding) (path text : string) : M unit :=
  fun st =>
    if can_encode w enc text
    then (Ok tt, State (<[path := text]> (files st)) (printed st))
    else (Raise (Exn UnicodeEncodeError [text]),
          State (<[path := ""]> (files st)) (printed st)).

(** [with open(path, 'w', encoding='utf-8') as f: f.write(v)] for a
    decoded value: the file is created empty before [write] refuses
    anything but a [str]. *)
Definition write_value (w : world) (path : string) (v : json) : M unit :=
  match v with
  | JStr text => write_file w Utf8 path text
  | _ => write_file w Utf8 path "";; raise (Exn TypeError [type_name v; "write"])
  end.

(** [os.path.exists(path)] *)
Definition path_exists (path : string) : M bool :=
  fun st => (Ok (bool_decide (is_Some (files st !! path))), st).

(** [os.remove(path)] *)
Definition remove (path : string) : M unit :=
  fun st => (Ok tt, State (delete path (files st)) (printed st)).

(** [if os.path.exists(TEMP_PLOT_SCRIPT): os.remove(TEMP_PLOT_SCRIPT)], the
    [finally] block of [generate_plots] in both scripts. *)
Definition remove_scratch : M unit :=
  there ← path_exists TEMP_PLOT_SCRIPT;
  if there then remove TEMP_PLOT_SCRIPT else ret tt.

Definition spawn_exn (why : spawn_error) : exn :=
  match why with
  | NoInterpreter => Exn FileNotFoundError ["python"]
  | OutputNotUtf8 => Exn UnicodeDecodeError ["utf-8"]
  | OtherOSError => Exn OSError []
  end.

(** [subprocess.run(['python', TEMP_PLOT_SCRIPT], capture_output=True,
    text=True, check=True, encoding='utf-8')]: the captured stdout on exit
    status 0, [CalledProcessError] with both streams otherwise. *)
Definition subprocess_run (w : world) : M string :=
  fun st =>
    let '(o, fs) := run_python w (files st) in
    let st' := State fs (printed st) in
    match o with
    | Exited rc out err =>
        if (rc =? 0)%Z then (Ok out, st')
        else (Raise (Exn CalledProcessError [out; err]), st')
    | SpawnRaised why => (Raise (spawn_exn why), st')
    end.

(** [json.loads(s)] *)
Definition loads `{JsonLib} (s : string) : M json :=
  match json_loads s with
  | Some v => ret v
  | None => raise (Exn JSONDecodeError [s])
  end.

(** [load_api_key()], the same in both scripts. *)
Definition load_api_key (w : world) : M string :=
  match getenv_api_key w with
  | Some (String c k) =>
      print "API Key loaded successfully." [];;
      ret (String c k)
  | _ => raise (Exn ValueError ["Error: OPENROUTER_API_KEY environment variable not set."])
  end.

(** The last item a [for] loop bound to its variable; [None] while the
    variable is unbound. *)
Definition last_bound (items : list json) : option json := last items.

(** [[p.get('description', '') for p in plots_json.get('plots', [])]] *)
Definition plot_descriptions (plots_json : json) : M (list json) :=
  plots ← py_get plots_json "plots" (JArr []);
  items ← py_iter plots;
  mapM (fun p => py_get p "description" (JStr "")) items.

(** [issues and issues[0]], as the condition of an [if]. *)
Definition has_issues (issues : json) : M bool :=
  if truthy issues then first ← py_getitem0 issues; ret (truthy first)
  else ret false.

(** The report on the reviewer's issue list, the same in both scripts. *)
Definition report_issues (review_json : json) : M unit :=
  issues ← py_get review_json "issues_found" (JArr []);
  found ← has_issues issues;
  if found then
    print "  > Reviewer found and fixed the following issues:" [];;
    items ← py_iter issues;
    mapM (fun issue => print "    - {issue}" [AJson issue]) items;;
    ret tt
  else print "  > Reviewer found no major issues." [].

(** The three lines of each handler of [main]. *)
Definition abort_report (headline : string) (e : exn) : M unit :=
  print headline [];;
  print "Error: {e}" [AExn e];;
  print "Workflow aborted." [].

Definition say_complete (output_filename : string) : M unit :=
  print "--- Workflow Complete! ---" [];;
  print "Final worksheet saved to: {output_filename}" [AStr output_filename];;
  print "Plot images saved in: {PLOTS_DIR}/" [AStr PLOTS_DIR];;
  print "To view your worksheet, compile the .tex file using a LaTeX editor (like TeX Live, MiKTeX, or Overleaf)." [].

(** ** [ged_worksheet_workflow.py] *)

Module V1.
Section Workflow.
Context `{JsonLib} (w : world).

Definition call_openrouter (api_key model : string) (p : prompt) : M string :=
  print "  > Calling model: {model}..." [AStr model];;
  try_except (of_result (post w api_key model p 240))
    [([RequestException],
      fun e => print "API Request Error: {e}" [AExn e];; raise e)].

Definition _extract_json (text : string) : M json :=
  let json_str := _extract_code text "json" in
  try_except (loads json_str)
    [([JSONDecodeError],
      fun e =>
        print "JSON Decode Error: {e}. Trying to parse raw text." [AExn e];;
        try_except (loads text)
          [([JSONDecodeError],
            fun e' => print "Could not parse JSON from response." [];; raise e')])].

(** ['sub_topics' not in syllabus_json or
    not isinstance(syllabus_json['sub_topics'], list)] *)
Definition lacks_sub_topics (syllabus_json : json) : M bool :=
  present ← py_contains "sub_topics" syllabus_json;
  if negb present then ret true
  else sub_topics ← py_getitem syllabus_json "sub_topics";
       ret (negb (is_list sub_topics)).

Definition get_and_generate_syllabus (api_key : string) : M (string * json) :=
  print "--- Step 1: Defining Syllabus ---" [];;
  print "Enter 1-2 GED Science topics (e.g., 'Genetics and DNA, Chemical Reactions'): " [];;
  let topics_list := input_line w in
  if String.eqb topics_list "" then
    raise (Exn ValueError ["Topic list cannot be empty."])
  else
    response_content ←
      call_openrouter api_key "perplexity/sonar" (Prompt "syllabus" [AStr topics_list]);
    syllabus_json ← _extract_json response_content;
    bad ← lacks_sub_topics syllabus_json;
    if bad then raise (Exn ValueError ["Syllabus JSON is missing 'sub_topics' list."])
    else
      sub_topics ← py_getitem syllabus_json "sub_topics";
      print "Syllabus generated for '{topics_list}' with {len} sub-topics."
        [AStr topics_list; ANat (py_len sub_topics)];;
      ret (topics_list, syllabus_json).

(** In the [JSONDecodeError] handler [result.stdout] is the document the
    exception carries: only [json.loads(result.stdout)] raises it. *)
Definition generate_plots (api_key : string) (syllabus_json : json) : M json :=
  print "--- Step 2: Generating Plots ---" [];;
  response_content ←
    call_openrouter api_key "google/gemini-2.5-pro" (Prompt "plots" [AJson syllabus_json]);
  let python_code := _extract_code response_content "python" in
  write_file w LocaleEncoding TEMP_PLOT_SCRIPT python_code;;
  print "  > Executing generated script: {TEMP_PLOT_SCRIPT}" [AStr TEMP_PLOT_SCRIPT];;
  try_finally
    (try_except
       (plots_json_str ← subprocess_run w;
        plots_json ← loads plots_json_str;
        print "Plots generated and metadata captured successfully." [];;
        ret plots_json)
       [([CalledProcessError],
         fun e =>
           print "--- ERROR: The generated Python script failed to execute. ---" [];;
           print "STDOUT:" (AStr <$> take 1 (carried e));;
           print "STDERR:" (AStr <$> drop 1 (carried e));;
           raise e);
        ([JSONDecodeError],
         fun e =>
           print "--- ERROR: The generated script did not output valid JSON. ---" [];;
           print "RAW OUTPUT:" (AStr <$> carried e);;
           raise e)])
    remove_scratch.

Definition generate_worksheet_part1 (api_key : string) (syllabus_json : json) : M string :=
  print "--- Step 3: Generating Worksheet Teaching Section ---" [];;
  response_content ←
    call_openrouter api_key "google/gemini-2.5-pro" (Prompt "part1" [AJson syllabus_json]);
  let latex_part1 := _extract_code response_content "latex" in
  print "Worksheet Part 1 (teaching section) generated." [];;
  ret latex_part1.

Definition generate_worksheet_part2 (api_key latex_part1 : string) (plots_json : json)
  : M string :=
  print "--- Step 4: Assembling Full Worksheet ---" [];;
  response_content ←
    call_openrouter api_key "google/gemini-2.5-pro"
      (Prompt "part2" [AStr latex_part1; AJson plots_json]);
  let full_latex := _extract_code response_content "latex" in
  print "Full draft worksheet generated." [];;
  ret full_latex.

Definition review_worksheet (api_key full_latex topics_list : string) (plots_json : json)
  : M json :=
  print "--- Step 5: Final Review ---" [];;
  descriptions ← plot_descriptions plots_json;
  response_content ←
    call_openrouter api_key "google/gemini-2.5-pro"
      (Prompt "review" [AStr topics_list; AList (AJson <$> descriptions); AStr full_latex]);
  review_json ← _extract_json response_content;
  report_issues review_json;;
  final_latex ← py_getitem review_json "revised_latex";
  print "Final review complete." [];;
  ret final_latex.

Definition pipeline : M unit :=
  api_key ← load_api_key w;
  '(topics_list, syllabus_json) ← get_and_generate_syllabus api_key;
  plots_json ← generate_plots api_key syllabus_json;
  latex_part1 ← generate_worksheet_part1 api_key syllabus_json;
  full_latex_draft ← generate_worksheet_part2 api_key latex_part1 plots_json;
  final_latex ← review_worksheet api_key full_latex_draft topics_list plots_json;
  let output_filename := "final_worksheet.tex" in
  write_value w output_filename final_latex;;
  say_complete output_filename.

(** [main()]: the body of the [try] is [pipeline]. *)
Definition main : M unit :=
  print "--- GED Science Worksheet Generator ---" [];;
  try_except pipeline
    [([ValueError; FileNotFoundError; RequestException; CalledProcessError],
      abort_report "--- A critical error occurred ---");
     ([Exception],
      abort_report "--- An unexpected error occurred ---")].
End Workflow.
End V1.

(** ** [ged_worksheet_workflow_2.py] *)

Module V2.
Section Workflow.
Context `{JsonLib} (w : world).

Definition call_openrouter (api_key model : string) (p : prompt) : M string :=
  print "  > Calling model: {model}..." [AStr model];;
  try_except (of_result (post w api_key model p 300))
    [([RequestException],
      fun e => print "API Request Error: {e}" [AExn e];; raise e)].

Definition _extract_json (text : string) : M json :=
  let json_str := _extract_code text "json" in
  try_except (loads json_str)
    [([JSONDecodeError],
      fun _ =>
        try_except (loads text)
          [([JSONDecodeError],
            fun e => print "Could not parse JSON from response: {e}" [AExn e];; raise e)])].

Definition get_and_generate_syllabus (api_key : string) : M (string * json) :=
  print "--- Step 1: Defining Syllabus ---" [];;
  print "Enter 1-2 GED Science topics (e.g., 'Genetics and DNA, Chemical Reactions'): " [];;
  let topics_list := input_line w in
  if String.eqb topics_list "" then
    raise (Exn ValueError ["Topic list cannot be empty."])
  else
    response_content ←
      call_openrouter api_key "perplexity/sonar" (Prompt "syllabus" [AStr topics_list]);
    syllabus_json ← _extract_json response_content;
    print "Syllabus generated for '{topics_list}'." [AStr topics_list];;
    ret (topics_list, syllabus_json).

(** In the [JSONDecodeError] handler [result.stdout] is the document the
    exception carries: only [json.loads(result.stdout)] raises it. *)
Definition generate_plots (api_key : string) (syllabus_json : json) : M json :=
  print "--- Step 2: Generating Data Visualizations ---" [];;
  response_content ←
    call_openrouter api_key "google/gemini-2.5-pro" (Prompt "plots" [AJson syllabus_json]);
  let python_code := _extract_code response_content "python" in
  write_file w Utf8 TEMP_PLOT_SCRIPT python_code;;
  print "  > Executing generated script: {TEMP_PLOT_SCRIPT}" [AStr TEMP_PLOT_SCRIPT];;
  try_finally
    (try_except
       (plots_json_str ← subprocess_run w;
        plots_json ← loads plots_json_str;
        print "Plots generated and metadata captured successfully." [];;
        ret plots_json)
       [([CalledProcessError],
         fun e =>
           print "--- ERROR: The generated Python script failed to execute. ---" [];;
           print "STDERR:" (AStr <$> drop 1 (carried e));;
           raise e);
        ([JSONDecodeError],
         fun e =>
           print "--- WARNING: The generated script did not output valid JSON or no plots were created. ---" [];;
           print "RAW OUTPUT:" (AStr <$> carried e);;
           ret (JObj [("plots", JArr [])]))])
    remove_scratch.

(** The text one plot adds to [plot_section_prompt]; a plot that is not
    a [dict] adds nothing. *)
Definition plot_entry (plot : json) : list arg :=
  match plot with
  | JObj fields =>
      [AList [AJson (from_option id (JStr "") (assoc "path" fields));
              AJson (from_option id (JStr "") (assoc "description" fields));
              AJson (from_option id (JArr []) (assoc "mcqs" fields))]]
  | _ => []
  end.

(** The function assigns its local [plot] only in the [for] loop, so the
    name is unbound until the loop has made a turn; the template reads
    [plot['path']] whether or not it did. *)
Definition generate_full_worksheet (api_key : string) (syllabus_json plots_json : json)
  : M string :=
  print "--- Step 3: Generating Full Worksheet from Template ---" [];;
  plot_list ←
    (if is_dict plots_json then py_get plots_json "plots" (JArr [])
     else if is_list plots_json then ret plots_json
     else ret (JArr []));
  '(plot_section_prompt, plot) ←
    (if truthy plot_list then
       items ← py_iter plot_list;
       ret (AStr "Section C: Data Interpretation" :: concat (plot_entry <$> items),
            last_bound items)
     else ret ([], None));
  chapter_name ← py_get syllabus_json "chapter_name" (JStr "Science");
  lesson_title ← py_get syllabus_json "lesson_title" (JStr "Core Concepts");
  path ←
    match plot with
    | Some p => py_getitem p "path"
    | None => raise (Exn UnboundLocalError ["plot"])
    end;
  response_content ←
    call_openrouter api_key "google/gemini-2.5-pro"
      (Prompt "full_worksheet"
         [AJson syllabus_json; AJson chapter_name; AJson lesson_title;
          AList plot_section_prompt; AJson path]);
  let full_latex := _extract_code response_content "latex" in
  print "Full worksheet generated from template." [];;
  ret full_latex.

Definition review_worksheet (api_key full_latex : string) (syllabus_json plots_json : json)
  : M json :=
  print "--- Step 4: Final Review ---" [];;
  descriptions ← plot_descriptions plots_json;
  try_except
    (response_content ←
       call_openrouter api_key "google/gemini-2.5-flash"
         (Prompt "review"
            [AJson syllabus_json; AList (AJson <$> descriptions); AStr full_latex]);
     review_json ← _extract_json response_content;
     report_issues review_json;;
     final_latex ← py_get review_json "revised_latex" JNull;
     if negb (truthy final_latex) then
       raise (Exn KeyError ["Reviewer JSON response did not contain 'revised_latex' key."])
     else
       print "Final review complete." [];;
       ret final_latex)
    [([JSONDecodeError; KeyError; AttributeError],
      fun e =>
        print "--- WARNING: The review step failed to produce a valid response. ---" [];;
        print "Error details: {e}" [AExn e];;
        print "The un-reviewed draft will be used instead. Please check the final .tex file carefully." [];;
        ret (JStr full_latex))].

Definition pipeline : M unit :=
  api_key ← load_api_key w;
  '(_, syllabus_json) ← get_and_generate_syllabus api_key;
  plots_json ← generate_plots api_key syllabus_json;
  full_latex_draft ← generate_full_worksheet api_key syllabus_json plots_json;
  final_latex ← review_worksheet api_key full_latex_draft syllabus_json plots_json;
  let output_filename := "final_worksheet.tex" in
  write_value w output_filename final_latex;;
  say_complete output_filename.

(** [main()]: the body of the [try] is [pipeline]. *)
Definition main : M unit :=
  print "--- GED Science Worksheet Generator ---" [];;
  try_except pipeline
    [([ValueError; FileNotFoundError; RequestException; CalledProcessError],
      abort_report "--- A critical error occurred ---");
     ([Exception],
      abort_report "--- An unexpected error occurred ---")].
End Workflow.
End V2.

(** ** A reference codec

    An executable [JsonLib] for running the scripts on concrete texts: the
    JSON grammar without fractions, exponents and the non-finite floats
    (on such a text it answers [None]), and [\u] escapes below 256. The
    theorems below hold for every decoder; this one instantiates them. *)

(** A character of the printable ASCII range, space to tilde. *)
Definition printable (c : ascii) : bool :=
  let n := N_of_ascii c in ((32 <=? n) && (n <=? 126))%N.

Module RefJson.

Definition is_ws (c : ascii) : bool :=
  match c with
  | " " | "009" | "010" | "013" => true
  | _ => false
  end%char.

Fixpoint skip_ws (s : string) : string :=
  match s with
  | "" => ""
  | String c s' => if is_ws c then skip_ws s' else s
  end.

Definition digit (c : ascii) : option N :=
  let n := N_of_ascii c in
  if ((48 <=? n) && (n <=? 57))%N then Some (n - 48)%N else None.

Definition hex (c : ascii) : option N :=
  let n := N_of_ascii c in
  if ((48 <=? n) && (n <=? 57))%N then Some (n - 48)%N
  else if ((65 <=? n) && (n <=? 70))%N then Some (n - 55)%N
  else if ((97 <=? n) && (n <=? 102))%N then Some (n - 87)%N
  else None.

Definition hex4 (a b c d : ascii) : option N :=
  match hex a, hex b, hex c, hex d with
  | Some x, Some y, Some z, Some t => Some (((x * 16 + y) * 16 + z) * 16 + t)%N
  | _, _, _, _ => None
  end.

Definition escape (c : ascii) : option ascii :=
  match c with
  | "034" => Some "034" | "\" => Some "\" | "/" => Some "/"
  | "b" => Some "008" | "f" => Some "012" | "n" => Some "010"
  | "r" => Some "013" | "t" => Some "009"
  | _ => None
  end%char.

Definition cons_fst (c : ascii) (p : string * string) : string * string :=
  (String c (fst p), snd p).

(** The characters of a string literal after its opening quote, and
    the text after its closing quote. *)
Fixpoint string_body (s : string) : option (string * string) :=
  match s with
  | "" => None
  | String c s' =>
      if Ascii.eqb c "034" then Some ("", s')
      else if Ascii.eqb c "\" then
        match s' with
        | String e s'' =>
            if Ascii.eqb e "u" then
              match s'' with
              | String h1 (String h2 (String h3 (String h4 s3))) =>
                  match hex4 h1 h2 h3 h4 with
                  | Some n =>
                      if (n <? 256)%N
                      then cons_fst (ascii_of_N n) <$> string_body s3
                      else None
                  | None => None
                  end
              | _ => None
              end
            else
              match escape e with
              | Some ch => cons_fst ch <$> string_body s''
              | None => None
              end
        | "" => None
        end
      else if (N_of_ascii c <? 32)%N then None
      else cons_fst c <$> string_body s'
  end.

Fixpoint digits (acc : N) (s : string) : N * string :=
  match s with
  | "" => (acc, "")
  | String c s' =>
      match digit c with
      | Some d => digits (acc * 10 + d) s'
      | None => (acc, s)
      end
  end.

Definition starts_fraction (s : string) : bool :=
  match s with
  | String c _ => Ascii.eqb c "." || Ascii.eqb c "e" || Ascii.eqb c "E"
  | "" => false
  end.

(** [0] or a digit string without a leading zero; [None] also on what
    goes on as a float. *)
Definition natural (s : string) : option (N * string) :=
  match s with
  | String c s' =>
      match digit c with
      | Some 0%N => if starts_fraction s' then None else Some (0%N, s')
      | Some d =>
          let '(n, rest) := digits d s' in
          if starts_fraction rest then None else Some (n, rest)
      | None => None
      end
  | "" => None
  end.

Definition literal (word : string) (v : json) (s : string) : option (json * string) :=
  if String.prefix word s then Some (v, str_drop (String.length word) s) else None.

(** A later binding of a key replaces the earlier one in place. *)
Fixpoint obj_set (k : string) (v : json) (kvs : list (string * json))
  : list (string * json) :=
  match kvs with
  | [] => [(k, v)]
  | (k', v') :: kvs' =>
      if String.eqb k k' then (k, v) :: kvs' else (k', v') :: obj_set k v kvs'
  end.

Fixpoint value (fuel : nat) (s : string) {struct fuel} : option (json * string) :=
  match fuel with
  | O => None
  | S fuel' =>
      match s with
      | "" => None
      | String c s' =>
          if Ascii.eqb c "{" then
            match skip_ws s' with
            | String "}" rest => Some (JObj [], rest)
            | body => members fuel' [] body
            end
          else if Ascii.eqb c "[" then
            match skip_ws s' with
            | String "]" rest => Some (JArr [], rest)
            | body => elements fuel' [] body
            end
          else if Ascii.eqb c "034" then
            (fun p => (JStr (fst p), snd p)) <$> string_body s'
          else if Ascii.eqb c "-" then
            (fun p => (JInt (- Z.of_N (fst p)), snd p)) <$> natural s'
          else if Ascii.eqb c "t" then literal "true" (JBool true) s
          else if Ascii.eqb c "f" then literal "false" (JBool false) s
          else if Ascii.eqb c "n" then literal "null" JNull s
          else (fun p => (JInt (Z.of_N (fst p)), snd p)) <$> natural s
      end
  end
(** the items of an array after [[] or a comma; [acc] is reversed *)
with elements (fuel : nat) (acc : list json) (s : string) {struct fuel}
  : option (json * string) :=
  match fuel with
  | O => None
  | S fuel' =>
      match value fuel' (skip_ws s) with
      | Some (v, rest) =>
          match skip_ws rest with
          | String "," rest' => elements fuel' (v :: acc) rest'
          | String "]" rest' => Some (JArr (rev (v :: acc)), rest')
          | _ => None
          end
      | None => None
      end
  end
(** the members of an object after [{] or a comma *)
with members (fuel : nat) (acc : list (string * json)) (s : string) {struct fuel}
  : option (json * string) :=
  match fuel with
  | O => None
  | S fuel' =>
      match skip_ws s with
      | String "034" s1 =>
          match string_body s1 with
          | Some (k, s2) =>
              match skip_ws s2 with
              | String ":" s3 =>
                  match value fuel' (skip_ws s3) with
                  | Some (v, rest) =>
                      match skip_ws rest with
                      | String "," rest' => members fuel' (obj_set k v acc) rest'
                      | String "}" rest' => Some (JObj (obj_set k v acc), rest')
                      | _ => None
                      end
                  | None => None
                  end
              | _ => None
              end
          | None => None
          end
      | _ => None
      end
  end.

Definition decode (s : string) : option json :=
  match value (S (String.length s)) (skip_ws s) with
  | Some (v, rest) => match skip_ws rest with "" => Some v | _ => None end
  | None => None
  end.

(** The encoder: [json.dumps] with its default arguments on a value
    without floats ([None] on one that holds a float): separators [", "]
    and [": "], and every character outside the printable ASCII range
    escaped. *)

Definition hex_char (n : N) : ascii :=
  if (n <? 10)%N then ascii_of_N (48 + n) else ascii_of_N (87 + n).

Definition escaped (c : ascii) : string :=
  if Ascii.eqb c "034" then "\" +:+ dq
  else if Ascii.eqb c "\" then "\\"
  else if Ascii.eqb c "008" then "\b"
  else if Ascii.eqb c "012" then "\f"
  else if Ascii.eqb c "010" then "\n"
  else if Ascii.eqb c "013" then "\r"
  else if Ascii.eqb c "009" then "\t"
  else if printable c then String c ""
  else "\u00" +:+ String (hex_char (N_of_ascii c / 16))
                    (String (hex_char (N_of_ascii c mod 16)) "").

Fixpoint escape_all (s : string) : string :=
  match s with
  | "" => ""
  | String c s' => escaped c +:+ escape_all s'
  end.

Definition quoted (s : string) : string := dq +:+ escape_all s +:+ dq.

Fixpoint join (sep : string) (parts : list string) : string :=
  match parts with
  | [] => ""
  | [p] => p
  | p :: rest => p +:+ sep +:+ join sep rest
  end.

Fixpoint all_some {A} (l : list (option A)) : option (list A) :=
  match l with
  | [] => Some []
  | Some x :: l' => cons x <$> all_some l'
  | None :: _ => None
  end.

Definition member (k : string) (p : option string) : option string :=
  (fun text => quoted k +:+ ": " +:+ text) <$> p.

Fixpoint encode (v : json) : option string :=
  match v with
  | JNull => Some "null"
  | JBool true => Some "true"
  | JBool false => Some "false"
  | JInt n => Some (NilZero.string_of_int (Z.to_int n))
  | JFloat _ => None
  | JStr s => Some (quoted s)
  | JArr items =>
      (fun parts => "[" +:+ join ", " parts +:+ "]") <$> all_some (map encode items)
  | JObj fields =>
      (fun parts => "{" +:+ join ", " parts +:+ "}") <$>
      all_some (map (fun kv => member (fst kv) (encode (snd kv))) fields)
  end.

End RefJson.

Definition ref_json : JsonLib := RefJson.decode.

(** ** Notions the statements use *)

(** A tag the pattern takes literally: letters, digits and underscores
    only, so that interpolating it into the regular expression adds no
    operator. *)
Definition word_char (c : ascii) : bool :=
  let n := N_of_ascii c in
  (((48 <=? n) && (n <=? 57)) || ((65 <=? n) && (n <=? 90))
   || ((97 <=? n) && (n <=? 122)) || (n =? 95))%N.

Fixpoint plain_word (s : string) : bool :=
  match s with
  | "" => true
  | String c s' => word_char c && plain_word s'
  end.

(** [X] between an opening fence tagged [tag] and a closing fence. *)
Definition wrap_in_fence (X tag : string) : string :=
  fence_open tag +:+ X +:+ fence_close.

(** The text holds a block fenced with the tag: the tagged pattern
    matches somewhere. *)
Definition tagged_block (text language : string) : Prop :=
  exists pre body post,
    text = pre +:+ fence_open language +:+ body +:+ fence_close +:+ post.

(** The whole trimmed text sits between generic fence markers. *)
Definition generic_wrapped (text : string) : bool :=
  startswith (strip text) "```" && endswith (strip text) "```".

(** [D] is an encoding of [O], as [json.dumps] writes one: the decoder
    maps it to [O]; it has no white space around it, no line that starts
    with a fence, and it does not start with a fence itself. *)
Definition encodes `{JsonLib} (D : string) (O : json) : Prop :=
  json_loads D = Some O /\ strip D = D /\
  occurs fence_close D = false /\ startswith D "```" = false.

(** The text [{"x": 1}]. *)
Definition x1_text : string := "{" +:+ dq +:+ "x" +:+ dq +:+ ": 1}".

(** The state after one more printed line, and after several. *)
Definition say (st : state) (line : string) (args : list arg) : state :=
  State (files st) (printed st ++ [Printed line args]).

Definition says (st : state) (lines : list event) : state :=
  State (files st) (printed st ++ lines).

(** The last lines printed in [st] are [lines]. *)
Definition ends_with (st : state) (lines : list event) : Prop :=
  exists before, printed st = before ++ lines.

(** What [abort_report] prints. *)
Definition abort_notice (headline : string) (e : exn) : list event :=
  [Printed headline []; Printed "Error: {e}" [AExn e]; Printed "Workflow aborted." []].

(** The headline [main] gives an exception: its first clause names the
    four critical classes, its second every [Exception]. *)
Definition critical (e : exn) : bool :=
  catches [ValueError; FileNotFoundError; RequestException; CalledProcessError] e.

Definition headline (e : exn) : string :=
  if critical e then "--- A critical error occurred ---"
  else "--- An unexpected error occurred ---".

(** What [say_complete "final_worksheet.tex"] prints. *)
Definition completion_notice : list event :=
  [Printed "--- Workflow Complete! ---" [];
   Printed "Final worksheet saved to: {output_filename}" [AStr "final_worksheet.tex"];
   Printed "Plot images saved in: {PLOTS_DIR}/" [AStr PLOTS_DIR];
   Printed "To view your worksheet, compile the .tex file using a LaTeX editor (like TeX Live, MiKTeX, or Overleaf)." []].

(** What the fallback of the review stage of the second script prints. *)
Definition degradation_notice (e : exn) : list event :=
  [Printed "--- WARNING: The review step failed to produce a valid response. ---" [];
   Printed "Error details: {e}" [AExn e];
   Printed "The un-reviewed draft will be used instead. Please check the final .tex file carefully." []].

(** The state in which [main] enters its [try]. *)
Definition started (st : state) : state :=
  say st "--- GED Science Worksheet Generator ---" [].

(** [main] with the two handlers resolved: the outcome of the pipeline
    if it returns, the abort report under the headline of the exception
    if it raises. *)
Definition guarded (pipeline : M unit) (st : state) : result unit * state :=
  match pipeline (started st) with
  | (Ok a, st') => (Ok a, st')
  | (Raise e, st') => (Ok tt, says st' (abort_notice (headline e) e))
  end.

(** The scratch file is not on disk. *)
Definition scratch_gone (st : state) : Prop :=
  files st !! TEMP_PLOT_SCRIPT = None.

Definition answered {A} (r : result A) : Prop :=
  match r with Ok _ => True | Raise _ => False end.

(** A world for the examples: the gateway answers each template with a
    fixed text, the child leaves one image and prints [out]. *)
Definition fenced (tag body : string) : string := wrap_in_fence body tag.

Definition syllabus_reply : string :=
  fenced "json"
    ("{" +:+ dq +:+ "chapter_name" +:+ dq +:+ ": " +:+ dq +:+ "Life Science" +:+ dq +:+ ", "
     +:+ dq +:+ "sub_topics" +:+ dq +:+ ": []}").

Definition scripted (review : result string) (api_key model : string) (p : prompt)
    (timeout : nat) : result string :=
  if String.eqb (template p) "syllabus" then Ok syllabus_reply
  else if String.eqb (template p) "plots" then Ok (fenced "python" "print(1)")
  else if String.eqb (template p) "review" then review
  else Ok "\documentclass{article}".

Definition child (returncode : Z) (out : string) (fs : gmap string string)
  : proc_outcome * gmap string string :=
  (Exited returncode out "traceback", <["./plots/p.png" := "png"]> fs).

(** A locale whose encoding takes every text of the model (UTF-8 or
    Latin-1, say). *)
Definition any_text (text : string) : bool := true.

Definition scenario (review : result string) (returncode : Z) (out : string) : world :=
  World (Some "sk-1") "Genetics" (scripted review) (child returncode out) any_text.

Definition fresh : state := State ∅ [].

(** The files the child finds: those of [st] with the extracted program
    in the scratch file. *)
Definition with_scratch (st : state) (response_content : string) : gmap string string :=
  <[TEMP_PLOT_SCRIPT := _extract_code response_content "python"]> (files st).

Definition plots_prompt (syllabus_json : json) : prompt :=
  Prompt "plots" [AJson syllabus_json].

(** A computation that reads and writes no state. *)
Definition stateless {A} (m : M A) : Prop :=
  exists r, forall st, m st = (r, st).

(** What [_extract_json] decodes, if anything: the extracted block first,
    the whole text second. *)
Definition decoded `{JsonLib} (text : string) : option json :=
  match json_loads (_extract_code text "json") with
  | Some v => Some v
  | None => json_loads text
  end.

Definition soft : list exn_class := [JSONDecodeError; KeyError; AttributeError].

(** A number or [True]: a truthy value that cannot be subscripted. *)
Definition truthy_scalar (v : json) : bool :=
  match v with
  | JBool _ | JInt _ | JFloat _ => truthy v
  | _ => false
  end.

Definition field (k : string) (default : json) (fields : list (string * json)) : json :=
  from_option id default (assoc k fields).

(** A reviewer reply the second script cannot use: it does not decode, or
    not to an object, or to an object whose ['revised_latex'] is missing
    or empty while its ['issues_found'] is missing or can be
    subscripted. *)
Definition unusable_reply `{JsonLib} (text : string) : bool :=
  match decoded text with
  | None => true
  | Some (JObj fields) =>
      negb (truthy (field "revised_latex" JNull fields)) &&
      negb (truthy_scalar (field "issues_found" (JArr []) fields))
  | Some _ => true
  end.

(** *** How far a run has come

    [main] has entered its [try] in [started st]; the predicates say that
    the stages before a point returned, with which artifacts, and in which
    state the next stage starts. *)

Definition V1_syllabus_ready `{JsonLib} (w : world) (st : state) (k topics : string)
    (syllabus_json : json) (st2 : state) : Prop :=
  exists st1, load_api_key w (started st) = (Ok k, st1) /\
    V1.get_and_generate_syllabus w k st1 = (Ok (topics, syllabus_json), st2).

Definition V2_syllabus_ready `{JsonLib} (w : world) (st : state) (k topics : string)
    (syllabus_json : json) (st2 : state) : Prop :=
  exists st1, load_api_key w (started st) = (Ok k, st1) /\
    V2.get_and_generate_syllabus w k st1 = (Ok (topics, syllabus_json), st2).

Definition V1_draft_ready `{JsonLib} (w : world) (st : state) (k topics : string)
    (syllabus_json plots_json : json) (draft : string) (st5 : state) : Prop :=
  exists st2 st3 latex_part1 st4,
    V1_syllabus_ready w st k topics syllabus_json st2 /\
    V1.generate_plots w k syllabus_json st2 = (Ok plots_json, st3) /\
    V1.generate_worksheet_part1 w k syllabus_json st3 = (Ok latex_part1, st4) /\
    V1.generate_worksheet_part2 w k latex_part1 plots_json st4 = (Ok draft, st5).

Definition V2_draft_ready `{JsonLib} (w : world) (st : state) (k : string)
    (syllabus_json plots_json : json) (draft : string) (st4 : state) : Prop :=
  exists topics st2 st3,
    V2_syllabus_ready w st k topics syllabus_json st2 /\
    V2.generate_plots w k syllabus_json st2 = (Ok plots_json, st3) /\
    V2.generate_full_worksheet w k syllabus_json plots_json st3 = (Ok draft, st4).

(** The review stage builds its prompt and the gateway gives [reply]. *)
Definition V1_review_reply (w : world) (k topics : string) (plots_json : json)
    (draft : string) (reply : result string) : Prop :=
  exists descriptions,
    (forall st, plot_descriptions plots_json st = (Ok descriptions, st)) /\
    post w k "google/gemini-2.5-pro"
      (Prompt "review" [AStr topics; AList (AJson <$> descriptions); AStr draft]) 240
    = reply.

Definition V2_review_reply (w : world) (k : string) (syllabus_json plots_json : json)
    (draft : string) (reply : result string) : Prop :=
  exists descriptions,
    (forall st, plot_descriptions plots_json st = (Ok descriptions, st)) /\
    post w k "google/gemini-2.5-flash"
      (Prompt "review" [AJson syllabus_json; AList (AJson <$> descriptions); AStr draft]) 300
    = reply.

(** The text [{"plots": [{"path": "a.png"}]}], its value, and the draft
    the scripted gateway returns. *)
Definition one_plot_text : string :=
  "{" +:+ dq +:+ "plots" +:+ dq +:+ ": [{" +:+ dq +:+ "path" +:+ dq +:+ ": "
  +:+ dq +:+ "a.png" +:+ dq +:+ "}]}".

Definition one_plot : json := JObj [("plots", JArr [JObj [("path", JStr "a.png")]])].

Definition demo_syllabus : json :=
  JObj [("chapter_name", JStr "Life Science"); ("sub_topics", JArr [])].

Definition demo_draft : string := "\documentclass{article}".

(** The final worksheet on disk, if any. *)
Definition worksheet (st : state) : option string :=
  files st !! "final_worksheet.tex".

(** No plot to show: what [generate_full_worksheet] makes of
    [plots_json] is an empty or otherwise falsy plot list. *)
Definition no_plots (plots_json : json) : bool :=
  match plots_json with
  | JObj fields => negb (truthy (field "plots" (JArr []) fields))
  | JArr items => negb (truthy (JArr items))
  | _ => true
  end.

(** The text [{"plots": []}] and its value. *)
Definition empty_plots_text : string := "{" +:+ dq +:+ "plots" +:+ dq +:+ ": []}".
Definition empty_plots : json := JObj [("plots", JArr [])].

(** A reviewer reply with a revised worksheet:
    [{"issues_found": [], "revised_latex": "FINAL"}]. *)
Definition revised_reply : string :=
  "{" +:+ dq +:+ "issues_found" +:+ dq +:+ ": [], " +:+ dq +:+ "revised_latex" +:+ dq
  +:+ ": " +:+ dq +:+ "FINAL" +:+ dq +:+ "}".

Definition timed_out : exn := Exn Timeout ["Read timed out."].

(** The last [n] lines printed in [st]. *)
Definition last_lines (n : nat) (st : state) : list event :=
  drop (length (printed st) - n) (printed st).

(** *** Compact texts *)

Fixpoint str_forall (P : ascii -> bool) (s : string) : bool :=
  match s with
  | "" => true
  | String c s' => P c && str_forall P s'
  end.

Fixpoint last_char (s : string) : option ascii :=
  match s with
  | "" => None
  | String c "" => Some c
  | String _ s' => last_char s'
  end.

Definition opens_well (D : string) : bool :=
  match D with
  | String c _ => negb (is_space c) && negb (Ascii.eqb c "`")
  | "" => false
  end.

Definition closes_well (D : string) : bool :=
  match last_char D with
  | Some c => negb (is_space c)
  | None => false
  end.

(** A text as the encoder writes one: printable characters only, no blank
    and no backquote in front, no blank at the end. *)
Definition compact (D : string) : bool :=
  str_forall printable D && opens_well D && closes_well D.

Definition is_digit (c : ascii) : bool :=
  let n := N_of_ascii c in ((48 <=? n) && (n <=? 57))%N.

(** *** Files a computation leaves alone *)

(** Whatever its outcome, [m] leaves the file at every path in [P] as it
    found it (present with the same contents, or absent). *)
Definition untouched {A} (P : string -> Prop) (m : M A) : Prop :=
  forall st p, P p -> files (snd (m st)) !! p = files st !! p.

(** The generated program does not create, change or delete [p]. *)
Definition child_keeps (w : world) (p : string) : Prop :=
  forall fs, snd (run_python w fs) !! p = fs !! p.

(** A path that is neither the scratch file nor the final worksheet and
    that the generated program leaves alone. *)
Definition beside_outputs (w : world) (p : string) : Prop :=
  p <> TEMP_PLOT_SCRIPT /\ p <> "final_worksheet.tex" /\ child_keeps w p.

(** *** The syllabus stage *)

(** An object whose ['sub_topics'] is a list: what the first script's
    basic validation lets pass. *)
Definition has_sub_topics_list (v : json) : bool :=
  match v with
  | JObj fields =>
      match assoc "sub_topics" fields with
      | Some (JArr _) => true
      | _ => false
      end
  | _ => false
  end.

(** The request of the syllabus stage for [topics] is answered with a
    reply from which [_extract_json] decodes [v]. *)
Definition syllabus_decoded `{JsonLib} (w : world) (k topics : string) (timeout : nat)
    (v : json) : Prop :=
  exists reply,
    post w k "perplexity/sonar" (Prompt "syllabus" [AStr topics]) timeout = Ok reply /\
    decoded reply = Some v.

(** What a run has printed when it asks for the topics: the title, the
    confirmation of the key and the prompt of the first stage. *)
Definition asked_for_topics (st : state) : state :=
  says (started st)
    [Printed "API Key loaded successfully." [];
     Printed "--- Step 1: Defining Syllabus ---" [];
     Printed "Enter 1-2 GED Science topics (e.g., 'Genetics and DNA, Chemical Reactions'): " []].

(** *** A run in which every stage succeeds *)

(** The gateway answers the request for [p] to [model] with [text]. *)
Definition replies (w : world) (k model : string) (p : prompt) (timeout : nat)
    (text : string) : Prop :=
  post w k model p timeout = Ok text.

(** A reviewer reply in the shape the prompt asks for: it decodes to an
    object with [revised] under ['revised_latex'] and a list, or nothing,
    under ['issues_found']. *)
Definition review_gives `{JsonLib} (reply : string) (revised : json) : Prop :=
  exists fields, decoded reply = Some (JObj fields) /\
    assoc "revised_latex" fields = Some revised /\
    is_list (field "issues_found" (JArr []) fields) = true.

(** The text [{"issues_found": [], "revised_latex": 5}]. *)
Definition numeric_revision : string :=
  "{" +:+ dq +:+ "issues_found" +:+ dq +:+ ": [], " +:+ dq +:+ "revised_latex" +:+ dq
  +:+ ": 5}".

(** The plots the second script shows: [plots_json] is an object whose
    ['plots'] is the list [items], and the last of them is an object
    with [path] under ['path']. *)
Definition shown_plots (plots_json : json) (items : list json) (path : json) : Prop :=
  exists fields last_fields,
    plots_json = JObj fields /\ assoc "plots" fields = Some (JArr items) /\
    last items = Some (JObj last_fields) /\ assoc "path" last_fields = Some path.

(** The prompt of [generate_full_worksheet] for a syllabus object and the
    plots [items]. *)
Definition full_worksheet_prompt (syllabus_fields : list (string * json))
    (items : list json) (path : json) : prompt :=
  Prompt "full_worksheet"
    [AJson (JObj syllabus_fields);
     AJson (field "chapter_name" (JStr "Science") syllabus_fields);
     AJson (field "lesson_title" (JStr "Core Concepts") syllabus_fields);
     AList (AStr "Section C: Data Interpretation" :: concat (V2.plot_entry <$> items));
     AJson path].

(** The headline under which [main] reports a failed spawn. *)
Definition spawn_headline (why : spawn_error) : string :=
  match why with
  | OtherOSError => "--- An unexpected error occurred ---"
  | _ => "--- A critical error occurred ---"
  end.

(** A [str]: what [f.write] accepts. *)
Definition is_text (v : json) : bool :=
  match v with JStr _ => true | _ => false end.

(** *** A fence without the tag asked for *)

(** [inner] between two bare fence markers. *)
Definition bare_fence (inner : string) : string := "```" +:+ inner +:+ "```".

(** *** A plot result that is not an object *)

(** The text [[{"path": "a.png"}]] and its value: a plot result that is a
    bare list. *)
Definition plot_list_text : string :=
  "[{" +:+ dq +:+ "path" +:+ dq +:+ ": " +:+ dq +:+ "a.png" +:+ dq +:+ "}]".

Definition plot_list : json := JArr [JObj [("path", JStr "a.png")]].

(** *** The report on the reviewer's issues *)

(** What the review stage prints about a list of issues: the heading and
    one line for each issue when the first issue is truthy, the line
    about no major issues otherwise. *)
Definition issue_report (issues : list json) : list event :=
  match issues with
  | first :: _ =>
      if truthy first
      then Printed "  > Reviewer found and fixed the following issues:" []
           :: ((fun issue => Printed "    - {issue}" [AJson issue]) <$> issues)
      else [Printed "  > Reviewer found no major issues." []]
  | [] => [Printed "  > Reviewer found no major issues." []]
  end.

(** *** The two versions of the extraction *)

(** The outcome of [_extract_json] that both scripts share: the value
    decoded from the extracted block or, failing that, from the whole
    text; [JSONDecodeError] carrying the whole text when neither
    decodes. *)
Definition extraction `{JsonLib} (text : string) : result json :=
  match decoded text with
  | Some v => Ok v
  | None => Raise (Exn JSONDecodeError [text])
  end.

(** *** Replies and worlds for the examples *)

(** The text [{"issues_found": []}]: a reviewer reply without a revised
    worksheet. *)
Definition reply_without_revision : string :=
  "{" +:+ dq +:+ "issues_found" +:+ dq +:+ ": []}".

(** A world whose gateway answers the syllabus request with the list
    [[1]] and every other request with a one-line program. *)
Definition list_syllabus_world : world :=
  World (Some "sk-1") "Genetics"
    (fun _ _ p _ =>
       if String.eqb (template p) "syllabus" then Ok "[1]"
       else Ok (fenced "python" "print(1)"))
    (child 0 one_plot_text) any_text.

(** *** Calls that end before the scratch file is written *)

(** The first script can write the program of the reply to the scratch
    file: the locale's encoding, with which it opens the file, takes the
    extracted program. *)
Definition scratch_writable (w : world) (response_content : string) : Prop :=
  locale_encodes w (_extract_code response_content "python") = true.

(** A state with a scratch file left over from an earlier run. *)
Definition stale : state := State {[TEMP_PLOT_SCRIPT := "stale"]} [].

(** A world whose gateway is out of reach. *)
Definition offline : world :=
  World (Some "sk-1") "Genetics" (fun _ _ _ _ => Raise timed_out) (child 0 one_plot_text)
    any_text.

(** A locale with the ASCII encoding. *)
Definition ascii_only (text : string) : bool :=
  str_forall (fun c => (N_of_ascii c <? 128)%N) text.

(** The program [print('e')] with an acute accent on the letter (code
    point 233), and a world that answers every request with it, fenced,
    under the ASCII locale. *)
Definition accented_program : string := "print('" +:+ String "233"%char "" +:+ "')".

Definition ascii_world : world :=
  World (Some "sk-1") "Genetics" (fun _ _ _ _ => Ok (fenced "python" accented_program))
    (child 0 one_plot_text) ascii_only.

(** * Properties *)

(** ** Text helpers *)

Lemma app_nil_str (s : string) : "" +:+ s = s.
Proof. reflexivity. Qed.

Lemma app_cons_str (c : ascii) (a s : string) : String c a +:+ s = String c (a +:+ s).
Proof. reflexivity. Qed.

Lemma app_assoc_str (a b c : string) : (a +:+ b) +:+ c = a +:+ (b +:+ c).
Proof.
  induction a as [|x a IH]; [done|].
  by rewrite !app_cons_str, IH.
Qed.

Lemma prefix_cons (c d : ascii) (p s : string) :
  String.prefix (String c p) (String d s) = bool_decide (c = d) && String.prefix p s.
Proof.
  simpl. destruct (ascii_dec c d) as [->|Hne].
  - by rewrite bool_decide_eq_true_2.
  - by rewrite bool_decide_eq_false_2.
Qed.

Lemma prefix_nil (s : string) : String.prefix "" s = true.
Proof. by destruct s. Qed.

Lemma prefix_app (p s : string) : String.prefix p (p +:+ s) = true.
Proof.
  induction p as [|c p IH]; [apply prefix_nil|].
  by rewrite app_cons_str, prefix_cons, bool_decide_eq_true_2, IH.
Qed.

Lemma str_drop_app (p s : string) : str_drop (String.length p) (p +:+ s) = s.
Proof. induction p as [|c p IH]; [by destruct s | exact IH]. Qed.

Lemma occurs_cons (pat : string) (c : ascii) (s : string) :
  occurs pat (String c s) = String.prefix pat (String c s) || occurs pat s.
Proof. reflexivity. Qed.

Lemma occurs_str_drop (pat : string) (n : nat) (s : string) :
  occurs pat s = false -> occurs pat (str_drop n s) = false.
Proof.
  revert s. induction n as [|n IH]; intros [|c s] Hs; simpl; try done.
  apply IH. rewrite occurs_cons in Hs. by apply orb_false_elim in Hs as [_ ?].
Qed.

Lemma lazy_until_none (closing s : string) :
  occurs closing s = false -> lazy_until closing s = None.
Proof.
  induction s as [|c s IH]; intros Hs.
  - apply orb_false_elim in Hs as [Hp _]. cbn [lazy_until]. by rewrite Hp.
  - rewrite occurs_cons in Hs. apply orb_false_elim in Hs as [Hp Hs].
    cbn [lazy_until]. by rewrite Hp, (IH Hs).
Qed.

Lemma match_here_none (opening closing s : string) :
  occurs closing s = false -> match_here opening closing s = None.
Proof.
  intros Hs. unfold match_here. destruct (String.prefix opening s); [|done].
  apply lazy_until_none. by apply occurs_str_drop.
Qed.

Lemma re_search_none (opening closing s : string) :
  occurs closing s = false -> re_search opening closing s = None.
Proof.
  induction s as [|c s IH]; intros Hs; cbn [re_search];
    rewrite (match_here_none _ _ _ Hs); [done|].
  apply IH. rewrite occurs_cons in Hs. by apply orb_false_elim in Hs as [_ ?].
Qed.

Lemma re_search_here (opening closing s g : string) :
  match_here opening closing s = Some g -> re_search opening closing s = Some g.
Proof. intros Hm. destruct s; cbn [re_search]; by rewrite Hm. Qed.

(** A closing fence cannot begin inside [X] and end inside the fence that
    follows it: the fence has its only newline in front. *)
Lemma lazy_until_closing (X : string) :
  occurs fence_close X = false ->
  lazy_until fence_close (X +:+ fence_close) = Some X.
Proof.
  induction X as [|c X IH]; intros HX; [reflexivity|].
  rewrite occurs_cons in HX. apply orb_false_elim in HX as [Hp HX].
  rewrite app_cons_str. cbn [lazy_until].
  assert (Hq : String.prefix fence_close (String c (X +:+ fence_close)) = false).
  { change fence_close with (String "010" "```") in *.
    destruct X as [|x1 [|x2 [|x3 X]]];
      rewrite ?app_cons_str, ?app_nil_str, ?prefix_cons, ?prefix_nil in *;
      repeat case_bool_decide; simplify_eq/=; done. }
  by rewrite Hq, (IH HX).
Qed.

Lemma occurs_fence_close (X : string) :
  occurs "```" X = false -> occurs fence_close X = false.
Proof.
  induction X as [|c X IH]; [done|].
  rewrite !occurs_cons. intros HX. apply orb_false_elim in HX as [Hp HX].
  rewrite (IH HX), orb_false_r.
  change fence_close with (String "010" "```").
  destruct X as [|x1 X]; [by rewrite prefix_cons, andb_false_r|].
  rewrite occurs_cons in HX. apply orb_false_elim in HX as [Hp' _].
  rewrite prefix_cons, Hp'. apply andb_false_r.
Qed.

Lemma search_fenced (language X : string) :
  occurs fence_close X = false ->
  re_search (fence_open language) fence_close
    (fence_open language +:+ X +:+ fence_close) = Some X.
Proof.
  intros HX. apply re_search_here. unfold match_here.
  by rewrite prefix_app, str_drop_app, lazy_until_closing.
Qed.

Lemma prefix_split (p s : string) :
  String.prefix p s = true -> s = p +:+ str_drop (String.length p) s.
Proof.
  revert s. induction p as [|c p IH]; intros s Hp; [by destruct s|].
  destruct s as [|d s]; [done|].
  rewrite prefix_cons in Hp. apply andb_prop in Hp as [Hc Hp].
  apply bool_decide_eq_true_1 in Hc as ->.
  rewrite app_cons_str. simpl. f_equal. by apply IH.
Qed.

Lemma lazy_until_sound (closing s g : string) :
  lazy_until closing s = Some g -> exists post, s = g +:+ closing +:+ post.
Proof.
  revert g. induction s as [|c s IH]; intros g; cbn [lazy_until].
  - destruct (String.prefix closing "") eqn:Hp; [|done].
    intros [= <-]. exists "". rewrite app_nil_str. by destruct closing.
  - destruct (String.prefix closing (String c s)) eqn:Hp.
    + intros [= <-]. eexists. rewrite app_nil_str. by apply prefix_split.
    + destruct (lazy_until closing s) as [g'|] eqn:Hg; [|done].
      intros [= <-]. destruct (IH g' eq_refl) as [post ->].
      exists post. by rewrite app_cons_str.
Qed.

Lemma match_here_sound (opening closing s g : string) :
  match_here opening closing s = Some g ->
  exists post, s = opening +:+ g +:+ closing +:+ post.
Proof.
  unfold match_here. destruct (String.prefix opening s) eqn:Hp; [|done].
  intros [post Hs]%lazy_until_sound. exists post.
  rewrite <- Hs. by apply prefix_split.
Qed.

(** What [re_search] finds is a block of the text. *)
Lemma re_search_sound (opening closing s g : string) :
  re_search opening closing s = Some g ->
  exists pre post, s = pre +:+ opening +:+ g +:+ closing +:+ post.
Proof.
  induction s as [|c s IH]; cbn [re_search];
    destruct (match_here opening closing _) as [g'|] eqn:Hm.
  - intros [= <-]. apply match_here_sound in Hm as [post ->]. by exists "", post.
  - done.
  - intros [= <-]. apply match_here_sound in Hm as [post ->]. by exists "", post.
  - intros [pre [post ->]]%IH. by exists (String c pre), post.
Qed.

Lemma lazy_until_complete (closing body post : string) :
  is_Some (lazy_until closing (body +:+ closing +:+ post)).
Proof.
  induction body as [|c body IH].
  - rewrite app_nil_str.
    destruct (closing +:+ post) eqn:E; cbn [lazy_until]; rewrite <- E, prefix_app; eauto.
  - rewrite app_cons_str. cbn [lazy_until].
    destruct (String.prefix closing _); [eauto|].
    destruct IH as [g ->]. eauto.
Qed.

(** Where the text holds a block, [re_search] finds one. *)
Lemma re_search_complete (opening closing pre body post : string) :
  is_Some (re_search opening closing
             (pre +:+ opening +:+ body +:+ closing +:+ post)).
Proof.
  induction pre as [|c pre IH].
  - rewrite app_nil_str.
    destruct (lazy_until_complete closing body post) as [g Hg].
    exists g. apply re_search_here. unfold match_here.
    by rewrite prefix_app, str_drop_app.
  - rewrite app_cons_str. cbn [re_search].
    destruct (match_here opening closing _); eauto.
Qed.

Lemma tagged_block_search (text language : string) :
  tagged_block text language <->
  is_Some (re_search (fence_open language) fence_close text).
Proof.
  split.
  - intros (pre & body & post & ->). apply re_search_complete.
  - intros [g (pre & post & ->)%re_search_sound]. by exists pre, g, post.
Qed.

(** ** Compact texts and the reference encoder *)

Lemma str_forall_app (P : ascii -> bool) (a b : string) :
  str_forall P (a +:+ b) = str_forall P a && str_forall P b.
Proof.
  induction a as [|c a IH]; [done|].
  rewrite app_cons_str. simpl. by rewrite IH, andb_assoc.
Qed.

Lemma last_char_snoc (a : string) (c : ascii) : last_char (a +:+ String c "") = Some c.
Proof.
  induction a as [|x a IH]; [done|].
  rewrite app_cons_str. cbn [last_char]. rewrite IH.
  destruct a; by rewrite ?app_nil_str, ?app_cons_str.
Qed.

Lemma rstrip_closes_well (s : string) : closes_well s = true -> rstrip s = s.
Proof.
  unfold closes_well. induction s as [|c s IH]; [done|].
  cbn [last_char rstrip]. destruct s as [|d s].
  - simpl. by intros ->%negb_true_iff.
  - intros Hl. rewrite (IH Hl). done.
Qed.

Lemma strip_compact (D : string) : compact D = true -> strip D = D.
Proof.
  unfold compact. intros [[_ Ho]%andb_prop Hc]%andb_prop.
  unfold strip. destruct D as [|c D]; [done|].
  simpl in Ho. apply andb_prop in Ho as [Hs%negb_true_iff _].
  cbn [lstrip]. rewrite Hs. by apply rstrip_closes_well.
Qed.

Lemma printable_no_newline (D p : string) :
  str_forall printable D = true -> occurs (String "010" p) D = false.
Proof.
  induction D as [|c D IH]; [done|].
  cbn [str_forall]. intros [Hc HD]%andb_prop.
  rewrite occurs_cons, (IH HD), orb_false_r, prefix_cons.
  case_bool_decide as Hnl; [|done]. by subst c.
Qed.

Lemma opens_well_no_fence (D : string) : opens_well D = true -> startswith D "```" = false.
Proof.
  destruct D as [|c D]; [done|]. cbn [opens_well].
  intros [_ Hb%negb_true_iff]%andb_prop. unfold startswith.
  rewrite prefix_cons. apply Ascii.eqb_neq in Hb.
  by rewrite bool_decide_eq_false_2 by congruence.
Qed.

Lemma compact_encodes `{JsonLib} (D : string) (O : json) :
  compact D = true -> json_loads D = Some O -> encodes D O.
Proof.
  intros Hc Hl. split; [done|]. split; [by apply strip_compact|].
  unfold compact in Hc. apply andb_prop in Hc as [[Hp Ho]%andb_prop _].
  split; [by apply printable_no_newline | by apply opens_well_no_fence].
Qed.

Lemma escaped_printable (c : ascii) : str_forall printable (RefJson.escaped c) = true.
Proof. destruct c as [[] [] [] [] [] [] [] []]; reflexivity. Qed.

Lemma escape_all_printable (s : string) : str_forall printable (RefJson.escape_all s) = true.
Proof.
  induction s as [|c s IH]; [done|].
  cbn [RefJson.escape_all]. by rewrite str_forall_app, escaped_printable, IH.
Qed.

Lemma quoted_compact (s : string) : compact (RefJson.quoted s) = true.
Proof.
  unfold compact, RefJson.quoted. rewrite !andb_true_iff. split; [split|].
  - by rewrite !str_forall_app, escape_all_printable.
  - reflexivity.
  - unfold closes_well. change (dq +:+ RefJson.escape_all s +:+ dq) with
      (String "034" (RefJson.escape_all s +:+ String "034" "")).
    rewrite <- app_cons_str, last_char_snoc. reflexivity.
Qed.

Lemma json_nested_ind (P : json -> Prop) :
  P JNull -> (forall b, P (JBool b)) -> (forall n, P (JInt n)) ->
  (forall f, P (JFloat f)) -> (forall s, P (JStr s)) ->
  (forall items, Forall P items -> P (JArr items)) ->
  (forall fields, Forall (fun kv => P (snd kv)) fields -> P (JObj fields)) ->
  forall v, P v.
Proof.
  intros Hnull Hbool Hint Hfloat Hstr Harr Hobj.
  fix IH 1. intros [| b | n | f | s | items | fields].
  - exact Hnull.
  - apply Hbool.
  - apply Hint.
  - apply Hfloat.
  - apply Hstr.
  - apply Harr. induction items as [|x items IHitems]; constructor; [apply IH | exact IHitems].
  - apply Hobj. induction fields as [|kv fields IHfields]; constructor;
      [apply IH | exact IHfields].
Qed.

Lemma uint_digits (d : Decimal.uint) :
  str_forall is_digit (NilEmpty.string_of_uint d) = true.
Proof. induction d; simpl; auto. Qed.

Lemma nilzero_digits (d : Decimal.uint) :
  str_forall is_digit (NilZero.string_of_uint d) = true /\
  NilZero.string_of_uint d <> "".
Proof.
  unfold NilZero.string_of_uint. destruct d; try done;
    (split; [apply (uint_digits (_ d)) | done]).
Qed.

Lemma str_forall_impl (P Q : ascii -> bool) (s : string) :
  (forall c, P c = true -> Q c = true) ->
  str_forall P s = true -> str_forall Q s = true.
Proof.
  intros HPQ. induction s as [|c s IH]; [done|].
  simpl. intros [Hc Hs]%andb_prop. by rewrite (HPQ c Hc), (IH Hs).
Qed.

Lemma str_forall_last (P : ascii -> bool) (s : string) :
  str_forall P s = true -> s <> "" -> exists c, last_char s = Some c /\ P c = true.
Proof.
  induction s as [|c s IH]; [done|].
  cbn [str_forall last_char]. intros [Hc Hs]%andb_prop _.
  destruct s as [|d s]; [by exists c|]. by apply IH.
Qed.

Lemma digit_printable (c : ascii) : is_digit c = true -> printable c = true.
Proof.
  unfold is_digit, printable. intros [H1%N.leb_le H2%N.leb_le]%andb_prop.
  apply andb_true_intro. split; apply N.leb_le; lia.
Qed.

Lemma digit_no_space (c : ascii) : is_digit c = true -> is_space c = false.
Proof.
  unfold is_digit, is_space. intros [H1%N.leb_le H2%N.leb_le]%andb_prop.
  repeat (apply orb_false_intro);
    try (apply andb_false_iff; (left + right); apply N.leb_gt; lia);
    apply N.eqb_neq; lia.
Qed.

Lemma digits_compact (s : string) :
  str_forall is_digit s = true -> s <> "" -> compact s = true.
Proof.
  intros Hd Hne. unfold compact. rewrite !andb_true_iff. split; [split|].
  - eapply str_forall_impl; [apply digit_printable | done].
  - destruct s as [|c s]; [done|]. simpl in Hd. apply andb_prop in Hd as [Hc _].
    cbn [opens_well]. rewrite (digit_no_space c Hc). simpl.
    apply negb_true_iff, Ascii.eqb_neq. intros ->. done.
  - unfold closes_well. destruct (str_forall_last _ _ Hd Hne) as (c & -> & Hc).
    by rewrite (digit_no_space c Hc).
Qed.

Lemma int_compact (n : Z) : compact (NilZero.string_of_int (Z.to_int n)) = true.
Proof.
  unfold NilZero.string_of_int.
  destruct (Z.to_int n) as [d|d]; destruct (nilzero_digits d) as [Hd Hne].
  - by apply digits_compact.
  - pose proof (digits_compact _ Hd Hne) as Hc. unfold compact in *.
    apply andb_prop in Hc as [[Hp Ho]%andb_prop Hl].
    rewrite !andb_true_iff. split; [split|]; [by simpl; rewrite Hp | done |].
    unfold closes_well in *. cbn [last_char].
    by destruct (NilZero.string_of_uint d).
Qed.

Lemma join_printable (parts : list string) :
  Forall (fun p => str_forall printable p = true) parts ->
  str_forall printable (RefJson.join ", " parts) = true.
Proof.
  induction 1 as [|p parts Hp Hparts IH]; [done|].
  destruct parts as [|p' parts]; [done|].
  cbn [RefJson.join] in *. by rewrite !str_forall_app, Hp, IH.
Qed.

Lemma bracketed_compact (l r : ascii) (body : string) :
  printable l = true -> printable r = true ->
  is_space l = false -> is_space r = false -> l <> "`"%char ->
  str_forall printable body = true ->
  compact (String l "" +:+ body +:+ String r "") = true.
Proof.
  intros Hl Hr Hsl Hsr Hb Hbody. unfold compact. rewrite !andb_true_iff.
  split; [split|].
  - rewrite !str_forall_app, Hbody. simpl. by rewrite Hl, Hr.
  - rewrite app_cons_str. cbn [opens_well]. rewrite Hsl. simpl.
    by apply negb_true_iff, Ascii.eqb_neq.
  - unfold closes_well. rewrite <- app_assoc_str, last_char_snoc. by rewrite Hsr.
Qed.

Lemma all_some_Forall {A} (P : A -> Prop) (l : list (option A)) (xs : list A) :
  Forall (fun o => forall x, o = Some x -> P x) l ->
  RefJson.all_some l = Some xs -> Forall P xs.
Proof.
  intros Hl. revert xs. induction Hl as [|o l Ho _ IH]; intros xs; cbn [RefJson.all_some].
  - by intros [= <-].
  - destruct o as [x|]; [|done]. destruct (RefJson.all_some l) as [xs'|]; [|done].
    intros [= <-]. constructor; [by apply Ho | by apply IH].
Qed.

Lemma encode_printable (v : json) :
  forall D, RefJson.encode v = Some D -> str_forall printable D = true.
Proof.
  induction v as [| b | n | f | s | items IH | fields IH] using json_nested_ind;
    intros D; cbn [RefJson.encode].
  - by intros [= <-].
  - destruct b; by intros [= <-].
  - intros [= <-]. pose proof (int_compact n) as Hc. unfold compact in Hc.
    by apply andb_prop in Hc as [[? _]%andb_prop _].
  - done.
  - intros [= <-]. pose proof (quoted_compact s) as Hc. unfold compact in Hc.
    by apply andb_prop in Hc as [[? _]%andb_prop _].
  - destruct (RefJson.all_some (map RefJson.encode items)) as [parts|] eqn:Hparts; [|done].
    intros [= <-].
    rewrite !str_forall_app, join_printable; [done|].
    eapply all_some_Forall; [|exact Hparts].
    apply Forall_map. eapply Forall_impl; [exact IH|]. by intros x Hx p ?; apply Hx.
  - destruct (RefJson.all_some (map _ fields)) as [parts|] eqn:Hparts; [|done].
    intros [= <-].
    rewrite !str_forall_app, join_printable; [done|].
    eapply all_some_Forall; [|exact Hparts].
    apply Forall_map. eapply Forall_impl; [exact IH|].
    intros [k x] Hx p. unfold RefJson.member. cbn [fst snd] in *.
    destruct (RefJson.encode x) as [text|]; [|done]. intros [= <-].
    pose proof (quoted_compact k) as Hc. unfold compact in Hc.
    apply andb_prop in Hc as [[Hk _]%andb_prop _].
    rewrite !str_forall_app, Hk. simpl. by apply Hx.
Qed.

Lemma encode_compact (v : json) (D : string) : RefJson.encode v = Some D -> compact D = true.
Proof.
  intros He. pose proof (encode_printable v D He) as Hp.
  destruct v as [| b | n | f | s | items | fields]; cbn [RefJson.encode] in He.
  - by injection He as <-.
  - destruct b; by injection He as <-.
  - injection He as <-. apply int_compact.
  - done.
  - injection He as <-. apply quoted_compact.
  - destruct (RefJson.all_some _) as [parts|]; [|done]. injection He as <-.
    rewrite !str_forall_app in Hp. apply andb_prop in Hp as [_ [Hp _]%andb_prop].
    by apply (bracketed_compact "[" "]").
  - destruct (RefJson.all_some _) as [parts|]; [|done]. injection He as <-.
    rewrite !str_forall_app in Hp. apply andb_prop in Hp as [_ [Hp _]%andb_prop].
    by apply (bracketed_compact "{" "}").
Qed.

(** ** The extraction layer *)

(** C7 (as amended). For a tag that is a plain word and a text [X] that
    holds no fence sequence, extracting the code of [X] wrapped in a fence
    with that tag gives [X] with the white space at its two ends removed
    (so [X] itself when it has none). *)
Theorem extract_code_wrap_in_fence (X tag : string) :
  plain_word tag = true ->
  occurs "```" X = false ->
  _extract_code (wrap_in_fence X tag) tag = strip X.
Proof.
  intros _ HX. unfold _extract_code, wrap_in_fence.
  by rewrite search_fenced by by apply occurs_fence_close.
Qed.

Lemma extract_code_wrap_in_fence_witness :
  plain_word "python" = true /\ occurs "```" "  x = 1" = false /\
  _extract_code (wrap_in_fence "  x = 1" "python") "python" = "x = 1".
Proof.
  split; [reflexivity|]. split; [reflexivity|].
  apply (extract_code_wrap_in_fence "  x = 1" "python"); reflexivity.
Defined.

(** A text without fence sequences whose wrapped form does not come back:
    the leading blank is lost. *)
Lemma extract_code_wrap_not_identity :
  occurs "```" " x" = false /\
  _extract_code (wrap_in_fence " x" "python") "python" <> " x".
Proof. split; [reflexivity|]. vm_compute. discriminate. Qed.

(** C8 (as amended). When the text holds no block fenced with the tag and
    is not wrapped in generic fences, [_extract_code] returns the text as
    it is, white space at the ends included. *)
Theorem extract_code_fallback (text language : string) :
  plain_word language = true ->
  ~ tagged_block text language ->
  generic_wrapped text = false ->
  _extract_code text language = text.
Proof.
  intros _ Hno Hgen. unfold _extract_code.
  destruct (re_search _ _ text) as [g|] eqn:Hs.
  - destruct Hno. apply tagged_block_search. by rewrite Hs.
  - unfold generic_wrapped in Hgen. by rewrite Hgen.
Qed.

Lemma extract_code_fallback_witness :
  plain_word "python" = true /\ ~ tagged_block "x = 1" "python" /\
  generic_wrapped "x = 1" = false /\
  _extract_code "x = 1" "python" = "x = 1".
Proof.
  assert (Hno : ~ tagged_block "x = 1" "python").
  { intros [g Hg]%tagged_block_search. vm_compute in Hg. discriminate. }
  split; [reflexivity|]. split; [exact Hno|]. split; [reflexivity|].
  apply (extract_code_fallback "x = 1" "python"); [reflexivity | exact Hno | reflexivity].
Defined.

(** A text on which neither pattern matches and which is returned with
    its blanks, not trimmed. *)
Lemma extract_code_fallback_not_trimmed :
  ~ tagged_block " x " "python" /\ generic_wrapped " x " = false /\
  _extract_code " x " "python" = " x " /\ strip " x " = "x".
Proof.
  split; [|by vm_compute].
  intros [g Hg]%tagged_block_search. vm_compute in Hg. discriminate.
Qed.

(** What [_extract_code] makes of an encoding, fenced and bare. *)
Lemma extract_code_of_encoding `{JsonLib} (D : string) (O : json) :
  encodes D O ->
  _extract_code (wrap_in_fence D "json") "json" = D /\ _extract_code D "json" = D.
Proof.
  intros (_ & Hstrip & Hclose & Hstart). unfold _extract_code, wrap_in_fence. split.
  - by rewrite search_fenced, Hstrip.
  - by rewrite re_search_none, Hstrip, Hstart.
Qed.

(** For every text [D] that is an encoding of [O], [_extract_json] yields
    [O] from [D] inside a fence tagged json and from [D] alone, in both
    scripts, printing nothing. *)
Lemma extract_json_of_encoding `{JsonLib} (D : string) (O : json) (st : state) :
  encodes D O ->
  V1._extract_json (wrap_in_fence D "json") st = (Ok O, st) /\
  V1._extract_json D st = (Ok O, st) /\
  V2._extract_json (wrap_in_fence D "json") st = (Ok O, st) /\
  V2._extract_json D st = (Ok O, st).
Proof.
  intros Henc. destruct (extract_code_of_encoding D O Henc) as [Hf Hb].
  destruct Henc as (Hload & _).
  unfold V1._extract_json, V2._extract_json, try_except, loads.
  by rewrite Hf, Hb, Hload.
Qed.

(** C6. For every object [O] that the encoder writes as [D] and the
    decoder reads back from [D], [_extract_json] yields [O] from [D]
    inside a fence tagged json and from [D] alone (there [_extract_code]
    hands the text on unchanged), in both scripts, printing nothing. *)
Theorem extract_json_round_trip `{JsonLib} (O : json) (D : string) (st : state) :
  RefJson.encode O = Some D ->
  json_loads D = Some O ->
  V1._extract_json (wrap_in_fence D "json") st = (Ok O, st) /\
  V1._extract_json D st = (Ok O, st) /\
  V2._extract_json (wrap_in_fence D "json") st = (Ok O, st) /\
  V2._extract_json D st = (Ok O, st).
Proof.
  intros Hwrite Hread. apply extract_json_of_encoding.
  apply compact_encodes; [|exact Hread].
  by apply (encode_compact O).
Qed.

Lemma extract_json_round_trip_witness :
  RefJson.encode (JObj [("x", JInt 1)]) = Some x1_text /\
  @json_loads ref_json x1_text = Some (JObj [("x", JInt 1)]) /\
  @V2._extract_json ref_json (wrap_in_fence x1_text "json") fresh
  = (Ok (JObj [("x", JInt 1)]), fresh) /\
  @V2._extract_json ref_json x1_text fresh = (Ok (JObj [("x", JInt 1)]), fresh).
Proof.
  split; [reflexivity|]. split; [reflexivity|].
  destruct (@extract_json_round_trip ref_json (JObj [("x", JInt 1)]) x1_text fresh
              eq_refl eq_refl) as (_ & _ & Hfenced & Hbare).
  by split.
Defined.

(** The two scenarios of the specification, and the paths of
    [_extract_code]. *)
Example scenario_fenced_json :
  @V1._extract_json ref_json ("```json" +:+ nl +:+ x1_text +:+ nl +:+ "```") fresh
  = (Ok (JObj [("x", JInt 1)]), fresh).
Proof. reflexivity. Qed.

Example scenario_bare_json :
  @V1._extract_json ref_json x1_text fresh = (Ok (JObj [("x", JInt 1)]), fresh).
Proof. reflexivity. Qed.

Example extract_tagged :
  _extract_code ("Here: ```python" +:+ nl +:+ "  x = 1 " +:+ nl +:+ "``` bye") "python"
  = "x = 1".
Proof. reflexivity. Qed.

Example extract_generic :
  _extract_code ("  ```" +:+ nl +:+ "x = 1" +:+ nl +:+ "```  ") "python" = "x = 1".
Proof. reflexivity. Qed.

Example extract_other_tag :
  _extract_code ("```latex" +:+ nl +:+ "x" +:+ nl +:+ "```") "python" = "latex" +:+ nl +:+ "x".
Proof. reflexivity. Qed.

Example extract_short : _extract_code "````" "python" = "".
Proof. reflexivity. Qed.

Example extract_raw : _extract_code " x = 1 " "python" = " x = 1 ".
Proof. reflexivity. Qed.

(** ** The monad *)

Lemma bind_ok {A B} (m : M A) (k : A -> M B) (st st' : state) (a : A) :
  m st = (Ok a, st') -> bind m k st = k a st'.
Proof. unfold bind. by intros ->. Qed.

Lemma bind_raise {A B} (m : M A) (k : A -> M B) (st st' : state) (e : exn) :
  m st = (Raise e, st') -> bind m k st = (Raise e, st').
Proof. unfold bind. by intros ->. Qed.

Lemma print_say (line : string) (args : list arg) (st : state) :
  print line args st = (Ok tt, say st line args).
Proof. reflexivity. Qed.

Lemma subclass_Exception (c : exn_class) : subclass c Exception = true.
Proof. by destruct c. Qed.

Lemma catches_Exception (e : exn) : catches [Exception] e = true.
Proof. unfold catches. simpl. by rewrite subclass_Exception. Qed.

Lemma abort_report_says (h : string) (e : exn) (st : state) :
  abort_report h e st = (Ok tt, says st (abort_notice h e)).
Proof.
  unfold abort_report, bind, print, says, abort_notice. simpl.
  by rewrite <- !app_assoc.
Qed.

Lemma say_complete_says (st : state) :
  say_complete "final_worksheet.tex" st = (Ok tt, says st completion_notice).
Proof.
  unfold say_complete, bind, print, says, completion_notice. simpl.
  by rewrite <- !app_assoc.
Qed.

Lemma ends_with_says (st : state) (lines : list event) : ends_with (says st lines) lines.
Proof. by exists (printed st). Qed.

Lemma ends_with_says_2 (st : state) (l1 l2 : list event) :
  ends_with (says (says st l1) l2) (l1 ++ l2).
Proof. exists (printed st). simpl. by rewrite app_assoc. Qed.

Lemma handlers_resolved (pipeline : M unit) (st : state) :
  (print "--- GED Science Worksheet Generator ---" [];;
   try_except pipeline
     [([ValueError; FileNotFoundError; RequestException; CalledProcessError],
       abort_report "--- A critical error occurred ---");
      ([Exception], abort_report "--- An unexpected error occurred ---")]) st
  = guarded pipeline st.
Proof.
  unfold guarded, bind at 1. rewrite print_say. fold (started st).
  unfold try_except. destruct (pipeline (started st)) as [[a|e] st']; [done|].
  cbn [select]. fold (critical e). unfold headline.
  destruct (critical e); [apply abort_report_says|].
  rewrite catches_Exception. apply abort_report_says.
Qed.

Lemma V1_main_guarded `{JsonLib} (w : world) (st : state) :
  V1.main w st = guarded (V1.pipeline w) st.
Proof. apply handlers_resolved. Qed.

Lemma V2_main_guarded `{JsonLib} (w : world) (st : state) :
  V2.main w st = guarded (V2.pipeline w) st.
Proof. apply handlers_resolved. Qed.

(** ** The orchestrator never raises *)

(** C10. In both scripts [main] returns normally from every state of
    every world; when a stage raised, what [main] adds to the state the
    exception left is the abort report, under the headline of its class. *)
Theorem main_never_raises `{JsonLib} (w : world) (st : state) :
  (exists st', V1.main w st = (Ok tt, st') /\
     forall e st1, V1.pipeline w (started st) = (Raise e, st1) ->
       st' = says st1 (abort_notice (headline e) e)) /\
  (exists st', V2.main w st = (Ok tt, st') /\
     forall e st1, V2.pipeline w (started st) = (Raise e, st1) ->
       st' = says st1 (abort_notice (headline e) e)).
Proof.
  rewrite V1_main_guarded, V2_main_guarded. unfold guarded.
  split.
  - destruct (V1.pipeline w (started st)) as [[[]|e] st1]; eexists; split; try done.
    by intros ? ? [= <- <-].
  - destruct (V2.pipeline w (started st)) as [[[]|e] st1]; eexists; split; try done.
    by intros ? ? [= <- <-].
Qed.

(** ** The scratch file *)

Lemma remove_scratch_gone (st : state) :
  exists st', remove_scratch st = (Ok tt, st') /\ scratch_gone st' /\
    printed st' = printed st.
Proof.
  unfold remove_scratch, bind, path_exists, scratch_gone.
  case_bool_decide as Hthere.
  - eexists. split; [reflexivity|]. split; [apply lookup_delete_eq | done].
  - eexists. split; [reflexivity|]. split; [|done].
    by apply eq_None_not_Some.
Qed.

Lemma try_finally_gone {A} (body : M A) (st : state) :
  scratch_gone (snd (try_finally body remove_scratch st)).
Proof.
  unfold try_finally. destruct (body st) as [r st1].
  destruct (remove_scratch_gone st1) as (st2 & -> & Hgone & _). done.
Qed.

Lemma try_except_of_result {A} (r : result A) (hs : list (clause A)) (st : state) :
  (forall e, r = Raise e ->
     exists st', from_option (fun h => h st) (Raise e, st) (select hs e) = (Raise e, st')
                 /\ files st' = files st) ->
  exists st', try_except (of_result r) hs st = (r, st') /\ files st' = files st.
Proof.
  intros Hh. unfold try_except, of_result. destruct r as [a|e]; [by eexists|].
  destruct (Hh e eq_refl) as (st' & Hsel & Hfs). exists st'.
  by destruct (select hs e).
Qed.

(** The gateway call changes no file, and its outcome is the oracle's. *)
Lemma V1_call_openrouter_post `{JsonLib} (w : world) (k model : string) (p : prompt)
    (st : state) :
  exists st', V1.call_openrouter w k model p st = (post w k model p 240, st') /\
    files st' = files st.
Proof.
  unfold V1.call_openrouter. unfold bind at 1. rewrite print_say.
  edestruct (try_except_of_result (post w k model p 240)) as (st' & -> & Hfs);
    [|by exists st'].
  intros e _. cbn [select]. destruct (catches [RequestException] e); by eexists.
Qed.

Lemma V2_call_openrouter_post `{JsonLib} (w : world) (k model : string) (p : prompt)
    (st : state) :
  exists st', V2.call_openrouter w k model p st = (post w k model p 300, st') /\
    files st' = files st.
Proof.
  unfold V2.call_openrouter. unfold bind at 1. rewrite print_say.
  edestruct (try_except_of_result (post w k model p 300)) as (st' & -> & Hfs);
    [|by exists st'].
  intros e _. cbn [select]. destruct (catches [RequestException] e); by eexists.
Qed.

(** C1 (as amended). Once [generate_plots] has written the scratch file
    (the gateway answered and, in the first script, the locale's encoding
    took the program), the file is not on disk when the call returns or
    raises, whatever the child interpreter does (exit status 0 with or
    without decodable output, another exit status, an exception out of
    the spawn itself) and whatever the decoder answers, in both scripts.
    A call whose gateway request fails changes no file. *)
Theorem generate_plots_removes_scratch `{JsonLib} (w : world) (k : string)
    (syllabus_json : json) (st : state) :
  (forall resp,
     post w k "google/gemini-2.5-pro" (plots_prompt syllabus_json) 240 = Ok resp ->
     scratch_writable w resp ->
     scratch_gone (snd (V1.generate_plots w k syllabus_json st))) /\
  (forall resp,
     post w k "google/gemini-2.5-pro" (plots_prompt syllabus_json) 300 = Ok resp ->
     scratch_gone (snd (V2.generate_plots w k syllabus_json st))) /\
  (forall e,
     post w k "google/gemini-2.5-pro" (plots_prompt syllabus_json) 240 = Raise e ->
     files (snd (V1.generate_plots w k syllabus_json st)) = files st) /\
  (forall e,
     post w k "google/gemini-2.5-pro" (plots_prompt syllabus_json) 300 = Raise e ->
     files (snd (V2.generate_plots w k syllabus_json st)) = files st).
Proof.
  unfold plots_prompt.
  destruct (V1_call_openrouter_post w k "google/gemini-2.5-pro"
              (Prompt "plots" [AJson syllabus_json])
              (say st "--- Step 2: Generating Plots ---" [])) as (st1 & Hcall1 & Hfs1).
  destruct (V2_call_openrouter_post w k "google/gemini-2.5-pro"
              (Prompt "plots" [AJson syllabus_json])
              (say st "--- Step 2: Generating Data Visualizations ---" []))
    as (st2 & Hcall2 & Hfs2).
  repeat split.
  - intros resp Hpost Henc. rewrite Hpost in Hcall1.
    unfold V1.generate_plots. unfold bind at 1. rewrite print_say.
    rewrite (bind_ok _ _ _ _ _ Hcall1).
    unfold bind at 1, write_file, can_encode. unfold scratch_writable in Henc. rewrite Henc.
    unfold bind at 1. rewrite print_say. apply try_finally_gone.
  - intros resp Hpost. rewrite Hpost in Hcall2.
    unfold V2.generate_plots. unfold bind at 1. rewrite print_say.
    rewrite (bind_ok _ _ _ _ _ Hcall2).
    unfold bind at 1, write_file, can_encode.
    unfold bind at 1. rewrite print_say. apply try_finally_gone.
  - intros e Hpost. rewrite Hpost in Hcall1.
    unfold V1.generate_plots. unfold bind at 1. rewrite print_say.
    rewrite (bind_raise _ _ _ _ _ Hcall1). exact Hfs1.
  - intros e Hpost. rewrite Hpost in Hcall2.
    unfold V2.generate_plots. unfold bind at 1. rewrite print_say.
    rewrite (bind_raise _ _ _ _ _ Hcall2). exact Hfs2.
Qed.

(** An instance: the child exits with status 1 while a stale scratch file
    is on disk; the file is gone after the call. *)
Lemma generate_plots_removes_scratch_witness :
  scratch_gone
    (snd (@V1.generate_plots ref_json (scenario (Ok "") 1 "") "sk-1" JNull stale)).
Proof.
  apply (proj1 (@generate_plots_removes_scratch ref_json (scenario (Ok "") 1 "")
                  "sk-1" JNull stale) (fenced "python" "print(1)"));
    reflexivity.
Defined.

(** Two calls after which the scratch file is on disk. With the gateway
    out of reach, a file left over from an earlier run is still there
    when the call has raised, in both scripts. In the first script, under
    a locale that cannot encode the program, [f.write] raises
    [UnicodeEncodeError] ahead of the [try] and the file [open] has just
    created stays behind, empty. *)
Lemma scratch_file_survives_early_failure :
  files (snd (@V1.generate_plots ref_json offline "sk-1" demo_syllabus stale))
    !! TEMP_PLOT_SCRIPT = Some "stale" /\
  files (snd (@V2.generate_plots ref_json offline "sk-1" demo_syllabus stale))
    !! TEMP_PLOT_SCRIPT = Some "stale" /\
  fst (@V1.generate_plots ref_json ascii_world "sk-1" demo_syllabus fresh)
    = Raise (Exn UnicodeEncodeError [accented_program]) /\
  files (snd (@V1.generate_plots ref_json ascii_world "sk-1" demo_syllabus fresh))
    !! TEMP_PLOT_SCRIPT = Some "".
Proof. repeat split; vm_compute; reflexivity. Qed.

Lemma remove_scratch_delete (st : state) :
  remove_scratch st = (Ok tt, State (delete TEMP_PLOT_SCRIPT (files st)) (printed st)).
Proof.
  unfold remove_scratch, bind, path_exists, remove, ret.
  case_bool_decide as Hthere; [done|].
  rewrite delete_id; [by destruct st | by apply eq_None_not_Some].
Qed.

Lemma V1_call_openrouter_ok `{JsonLib} (w : world) (k model resp : string) (p : prompt)
    (st : state) :
  post w k model p 240 = Ok resp ->
  V1.call_openrouter w k model p st
  = (Ok resp, say st "  > Calling model: {model}..." [AStr model]).
Proof.
  intros Hp. unfold V1.call_openrouter, bind, print, try_except, of_result.
  by rewrite Hp.
Qed.

Lemma V2_call_openrouter_ok `{JsonLib} (w : world) (k model resp : string) (p : prompt)
    (st : state) :
  post w k model p 300 = Ok resp ->
  V2.call_openrouter w k model p st
  = (Ok resp, say st "  > Calling model: {model}..." [AStr model]).
Proof.
  intros Hp. unfold V2.call_openrouter, bind, print, try_except, of_result.
  by rewrite Hp.
Qed.

(** The steps every proof about [generate_plots] starts with: up to the
    outcome of the child, which [Hrun] gives. *)
Ltac run_sandbox call_ok Hrun :=
  unfold bind at 1; rewrite print_say;
  erewrite bind_ok by (by apply call_ok);
  unfold bind at 1, write_file, can_encode;
  try match goal with
      | Henc : scratch_writable _ _ |- _ => unfold scratch_writable in Henc; rewrite Henc
      end;
  unfold bind at 1; rewrite print_say;
  unfold try_finally, try_except, bind, subprocess_run, loads; simpl;
  unfold with_scratch in Hrun; rewrite Hrun; simpl.

Lemma V1_generate_plots_accepts `{JsonLib} (w : world) (k resp out err : string)
    (syllabus_json v : json) (st : state) (fs : gmap string string) :
  post w k "google/gemini-2.5-pro" (plots_prompt syllabus_json) 240 = Ok resp ->
  scratch_writable w resp ->
  run_python w (with_scratch st resp) = (Exited 0 out err, fs) ->
  json_loads out = Some v ->
  exists st', V1.generate_plots w k syllabus_json st = (Ok v, st') /\
    files st' = delete TEMP_PLOT_SCRIPT fs.
Proof.
  intros Hpost Henc Hrun Hload. unfold V1.generate_plots.
  run_sandbox V1_call_openrouter_ok Hrun. rewrite Hload. simpl.
  rewrite remove_scratch_delete. by eexists.
Qed.

Lemma stateless_ret {A} (a : A) : stateless (ret a).
Proof. by exists (Ok a). Qed.

Lemma stateless_raise {A} (e : exn) : stateless (raise (A := A) e).
Proof. by exists (Raise e). Qed.

Lemma stateless_bind {A B} (m : M A) (k : A -> M B) :
  stateless m -> (forall a, stateless (k a)) -> stateless (bind m k).
Proof.
  intros [[a|e] Hm] Hk.
  - destruct (Hk a) as [r Hr]. exists r. intros st. unfold bind. by rewrite Hm.
  - exists (Raise e). intros st. unfold bind. by rewrite Hm.
Qed.

Lemma stateless_py_get (v : json) (k : string) (d : json) : stateless (py_get v k d).
Proof. destruct v; apply stateless_ret || apply stateless_raise. Qed.

Lemma stateless_py_iter (v : json) : stateless (py_iter v).
Proof. destruct v; apply stateless_ret || apply stateless_raise. Qed.

Lemma stateless_mapM {A B} (f : A -> M B) (l : list A) :
  (forall a, stateless (f a)) -> stateless (mapM f l).
Proof.
  intros Hf. induction l as [|x l IH]; [apply stateless_ret|].
  cbn [mapM]. apply stateless_bind; [apply Hf|]. intros y.
  apply stateless_bind; [apply IH|]. intros ys. apply stateless_ret.
Qed.

Lemma stateless_plot_descriptions (plots_json : json) :
  stateless (plot_descriptions plots_json).
Proof.
  unfold plot_descriptions.
  apply stateless_bind; [apply stateless_py_get|]. intros plots.
  apply stateless_bind; [apply stateless_py_iter|]. intros items.
  apply stateless_mapM. intros p. apply stateless_py_get.
Qed.

Lemma stateless_moves {A} (m : M A) (r : result A) (st st1 st2 : state) :
  stateless m -> m st = (r, st1) -> m st2 = (r, st2).
Proof. intros [r' Hm]. rewrite !Hm. by intros [= ->]. Qed.

Lemma try_except_ok {A} (body : M A) (hs : list (clause A)) (st st' : state) (a : A) :
  body st = (Ok a, st') -> try_except body hs st = (Ok a, st').
Proof. unfold try_except. by intros ->. Qed.

Lemma try_except_caught {A} (body : M A) (cs : list exn_class) (h : exn -> M A)
    (st st' : state) (e : exn) :
  body st = (Raise e, st') -> catches cs e = true ->
  try_except body [(cs, h)] st = h e st'.
Proof. unfold try_except. intros -> Hc. cbn [select]. by rewrite Hc. Qed.

Lemma try_except_missed {A} (body : M A) (cs : list exn_class) (h : exn -> M A)
    (st st' : state) (e : exn) :
  body st = (Raise e, st') -> catches cs e = false ->
  try_except body [(cs, h)] st = (Raise e, st').
Proof. unfold try_except. intros -> Hc. cbn [select]. by rewrite Hc. Qed.

(** [_extract_json] in the second script: the decoded value, or
    [JSONDecodeError] carrying the whole text after one printed line. *)
Lemma V2_extract_json_decoded `{JsonLib} (text : string) (st : state) :
  V2._extract_json text st =
  match decoded text with
  | Some v => (Ok v, st)
  | None =>
      (Raise (Exn JSONDecodeError [text]),
       say st "Could not parse JSON from response: {e}" [AExn (Exn JSONDecodeError [text])])
  end.
Proof.
  unfold V2._extract_json, decoded, try_except, loads.
  destruct (json_loads (_extract_code text "json")) as [v|]; [done|].
  cbn. destruct (json_loads text); done.
Qed.

(** In the first script the first failure is reported before the second
    attempt. *)
Lemma V1_extract_json_decoded `{JsonLib} (text : string) (st : state) :
  exists st',
    V1._extract_json text st =
    match decoded text with
    | Some v => (Ok v, st')
    | None => (Raise (Exn JSONDecodeError [text]), st')
    end /\ files st' = files st.
Proof.
  unfold V1._extract_json, decoded, try_except, loads.
  destruct (json_loads (_extract_code text "json")) as [v|]; [by exists st|].
  cbn. destruct (json_loads text); eexists; (split; [reflexivity|done]).
Qed.

Lemma print_each_files (line : string) (items : list json) (st : state) :
  exists us st', mapM (fun issue => print line [AJson issue]) items st = (Ok us, st') /\
    files st' = files st.
Proof.
  revert st. induction items as [|x items IH]; intros st; [by exists [], st|].
  cbn [mapM]. unfold bind at 1. rewrite print_say.
  destruct (IH (say st line [AJson x])) as (us & st' & Hm & Hfs).
  unfold bind at 1. rewrite Hm. by exists (() :: us), st'.
Qed.

Lemma announce_issues_files (issues : json) (items : list json) (st : state) :
  py_iter issues = ret items ->
  exists st',
    (print "  > Reviewer found and fixed the following issues:" [];;
     items ← py_iter issues;
     mapM (fun issue => print "    - {issue}" [AJson issue]) items;;
     ret tt) st = (Ok tt, st') /\ files st' = files st.
Proof.
  intros ->. unfold bind at 1. rewrite print_say. unfold bind at 1, ret at 1.
  destruct (print_each_files "    - {issue}" items
              (say st "  > Reviewer found and fixed the following issues:" []))
    as (us & st' & Hm & Hfs).
  rewrite (bind_ok _ _ _ _ _ Hm). by exists st'.
Qed.

(** On an object whose issue list is no truthy scalar, the report of the
    issues changes no file and raises nothing but [KeyError]. *)
Lemma report_issues_soft (fields : list (string * json)) (st : state) :
  truthy_scalar (field "issues_found" (JArr []) fields) = false ->
  exists r st', report_issues (JObj fields) st = (r, st') /\ files st' = files st /\
    match r with Ok _ => True | Raise e => catches soft e = true end.
Proof.
  unfold report_issues, field. cbn [py_get]. unfold bind at 1, ret at 1.
  generalize (from_option id (JArr []) (assoc "issues_found" fields)). intros issues Hsc.
  unfold has_issues.
  destruct (truthy issues) eqn:Htruthy; [|by exists (Ok tt); eexists].
  destruct issues as [| b | n | f | s | items | kvs]; simpl in Hsc, Htruthy; try congruence.
  - destruct s as [|c s]; [done|].
    erewrite bind_ok with (a := true) by reflexivity.
    destruct (announce_issues_files (JStr (String c s)) _ st eq_refl) as (st' & -> & Hfs).
    by exists (Ok tt), st'.
  - destruct items as [|x items]; [done|].
    erewrite bind_ok with (a := truthy x) by reflexivity.
    destruct (truthy x); [|by exists (Ok tt); eexists].
    destruct (announce_issues_files (JArr (x :: items)) _ st eq_refl) as (st' & -> & Hfs).
    by exists (Ok tt), st'.
  - destruct kvs; [done|]. by exists (Raise (Exn KeyError ["0"])), st.
Qed.

(** ** The review stage *)

Lemma V2_pipeline_after_draft `{JsonLib} (w : world) (st : state) (k : string)
    (syllabus_json plots_json : json) (draft : string) (st4 : state) :
  V2_draft_ready w st k syllabus_json plots_json draft st4 ->
  V2.pipeline w (started st) =
  (final_latex ← V2.review_worksheet w k draft syllabus_json plots_json;
   write_value w "final_worksheet.tex" final_latex;;
   say_complete "final_worksheet.tex") st4.
Proof.
  intros (topics & st2 & st3 & (st1 & Hkey & Hsyl) & Hplots & Hdraft).
  unfold V2.pipeline.
  rewrite (bind_ok _ _ _ _ _ Hkey), (bind_ok _ _ _ _ _ Hsyl). cbv beta iota.
  by rewrite (bind_ok _ _ _ _ _ Hplots), (bind_ok _ _ _ _ _ Hdraft).
Qed.

Lemma V1_pipeline_after_draft `{JsonLib} (w : world) (st : state) (k topics : string)
    (syllabus_json plots_json : json) (draft : string) (st5 : state) :
  V1_draft_ready w st k topics syllabus_json plots_json draft st5 ->
  V1.pipeline w (started st) =
  (final_latex ← V1.review_worksheet w k draft topics plots_json;
   write_value w "final_worksheet.tex" final_latex;;
   say_complete "final_worksheet.tex") st5.
Proof.
  intros (st2 & st3 & part1 & st4 & (st1 & Hkey & Hsyl) & Hplots & Hp1 & Hp2).
  unfold V1.pipeline.
  rewrite (bind_ok _ _ _ _ _ Hkey), (bind_ok _ _ _ _ _ Hsyl). cbv beta iota.
  by rewrite (bind_ok _ _ _ _ _ Hplots), (bind_ok _ _ _ _ _ Hp1), (bind_ok _ _ _ _ _ Hp2).
Qed.

(** The body of the [try] of the second script's review stage raises one
    of the three classes its handler names when the reply is unusable. *)
Lemma V2_review_body_soft `{JsonLib} (w : world) (k resp : string) (p : prompt)
    (st : state) :
  post w k "google/gemini-2.5-flash" p 300 = Ok resp ->
  unusable_reply resp = true ->
  exists e st1,
    (response_content ← V2.call_openrouter w k "google/gemini-2.5-flash" p;
     review_json ← V2._extract_json response_content;
     report_issues review_json;;
     final_latex ← py_get review_json "revised_latex" JNull;
     if negb (truthy final_latex) then
       raise (Exn KeyError ["Reviewer JSON response did not contain 'revised_latex' key."])
     else
       print "Final review complete." [];;
       ret final_latex) st = (Raise e, st1) /\
    catches soft e = true /\ files st1 = files st.
Proof.
  intros Hpost Hbad.
  erewrite bind_ok by by apply V2_call_openrouter_ok.
  unfold bind at 1. rewrite V2_extract_json_decoded.
  unfold unusable_reply in Hbad.
  destruct (decoded resp) as [v|]; [|by repeat eexists].
  destruct v as [| b | n | f | s | items | fields];
    try by (eexists (Exn AttributeError _), _).
  apply andb_prop in Hbad as [Hrev Hiss]. apply negb_true_iff in Hiss.
  destruct (report_issues_soft fields
              (say st "  > Calling model: {model}..." [AStr "google/gemini-2.5-flash"]) Hiss)
    as (r & st1 & Hrep & Hfs & Hr).
  destruct r as [[]|e].
  - rewrite (bind_ok _ _ _ _ _ Hrep). cbn [py_get]. unfold bind at 1, ret at 1.
    fold (field "revised_latex" JNull fields). rewrite Hrev.
    by eexists _, st1.
  - rewrite (bind_raise _ _ _ _ _ Hrep). by exists e, st1.
Qed.

Lemma V2_review_degrades `{JsonLib} (w : world) (k resp draft : string)
    (syllabus_json plots_json : json) (st : state) :
  V2_review_reply w k syllabus_json plots_json draft (Ok resp) ->
  unusable_reply resp = true ->
  exists e st1,
    V2.review_worksheet w k draft syllabus_json plots_json st
    = (Ok (JStr draft), says st1 (degradation_notice e)) /\
    files st1 = files st.
Proof.
  intros (ds & Hds & Hpost) Hbad. unfold V2.review_worksheet.
  unfold bind at 1. rewrite print_say. rewrite (bind_ok _ _ _ _ _ (Hds _)).
  destruct (V2_review_body_soft w k resp _ (say st "--- Step 4: Final Review ---" [])
              Hpost Hbad) as (e & st1 & Hbody & Hsoft & Hfs).
  fold soft. rewrite (try_except_caught _ _ _ _ _ _ Hbody Hsoft).
  exists e, st1. split; [|done].
  unfold bind, print, ret, says, degradation_notice. simpl. by rewrite <- !app_assoc.
Qed.

Lemma V1_review_undecodable `{JsonLib} (w : world) (k resp draft topics : string)
    (plots_json : json) (st : state) :
  V1_review_reply w k topics plots_json draft (Ok resp) ->
  decoded resp = None ->
  exists st1,
    V1.review_worksheet w k draft topics plots_json st
    = (Raise (Exn JSONDecodeError [resp]), st1) /\
    files st1 = files st.
Proof.
  intros (ds & Hds & Hpost) Hbad. unfold V1.review_worksheet.
  unfold bind at 1. rewrite print_say. rewrite (bind_ok _ _ _ _ _ (Hds _)).
  erewrite bind_ok by (apply V1_call_openrouter_ok; exact Hpost).
  destruct (V1_extract_json_decoded resp
              (say (say st "--- Step 5: Final Review ---" [])
                 "  > Calling model: {model}..." [AStr "google/gemini-2.5-pro"]))
    as (st1 & Hext & Hfs).
  rewrite Hbad in Hext. rewrite (bind_raise _ _ _ _ _ Hext). by exists st1.
Qed.

(** C2 (as amended). In the second script, when the stages before the
    review have produced a draft and the reviewer's reply is unusable (it
    does not decode, or not to an object, or to an object without a
    non-empty ['revised_latex'] whose ['issues_found'] is no number and
    not [true]), the worksheet written is the draft and the run completes
    after the warning that the draft is un-reviewed. In the first script a
    reply that does not decode aborts the run: nothing is written after
    the draft was made, and the critical-error report ends the output. *)
Theorem review_failure_degrades_in_second_script `{JsonLib} :
  (forall w st k syllabus_json plots_json draft st4 resp,
     V2_draft_ready w st k syllabus_json plots_json draft st4 ->
     V2_review_reply w k syllabus_json plots_json draft (Ok resp) ->
     unusable_reply resp = true ->
     exists e st',
       V2.main w st = (Ok tt, st') /\
       files st' = <["final_worksheet.tex" := draft]> (files st4) /\
       ends_with st' (degradation_notice e ++ completion_notice)) /\
  (forall w st k topics syllabus_json plots_json draft st5 resp,
     V1_draft_ready w st k topics syllabus_json plots_json draft st5 ->
     V1_review_reply w k topics plots_json draft (Ok resp) ->
     decoded resp = None ->
     exists st',
       V1.main w st = (Ok tt, st') /\
       files st' = files st5 /\
       ends_with st'
         (abort_notice "--- A critical error occurred ---" (Exn JSONDecodeError [resp]))).
Proof.
  split.
  - intros w st k syl plots draft st4 resp Hready Hreply Hbad.
    rewrite V2_main_guarded. unfold guarded.
    rewrite (V2_pipeline_after_draft _ _ _ _ _ _ _ Hready).
    destruct (V2_review_degrades w k resp draft syl plots st4 Hreply Hbad)
      as (e & st1 & Hrev & Hfs).
    rewrite (bind_ok _ _ _ _ _ Hrev). cbn [write_value].
    unfold bind at 1, write_file; cbn [can_encode]. rewrite say_complete_says.
    exists e. eexists. split; [reflexivity|]. split.
    + simpl. by rewrite Hfs.
    + exists (printed st1). simpl. by rewrite <- !app_assoc.
  - intros w st k topics syl plots draft st5 resp Hready (ds & Hds & Hpost) Hbad.
    rewrite V1_main_guarded. unfold guarded.
    rewrite (V1_pipeline_after_draft _ _ _ _ _ _ _ _ Hready).
    destruct (V1_review_undecodable w k resp draft topics plots st5
                (ex_intro _ ds (conj Hds Hpost)) Hbad) as (st6 & Hrev & Hfs).
    rewrite (bind_raise _ _ _ _ _ Hrev).
    eexists. split; [reflexivity|]. split; [done|].
    apply ends_with_says.
Qed.

Lemma review_failure_degrades_in_second_script_witness :
  exists e st',
    @V2.main ref_json (scenario (Ok "not json") 0 one_plot_text) fresh = (Ok tt, st') /\
    files st' !! "final_worksheet.tex" = Some demo_draft /\
    ends_with st' (degradation_notice e ++ completion_notice).
Proof.
  edestruct (proj1 (@review_failure_degrades_in_second_script ref_json)
               (scenario (Ok "not json") 0 one_plot_text) fresh "sk-1"
               demo_syllabus one_plot demo_draft)
    as (e & st' & Hmain & Hfiles & Hends).
  - exists "Genetics". eexists. eexists. split; [|split].
    + eexists. split; vm_compute; reflexivity.
    + vm_compute. reflexivity.
    + vm_compute. reflexivity.
  - exists [JStr ""]. split; [intros st; reflexivity | reflexivity].
  - vm_compute. reflexivity.
  - exists e, st'. split; [exact Hmain|]. split; [|exact Hends].
    rewrite Hfiles. apply lookup_insert_eq.
Defined.

(** A run of the first script whose reviewer reply is not JSON: the draft
    was ready, the reply does not decode, and the run aborts without a
    worksheet instead of keeping the draft. *)
Lemma review_failure_aborts_first_script :
  (exists st5, @V1_draft_ready ref_json (scenario (Ok "not json") 0 one_plot_text) fresh
                 "sk-1" "Genetics" demo_syllabus one_plot demo_draft st5) /\
  V1_review_reply (scenario (Ok "not json") 0 one_plot_text) "sk-1" "Genetics" one_plot
    demo_draft (Ok "not json") /\
  @decoded ref_json "not json" = None /\
  fst (@V1.main ref_json (scenario (Ok "not json") 0 one_plot_text) fresh) = Ok tt /\
  worksheet (snd (@V1.main ref_json (scenario (Ok "not json") 0 one_plot_text) fresh))
  = None /\
  last (printed (snd (@V1.main ref_json (scenario (Ok "not json") 0 one_plot_text) fresh)))
  = Some (Printed "Workflow aborted." []).
Proof.
  split.
  { eexists. eexists. eexists. eexists. eexists. split; [|split; [|split]].
    - eexists. split; vm_compute; reflexivity.
    - vm_compute. reflexivity.
    - vm_compute. reflexivity.
    - vm_compute. reflexivity. }
  split.
  { exists [JStr ""]. split; [intros st; reflexivity | reflexivity]. }
  repeat split; vm_compute; reflexivity.
Qed.

(** ** The plot stage *)

Lemma V2_generate_plots_accepts `{JsonLib} (w : world) (k resp out err : string)
    (syllabus_json v : json) (st : state) (fs : gmap string string) :
  post w k "google/gemini-2.5-pro" (plots_prompt syllabus_json) 300 = Ok resp ->
  run_python w (with_scratch st resp) = (Exited 0 out err, fs) ->
  json_loads out = Some v ->
  exists st', V2.generate_plots w k syllabus_json st = (Ok v, st') /\
    files st' = delete TEMP_PLOT_SCRIPT fs.
Proof.
  intros Hpost Hrun Hload. unfold V2.generate_plots.
  run_sandbox V2_call_openrouter_ok Hrun. rewrite Hload. simpl.
  rewrite remove_scratch_delete. by eexists.
Qed.

Lemma V1_generate_plots_undecodable `{JsonLib} (w : world) (k resp out err : string)
    (syllabus_json : json) (st : state) (fs : gmap string string) :
  post w k "google/gemini-2.5-pro" (plots_prompt syllabus_json) 240 = Ok resp ->
  scratch_writable w resp ->
  run_python w (with_scratch st resp) = (Exited 0 out err, fs) ->
  json_loads out = None ->
  exists st',
    V1.generate_plots w k syllabus_json st = (Raise (Exn JSONDecodeError [out]), st') /\
    files st' = delete TEMP_PLOT_SCRIPT fs /\
    ends_with st'
      [Printed "--- ERROR: The generated script did not output valid JSON. ---" [];
       Printed "RAW OUTPUT:" [AStr out]].
Proof.
  intros Hpost Henc Hrun Hload. unfold V1.generate_plots.
  run_sandbox V1_call_openrouter_ok Hrun. rewrite Hload. simpl.
  rewrite remove_scratch_delete. simpl.
  eexists. split; [reflexivity|]. split; [done|].
  eexists. simpl. rewrite <- app_assoc. reflexivity.
Qed.

Lemma V2_generate_plots_undecodable `{JsonLib} (w : world) (k resp out err : string)
    (syllabus_json : json) (st : state) (fs : gmap string string) :
  post w k "google/gemini-2.5-pro" (plots_prompt syllabus_json) 300 = Ok resp ->
  run_python w (with_scratch st resp) = (Exited 0 out err, fs) ->
  json_loads out = None ->
  exists st',
    V2.generate_plots w k syllabus_json st = (Ok empty_plots, st') /\
    files st' = delete TEMP_PLOT_SCRIPT fs /\
    ends_with st'
      [Printed "--- WARNING: The generated script did not output valid JSON or no plots were created. ---" [];
       Printed "RAW OUTPUT:" [AStr out]].
Proof.
  intros Hpost Hrun Hload. unfold V2.generate_plots.
  run_sandbox V2_call_openrouter_ok Hrun. rewrite Hload. simpl.
  rewrite remove_scratch_delete. simpl.
  eexists. split; [reflexivity|]. split; [done|].
  eexists. simpl. rewrite <- app_assoc. reflexivity.
Qed.

Lemma V1_pipeline_plots_raise `{JsonLib} (w : world) (st : state) (k topics : string)
    (syllabus_json : json) (st2 st3 : state) (e : exn) :
  V1_syllabus_ready w st k topics syllabus_json st2 ->
  V1.generate_plots w k syllabus_json st2 = (Raise e, st3) ->
  V1.pipeline w (started st) = (Raise e, st3).
Proof.
  intros (st1 & Hkey & Hsyl) Hplots. unfold V1.pipeline.
  rewrite (bind_ok _ _ _ _ _ Hkey), (bind_ok _ _ _ _ _ Hsyl). cbv beta iota.
  by rewrite (bind_raise _ _ _ _ _ Hplots).
Qed.

(** C9 (as amended). Neither script checks the shape of what the child
    printed: when the child exits with status 0 and its stdout decodes,
    [generate_plots] returns the decoded value as it is, whatever it is,
    and removes the scratch file. In the first script the child runs
    only when the locale's encoding took the program
    ([scratch_writable]). *)
Theorem generate_plots_accepts_any_shape `{JsonLib} :
  (forall w k syllabus_json st resp out err fs v,
     post w k "google/gemini-2.5-pro" (plots_prompt syllabus_json) 240 = Ok resp ->
     scratch_writable w resp ->
     run_python w (with_scratch st resp) = (Exited 0 out err, fs) ->
     json_loads out = Some v ->
     exists st', V1.generate_plots w k syllabus_json st = (Ok v, st') /\
       files st' = delete TEMP_PLOT_SCRIPT fs) /\
  (forall w k syllabus_json st resp out err fs v,
     post w k "google/gemini-2.5-pro" (plots_prompt syllabus_json) 300 = Ok resp ->
     run_python w (with_scratch st resp) = (Exited 0 out err, fs) ->
     json_loads out = Some v ->
     exists st', V2.generate_plots w k syllabus_json st = (Ok v, st') /\
       files st' = delete TEMP_PLOT_SCRIPT fs).
Proof.
  split; intros; [by eapply V1_generate_plots_accepts | by eapply V2_generate_plots_accepts].
Qed.

Lemma generate_plots_accepts_any_shape_witness :
  exists st',
    @V1.generate_plots ref_json (scenario (Ok revised_reply) 0 "[1, 2]") "sk-1"
      demo_syllabus fresh = (Ok (JArr [JInt 1; JInt 2]), st') /\
    scratch_gone st'.
Proof.
  edestruct (proj1 (@generate_plots_accepts_any_shape ref_json)
               (scenario (Ok revised_reply) 0 "[1, 2]") "sk-1" demo_syllabus fresh)
    as (st' & Hrun & Hfiles); [reflexivity | reflexivity | reflexivity | |].
  - vm_compute. reflexivity.
  - exists st'. split; [exact Hrun|]. unfold scratch_gone. rewrite Hfiles.
    apply lookup_delete_eq.
Defined.

(** A run of the first script whose child prints [{}]: the value has no
    ['plots'] field, [generate_plots] returns it, and the run goes on to
    write the reviewed worksheet. *)
Lemma missing_plots_field_accepted :
  @json_loads ref_json "{}" = Some (JObj []) /\
  (exists st2,
     @V1_syllabus_ready ref_json (scenario (Ok revised_reply) 0 "{}") fresh
       "sk-1" "Genetics" demo_syllabus st2 /\
     fst (@V1.generate_plots ref_json (scenario (Ok revised_reply) 0 "{}") "sk-1"
            demo_syllabus st2) = Ok (JObj [])) /\
  fst (@V1.main ref_json (scenario (Ok revised_reply) 0 "{}") fresh) = Ok tt /\
  worksheet (snd (@V1.main ref_json (scenario (Ok revised_reply) 0 "{}") fresh))
  = Some "FINAL" /\
  last (printed (snd (@V1.main ref_json (scenario (Ok revised_reply) 0 "{}") fresh)))
  = last completion_notice.
Proof.
  split; [by vm_compute|]. split.
  { eexists. split.
    - eexists. split; vm_compute; reflexivity.
    - vm_compute. reflexivity. }
  repeat split; vm_compute; reflexivity.
Qed.

(** C4 (as amended). When the child exits with status 0 and its stdout
    does not decode: in the first script [generate_plots] raises
    [JSONDecodeError] carrying the raw stdout after printing it, the
    scratch file is removed, and the run aborts with the critical-error
    report; in the second script [generate_plots] prints the raw stdout
    under a warning, removes the scratch file and returns the empty
    collection [{"plots": []}] instead of raising. In the first script
    the child runs only when the locale's encoding took the program
    ([scratch_writable]). *)
Theorem undecodable_plot_output `{JsonLib} :
  (forall w st k topics syllabus_json st2 resp out err fs,
     V1_syllabus_ready w st k topics syllabus_json st2 ->
     post w k "google/gemini-2.5-pro" (plots_prompt syllabus_json) 240 = Ok resp ->
     scratch_writable w resp ->
     run_python w (with_scratch st2 resp) = (Exited 0 out err, fs) ->
     json_loads out = None ->
     exists st',
       V1.main w st = (Ok tt, st') /\
       files st' = delete TEMP_PLOT_SCRIPT fs /\
       ends_with st'
         ([Printed "--- ERROR: The generated script did not output valid JSON. ---" [];
           Printed "RAW OUTPUT:" [AStr out]] ++
          abort_notice "--- A critical error occurred ---" (Exn JSONDecodeError [out]))) /\
  (forall w k syllabus_json st resp out err fs,
     post w k "google/gemini-2.5-pro" (plots_prompt syllabus_json) 300 = Ok resp ->
     run_python w (with_scratch st resp) = (Exited 0 out err, fs) ->
     json_loads out = None ->
     exists st',
       V2.generate_plots w k syllabus_json st = (Ok empty_plots, st') /\
       files st' = delete TEMP_PLOT_SCRIPT fs /\
       ends_with st'
         [Printed "--- WARNING: The generated script did not output valid JSON or no plots were created. ---" [];
          Printed "RAW OUTPUT:" [AStr out]]).
Proof.
  split.
  - intros w st k topics syl st2 resp out err fs Hready Hpost Henc Hrun Hload.
    destruct (V1_generate_plots_undecodable w k resp out err syl st2 fs Hpost Henc Hrun
                Hload)
      as (st3 & Hplots & Hfs & before & Hends).
    rewrite V1_main_guarded. unfold guarded.
    rewrite (V1_pipeline_plots_raise _ _ _ _ _ _ _ _ Hready Hplots).
    eexists. split; [reflexivity|]. split; [done|].
    exists before. simpl. by rewrite Hends, <- app_assoc.
  - intros w k syl st resp out err fs Hpost Hrun Hload.
    apply (V2_generate_plots_undecodable w k resp out err syl st fs Hpost Hrun Hload).
Qed.

Lemma undecodable_plot_output_witness :
  exists st',
    @V1.main ref_json (scenario (Ok revised_reply) 0 "oops") fresh = (Ok tt, st') /\
    scratch_gone st' /\ worksheet st' = None /\
    last (printed st') = Some (Printed "Workflow aborted." []).
Proof.
  edestruct (proj1 (@undecodable_plot_output ref_json)
               (scenario (Ok revised_reply) 0 "oops") fresh "sk-1" "Genetics" demo_syllabus)
    as (st' & Hmain & Hfiles & before & Hends).
  - eexists. split; vm_compute; reflexivity.
  - reflexivity.
  - reflexivity.
  - reflexivity.
  - vm_compute. reflexivity.
  - exists st'. split; [exact Hmain|]. unfold scratch_gone, worksheet. rewrite Hfiles.
    split; [apply lookup_delete_eq|]. split; [by vm_compute|].
    rewrite Hends. by rewrite last_app.
Defined.

(** A run of the second script whose child exits with status 0 and prints
    [oops]: the text does not decode, and [generate_plots] returns the
    empty collection; it raises nothing. *)
Lemma undecodable_output_returns_empty_plots :
  @json_loads ref_json "oops" = None /\
  exists st2,
    @V2_syllabus_ready ref_json (scenario (Ok revised_reply) 0 "oops") fresh
      "sk-1" "Genetics" demo_syllabus st2 /\
    fst (@V2.generate_plots ref_json (scenario (Ok revised_reply) 0 "oops") "sk-1"
           demo_syllabus st2) = Ok empty_plots.
Proof.
  split; [by vm_compute|]. eexists. split.
  - eexists. split; vm_compute; reflexivity.
  - vm_compute. reflexivity.
Qed.

(** ** Failures the review stage does not absorb *)

Lemma V2_call_openrouter_raise `{JsonLib} (w : world) (k model : string) (p : prompt)
    (st : state) (e : exn) :
  post w k model p 300 = Raise e ->
  exists st', V2.call_openrouter w k model p st = (Raise e, st') /\ files st' = files st.
Proof.
  intros Hpost. destruct (V2_call_openrouter_post w k model p st) as (st' & Hcall & Hfs).
  rewrite Hpost in Hcall. by exists st'.
Qed.

(** In the second script an exception of the gateway that is none of the
    three classes the review stage names leaves the stage, and the run
    aborts with the draft unwritten. *)
Lemma V2_review_transport_fatal `{JsonLib} (w : world) (st : state) (k : string)
    (syllabus_json plots_json : json) (draft : string) (st4 : state) (e : exn) :
  V2_draft_ready w st k syllabus_json plots_json draft st4 ->
  V2_review_reply w k syllabus_json plots_json draft (Raise e) ->
  catches soft e = false ->
  exists st',
    V2.main w st = (Ok tt, st') /\ files st' = files st4 /\
    ends_with st' (abort_notice (headline e) e).
Proof.
  intros Hready (ds & Hds & Hpost) Hhard.
  rewrite V2_main_guarded. unfold guarded.
  rewrite (V2_pipeline_after_draft _ _ _ _ _ _ _ Hready).
  unfold V2.review_worksheet.
  destruct (V2_call_openrouter_raise w k _ _
              (say st4 "--- Step 4: Final Review ---" []) e Hpost) as (st5 & Hcall & Hfs).
  assert (Hrev : V2.review_worksheet w k draft syllabus_json plots_json st4 = (Raise e, st5)).
  { unfold V2.review_worksheet. unfold bind at 1. rewrite print_say.
    rewrite (bind_ok _ _ _ _ _ (Hds _)). fold soft.
    apply try_except_missed; [|done]. by rewrite (bind_raise _ _ _ _ _ Hcall). }
  fold (V2.review_worksheet w k draft syllabus_json plots_json).
  rewrite (bind_raise _ _ _ _ _ Hrev).
  eexists. split; [reflexivity|]. split; [done|]. apply ends_with_says.
Qed.

(** C3 (the code at the failing input). The second script, with a draft
    ready and the reviewer call timing out: the run aborts with the
    critical-error report and no worksheet is written. *)
Theorem review_timeout_aborts :
  (exists st4,
     @V2_draft_ready ref_json (scenario (Raise timed_out) 0 one_plot_text) fresh "sk-1"
       demo_syllabus one_plot demo_draft st4) /\
  V2_review_reply (scenario (Raise timed_out) 0 one_plot_text) "sk-1" demo_syllabus
    one_plot demo_draft (Raise timed_out) /\
  fst (@V2.main ref_json (scenario (Raise timed_out) 0 one_plot_text) fresh) = Ok tt /\
  worksheet (snd (@V2.main ref_json (scenario (Raise timed_out) 0 one_plot_text) fresh))
  = None /\
  last_lines 3 (snd (@V2.main ref_json (scenario (Raise timed_out) 0 one_plot_text) fresh))
  = abort_notice "--- A critical error occurred ---" timed_out.
Proof.
  split.
  { eexists. exists "Genetics". eexists. eexists. split; [|split].
    - eexists. split; vm_compute; reflexivity.
    - vm_compute. reflexivity.
    - vm_compute. reflexivity. }
  split.
  { exists [JStr ""]. split; [intros st; reflexivity | reflexivity]. }
  repeat split; vm_compute; reflexivity.
Qed.

(** ** The worksheet stage of the second script *)

(** With no plot to show, [generate_full_worksheet] raises before it
    calls the gateway: its template reads the loop variable [plot], which
    no turn of the loop has bound (or, on a syllabus that is no object,
    [.get] fails first). *)
Lemma V2_full_worksheet_needs_a_plot `{JsonLib} (w : world) (k : string)
    (syllabus_json plots_json : json) (st : state) :
  no_plots plots_json = true ->
  exists e,
    V2.generate_full_worksheet w k syllabus_json plots_json st
    = (Raise e, say st "--- Step 3: Generating Full Worksheet from Template ---" []) /\
    (e = Exn UnboundLocalError ["plot"] \/ cls e = AttributeError).
Proof.
  intros Hno. unfold V2.generate_full_worksheet. unfold bind at 1. rewrite print_say.
  set (st1 := say st _ _).
  assert (Hlist : exists plot_list,
             (if is_dict plots_json then py_get plots_json "plots" (JArr [])
              else if is_list plots_json then ret plots_json else ret (JArr [])) st1
             = (Ok plot_list, st1) /\ truthy plot_list = false).
  { destruct plots_json as [| b | n | f | s | items | fields]; simpl in *;
      try by exists (JArr []).
    - exists (JArr items). by apply negb_true_iff in Hno.
    - exists (field "plots" (JArr []) fields). by apply negb_true_iff in Hno. }
  destruct Hlist as (plot_list & Hlist & Hfalsy).
  rewrite (bind_ok _ _ _ _ _ Hlist). rewrite Hfalsy.
  unfold bind at 1, ret at 1.
  destruct syllabus_json as [| b | n | f | s | items | fields];
    try by (eexists; split; [reflexivity | right; reflexivity]).
  eexists. split; [reflexivity | by left].
Qed.

(** C5 (the code at the failing input). The second script, the child
    exiting with status 0 and printing [{"plots": []}]: [generate_plots]
    returns the empty collection, and the next stage raises
    [UnboundLocalError]; the run aborts and no worksheet is written. *)
Theorem empty_plots_abort_second_script :
  (exists st2,
     @V2_syllabus_ready ref_json (scenario (Ok revised_reply) 0 empty_plots_text) fresh
       "sk-1" "Genetics" demo_syllabus st2 /\
     exists st3,
       @V2.generate_plots ref_json (scenario (Ok revised_reply) 0 empty_plots_text) "sk-1"
         demo_syllabus st2 = (Ok empty_plots, st3) /\
       fst (V2.generate_full_worksheet
              (scenario (Ok revised_reply) 0 empty_plots_text) "sk-1"
              demo_syllabus empty_plots st3) = Raise (Exn UnboundLocalError ["plot"])) /\
  fst (@V2.main ref_json (scenario (Ok revised_reply) 0 empty_plots_text) fresh) = Ok tt /\
  worksheet (snd (@V2.main ref_json (scenario (Ok revised_reply) 0 empty_plots_text) fresh))
  = None /\
  last_lines 3
    (snd (@V2.main ref_json (scenario (Ok revised_reply) 0 empty_plots_text) fresh))
  = abort_notice "--- An unexpected error occurred ---" (Exn UnboundLocalError ["plot"]).
Proof.
  split.
  { eexists. split.
    - eexists. split; vm_compute; reflexivity.
    - eexists. split; vm_compute; reflexivity. }
  repeat split; vm_compute; reflexivity.
Qed.

(** The first script goes through with the same empty collection. *)
Example empty_plots_complete_first_script :
  worksheet (snd (@V1.main ref_json (scenario (Ok revised_reply) 0 empty_plots_text) fresh))
  = Some "FINAL".
Proof. by vm_compute. Qed.

(** ** Further properties of the sandboxed run and of the start-up *)

Lemma V1_pipeline_plots_raise_main `{JsonLib} (w : world) (st : state) (k topics : string)
    (syllabus_json : json) (st2 st3 : state) (e : exn) :
  V1_syllabus_ready w st k topics syllabus_json st2 ->
  V1.generate_plots w k syllabus_json st2 = (Raise e, st3) ->
  V1.main w st = (Ok tt, says st3 (abort_notice (headline e) e)).
Proof.
  intros Hready Hplots. rewrite V1_main_guarded. unfold guarded.
  by rewrite (V1_pipeline_plots_raise _ _ _ _ _ _ _ _ Hready Hplots).
Qed.

(** X1. When the child exits with another status than 0, [generate_plots]
    raises [CalledProcessError] carrying both captured streams, prints
    the standard error (the first script the standard output too) and
    removes the scratch file, in both scripts. In the first script the
    child runs only when the locale's encoding took the program
    ([scratch_writable]). *)
Theorem nonzero_exit_raises `{JsonLib} :
  (forall w k syllabus_json st resp rc out err fs,
     post w k "google/gemini-2.5-pro" (plots_prompt syllabus_json) 240 = Ok resp ->
     scratch_writable w resp ->
     run_python w (with_scratch st resp) = (Exited rc out err, fs) ->
     rc <> 0%Z ->
     exists st',
       V1.generate_plots w k syllabus_json st
       = (Raise (Exn CalledProcessError [out; err]), st') /\
       files st' = delete TEMP_PLOT_SCRIPT fs /\
       ends_with st'
         [Printed "--- ERROR: The generated Python script failed to execute. ---" [];
          Printed "STDOUT:" [AStr out]; Printed "STDERR:" [AStr err]]) /\
  (forall w k syllabus_json st resp rc out err fs,
     post w k "google/gemini-2.5-pro" (plots_prompt syllabus_json) 300 = Ok resp ->
     run_python w (with_scratch st resp) = (Exited rc out err, fs) ->
     rc <> 0%Z ->
     exists st',
       V2.generate_plots w k syllabus_json st
       = (Raise (Exn CalledProcessError [out; err]), st') /\
       files st' = delete TEMP_PLOT_SCRIPT fs /\
       ends_with st'
         [Printed "--- ERROR: The generated Python script failed to execute. ---" [];
          Printed "STDERR:" [AStr err]]).
Proof.
  split; [intros w k syl st resp rc out err fs Hpost Henc Hrun Hrc
        | intros w k syl st resp rc out err fs Hpost Hrun Hrc];
    apply Z.eqb_neq in Hrc.
  - unfold V1.generate_plots. run_sandbox V1_call_openrouter_ok Hrun.
    rewrite Hrc. simpl. rewrite remove_scratch_delete. simpl.
    eexists. split; [reflexivity|]. split; [done|].
    eexists. simpl. rewrite <- app_assoc. simpl. rewrite <- app_assoc. reflexivity.
  - unfold V2.generate_plots. run_sandbox V2_call_openrouter_ok Hrun.
    rewrite Hrc. simpl. rewrite remove_scratch_delete. simpl.
    eexists. split; [reflexivity|]. split; [done|].
    eexists. simpl. rewrite <- app_assoc. reflexivity.
Qed.

Lemma nonzero_exit_raises_witness :
  exists st',
    @V2.generate_plots ref_json (scenario (Ok revised_reply) 1 "") "sk-1" demo_syllabus fresh
    = (Raise (Exn CalledProcessError [""; "traceback"]), st') /\
    scratch_gone st'.
Proof.
  edestruct (proj2 (@nonzero_exit_raises ref_json)
               (scenario (Ok revised_reply) 1 "") "sk-1" demo_syllabus fresh)
    as (st' & Hrun & Hfiles & _); [reflexivity | reflexivity | done |].
  exists st'. split; [exact Hrun|]. unfold scratch_gone. rewrite Hfiles.
  apply lookup_delete_eq.
Defined.

(** X2. Without the API key in the environment no stage runs: [main] prints
    its title and the critical-error report, and touches no file, in both
    scripts. *)
Theorem missing_api_key_stops_before_any_stage `{JsonLib} (w : world) (st : state) :
  getenv_api_key w = None ->
  let e := Exn ValueError ["Error: OPENROUTER_API_KEY environment variable not set."] in
  V1.main w st
  = (Ok tt, says (started st) (abort_notice "--- A critical error occurred ---" e)) /\
  V2.main w st
  = (Ok tt, says (started st) (abort_notice "--- A critical error occurred ---" e)).
Proof.
  intros Hkey e. rewrite V1_main_guarded, V2_main_guarded. unfold guarded.
  assert (Hload : forall st0, load_api_key w st0 = (Raise e, st0)).
  { intros st0. unfold load_api_key. by rewrite Hkey. }
  unfold V1.pipeline, V2.pipeline. by rewrite !(bind_raise _ _ _ _ _ (Hload _)).
Qed.

Lemma missing_api_key_stops_before_any_stage_witness :
  files (snd (@V1.main ref_json
                (World None "Genetics" (scripted (Ok revised_reply)) (child 0 one_plot_text)
                   any_text)
                fresh)) = ∅.
Proof.
  rewrite (proj1 (@missing_api_key_stops_before_any_stage ref_json
                    (World None "Genetics" (scripted (Ok revised_reply))
                       (child 0 one_plot_text) any_text) fresh eq_refl)).
  reflexivity.
Defined.

Lemma V2_review_transport_fatal_witness :
  exists st',
    @V2.main ref_json (scenario (Raise timed_out) 0 one_plot_text) fresh = (Ok tt, st') /\
    worksheet st' = None /\
    ends_with st' (abort_notice "--- A critical error occurred ---" timed_out).
Proof.
  edestruct (@V2_review_transport_fatal ref_json
               (scenario (Raise timed_out) 0 one_plot_text) fresh "sk-1"
               demo_syllabus one_plot demo_draft)
    as (st' & Hmain & Hfiles & Hends).
  - exists "Genetics". eexists. eexists. split; [|split].
    + eexists. split; vm_compute; reflexivity.
    + vm_compute. reflexivity.
    + vm_compute. reflexivity.
  - exists [JStr ""]. split; [intros st; reflexivity | reflexivity].
  - reflexivity.
  - exists st'. split; [exact Hmain|]. split; [|exact Hends].
    unfold worksheet. rewrite Hfiles. by vm_compute.
Defined.

Lemma V2_full_worksheet_needs_a_plot_witness :
  exists e,
    V2.generate_full_worksheet (scenario (Ok revised_reply) 0 empty_plots_text) "sk-1"
      demo_syllabus empty_plots fresh
    = (Raise e, say fresh "--- Step 3: Generating Full Worksheet from Template ---" []) /\
    (e = Exn UnboundLocalError ["plot"] \/ cls e = AttributeError).
Proof.
  apply (@V2_full_worksheet_needs_a_plot ref_json
           (scenario (Ok revised_reply) 0 empty_plots_text) "sk-1" demo_syllabus
           empty_plots fresh).
  reflexivity.
Defined.

Lemma tagged_block_search_witness :
  tagged_block ("a```json" +:+ nl +:+ "1" +:+ nl +:+ "```b") "json".
Proof.
  apply (proj2 (tagged_block_search ("a```json" +:+ nl +:+ "1" +:+ nl +:+ "```b") "json")).
  vm_compute. eauto.
Defined.

(** * Further properties of the code *)

(** ** [_extract_code] on texts without fences and on blocks in prose *)

Lemma prefix_occurs (pat s : string) : String.prefix pat s = true -> occurs pat s = true.
Proof. intros Hp. destruct s; cbn [occurs]; by rewrite Hp. Qed.

Lemma prefix_app_l (pat a t : string) :
  String.prefix pat a = true -> String.prefix pat (a +:+ t) = true.
Proof.
  revert a. induction pat as [|c pat IH]; intros a; [by rewrite !prefix_nil|].
  destruct a as [|d a]; [done|].
  rewrite app_cons_str, !prefix_cons.
  intros [-> Hp]%andb_prop. by rewrite (IH a Hp).
Qed.

Lemma occurs_app_l (pat a t : string) :
  occurs pat a = true -> occurs pat (a +:+ t) = true.
Proof.
  induction a as [|c a IH].
  - cbn [occurs]. rewrite orb_false_r. intros Hp. apply prefix_occurs.
    by apply (prefix_app_l pat "" t).
  - rewrite app_cons_str, !occurs_cons. intros [Hp|Ha]%orb_prop.
    + by rewrite <- app_cons_str, (prefix_app_l _ _ _ Hp).
    + by rewrite (IH Ha), orb_true_r.
Qed.

Lemma occurs_lstrip (pat s : string) :
  occurs pat s = false -> occurs pat (lstrip s) = false.
Proof.
  induction s as [|c s IH]; [done|]. cbn [lstrip].
  destruct (is_space c); [|done].
  rewrite occurs_cons. intros [_ Hs]%orb_false_elim. by apply IH.
Qed.

(** [rstrip] cuts a tail off. *)
Lemma rstrip_prefix (s : string) : exists t, s = rstrip s +:+ t.
Proof.
  induction s as [|c s [t IH]]; [by exists ""|]. cbn [rstrip].
  destruct (rstrip s) as [|d r] eqn:Hr.
  - destruct (is_space c); [by exists (String c s)|].
    exists s. by rewrite app_cons_str, app_nil_str.
  - exists t. by rewrite app_cons_str, <- IH.
Qed.

Lemma occurs_rstrip (pat s : string) :
  occurs pat s = false -> occurs pat (rstrip s) = false.
Proof.
  intros Hs. destruct (rstrip_prefix s) as [t Ht].
  destruct (occurs pat (rstrip s)) eqn:Hr; [|done].
  rewrite Ht, (occurs_app_l _ _ t Hr) in Hs. done.
Qed.

Lemma occurs_strip (pat s : string) :
  occurs pat s = false -> occurs pat (strip s) = false.
Proof. intros Hs. by apply occurs_rstrip, occurs_lstrip. Qed.

(** X3. A text that holds no fence sequence at all comes back from
    [_extract_code] as it is, whatever the (plain) tag. *)
Theorem extract_code_without_fence (text language : string) :
  plain_word language = true ->
  occurs "```" text = false ->
  _extract_code text language = text.
Proof.
  intros _ Hno. unfold _extract_code.
  rewrite re_search_none by by apply occurs_fence_close.
  destruct (startswith (strip text) "```") eqn:Hs; [|done].
  apply prefix_occurs in Hs. by rewrite (occurs_strip _ _ Hno) in Hs.
Qed.

Lemma extract_code_without_fence_witness :
  plain_word "latex" = true /\ occurs "```" "  \section{A} `x` " = false /\
  _extract_code "  \section{A} `x` " "latex" = "  \section{A} `x` ".
Proof.
  split; [reflexivity|]. split; [reflexivity|].
  apply (extract_code_without_fence "  \section{A} `x` " "latex"); reflexivity.
Defined.

(** After a backquote neither a plain tag nor the newline that ends the
    opening fence can follow. *)
Lemma tag_line_not_backquote (language r : string) :
  plain_word language = true ->
  String.prefix (language +:+ nl) (String "`" r) = false.
Proof.
  destruct language as [|t language].
  - intros _. change ("" +:+ nl) with (String "010" "").
    by rewrite prefix_cons.
  - cbn [plain_word]. intros [Ht _]%andb_prop.
    rewrite app_cons_str, prefix_cons.
    case_bool_decide as Heq; [|done]. by subst t.
Qed.

(** No opening fence starts inside prose that holds no fence sequence,
    not even one that ends in the opening fence that follows. *)
Lemma no_opening_in_prose (language pre rest : string) :
  plain_word language = true ->
  pre <> "" ->
  occurs "```" pre = false ->
  String.prefix (fence_open language) (pre +:+ fence_open language +:+ rest) = false.
Proof.
  intros Hplain Hne Hno.
  pose proof (tag_line_not_backquote language) as Htag.
  unfold fence_open in *.
  change ("```" +:+ language +:+ nl) with
    (String "`" (String "`" (String "`" (language +:+ nl)))) in *.
  destruct pre as [|a [|b [|c pre]]]; [done| | |];
    rewrite ?app_cons_str, ?app_nil_str, ?prefix_cons in *.
  - rewrite (Htag _ Hplain). by rewrite !andb_false_r.
  - rewrite (Htag _ Hplain). by rewrite !andb_false_r.
  - rewrite occurs_cons in Hno. apply orb_false_elim in Hno as [Hp _].
    change "```" with (String "`" (String "`" (String "`" ""))) in Hp.
    rewrite !prefix_cons, prefix_nil, andb_true_r in Hp.
    destruct (bool_decide ("`"%char = a)); [|done].
    destruct (bool_decide ("`"%char = b)); [|done].
    destruct (bool_decide ("`"%char = c)); done.
Qed.

Lemma re_search_skips_prose (language pre rest : string) :
  plain_word language = true ->
  occurs "```" pre = false ->
  re_search (fence_open language) fence_close (pre +:+ fence_open language +:+ rest)
  = re_search (fence_open language) fence_close (fence_open language +:+ rest).
Proof.
  intros Hplain. induction pre as [|c pre IH]; intros Hno; [done|].
  pose proof (no_opening_in_prose language (String c pre) rest Hplain
                ltac:(done) Hno) as Hp.
  rewrite app_cons_str in *. cbn [re_search]. unfold match_here at 1. rewrite Hp.
  apply IH. rewrite occurs_cons in Hno. by apply orb_false_elim in Hno as [_ ?].
Qed.

Lemma lazy_until_closing_then (X post : string) :
  occurs fence_close X = false ->
  lazy_until fence_close (X +:+ fence_close +:+ post) = Some X.
Proof.
  induction X as [|c X IH]; intros HX.
  - rewrite app_nil_str.
    change (fence_close +:+ post) with (String "010" (String "`" (String "`" (String "`" post)))).
    cbn [lazy_until]. change fence_close with (String "010" "```").
    by rewrite !prefix_cons, prefix_nil.
  - rewrite occurs_cons in HX. apply orb_false_elim in HX as [Hp HX].
    rewrite app_cons_str. cbn [lazy_until].
    assert (Hq : String.prefix fence_close (String c (X +:+ fence_close +:+ post)) = false).
    { change fence_close with (String "010" "```") in *.
      destruct X as [|x1 [|x2 [|x3 X]]];
        rewrite ?app_cons_str, ?app_nil_str, ?prefix_cons, ?prefix_nil in *;
        repeat case_bool_decide; simplify_eq/=; done. }
    by rewrite Hq, (IH HX).
Qed.

(** The first block fenced with the tag is found behind fence-free prose,
    and its interior ends at the first closing fence. *)
Lemma search_in_prose (language pre X post : string) :
  plain_word language = true ->
  occurs "```" pre = false ->
  occurs fence_close X = false ->
  re_search (fence_open language) fence_close
    (pre +:+ fence_open language +:+ X +:+ fence_close +:+ post) = Some X.
Proof.
  intros Hplain Hpre HX. rewrite re_search_skips_prose by done.
  apply re_search_here. unfold match_here.
  by rewrite prefix_app, str_drop_app, lazy_until_closing_then.
Qed.

(** X4. When prose without fence sequences is followed by a block fenced
    with the (plain) tag, [_extract_code] returns the interior of that
    block, trimmed: the prose before it and everything after its closing
    fence are dropped. *)
Theorem extract_code_in_prose (language pre X post : string) :
  plain_word language = true ->
  occurs "```" pre = false ->
  occurs fence_close X = false ->
  _extract_code (pre +:+ wrap_in_fence X language +:+ post) language = strip X.
Proof.
  intros Hplain Hpre HX. unfold _extract_code, wrap_in_fence.
  rewrite !app_assoc_str. by rewrite search_in_prose.
Qed.

Lemma extract_code_in_prose_witness :
  plain_word "python" = true /\ occurs "```" "Here is the script:" = false /\
  occurs fence_close " x = 1" = false /\
  _extract_code ("Here is the script:" +:+ wrap_in_fence " x = 1" "python" +:+ " Enjoy ```")
    "python" = "x = 1".
Proof.
  split; [reflexivity|]. split; [reflexivity|]. split; [reflexivity|].
  apply (extract_code_in_prose "python" "Here is the script:" " x = 1" " Enjoy ```");
    reflexivity.
Defined.

(** X5. A reply that holds, behind fence-free prose, a json-fenced
    encoding of [O] decodes to [O] in both scripts, whatever follows the
    block. *)
Theorem extract_json_in_prose `{JsonLib} (O : json) (D pre post : string) (st : state) :
  RefJson.encode O = Some D ->
  json_loads D = Some O ->
  occurs "```" pre = false ->
  V1._extract_json (pre +:+ wrap_in_fence D "json" +:+ post) st = (Ok O, st) /\
  V2._extract_json (pre +:+ wrap_in_fence D "json" +:+ post) st = (Ok O, st).
Proof.
  intros Hwrite Hread Hpre.
  destruct (compact_encodes D O (encode_compact O D Hwrite) Hread)
    as (_ & Hstrip & Hclose & _).
  assert (Hcode : _extract_code (pre +:+ wrap_in_fence D "json" +:+ post) "json" = D).
  { unfold _extract_code, wrap_in_fence. rewrite !app_assoc_str.
    by rewrite search_in_prose, Hstrip. }
  unfold V1._extract_json, V2._extract_json, try_except, loads.
  by rewrite Hcode, Hread.
Qed.

Lemma extract_json_in_prose_witness :
  @V2._extract_json ref_json
    ("Sure, here it is: " +:+ wrap_in_fence x1_text "json" +:+ " Anything else?") fresh
  = (Ok (JObj [("x", JInt 1)]), fresh).
Proof.
  apply (@extract_json_in_prose ref_json (JObj [("x", JInt 1)]) x1_text
           "Sure, here it is: " " Anything else?" fresh); reflexivity.
Defined.

(** ** The files the orchestrator leaves alone *)

Lemma untouched_ret {A} (P : string -> Prop) (a : A) : untouched P (ret a).
Proof. by intros st p _. Qed.

Lemma untouched_raise {A} (P : string -> Prop) (e : exn) : untouched P (raise (A := A) e).
Proof. by intros st p _. Qed.

Lemma untouched_of_result {A} (P : string -> Prop) (r : result A) : untouched P (of_result r).
Proof. by intros st p _. Qed.

Lemma untouched_stateless {A} (P : string -> Prop) (m : M A) : stateless m -> untouched P m.
Proof. intros [r Hm] st p _. by rewrite Hm. Qed.

Lemma untouched_bind {A B} (P : string -> Prop) (m : M A) (k : A -> M B) :
  untouched P m -> (forall a, untouched P (k a)) -> untouched P (bind m k).
Proof.
  intros Hm Hk st p Hp. specialize (Hm st p Hp). unfold bind.
  destruct (m st) as [[a|e] st1]; [|exact Hm].
  by rewrite (Hk a st1 p Hp).
Qed.

Lemma untouched_try_except {A} (P : string -> Prop) (body : M A) (hs : list (clause A)) :
  untouched P body ->
  Forall (fun cl => forall e, untouched P (snd cl e)) hs ->
  untouched P (try_except body hs).
Proof.
  intros Hbody Hhs st p Hp. specialize (Hbody st p Hp). unfold try_except.
  destruct (body st) as [[a|e] st1]; [exact Hbody|].
  induction Hhs as [|[cs h] hs Hh _ IH]; cbn [select]; [exact Hbody|].
  destruct (catches cs e); [|exact IH].
  specialize (Hh e st1 p Hp). simpl in *. congruence.
Qed.

Lemma untouched_try_finally {A} (P : string -> Prop) (body : M A) (fin : M unit) :
  untouched P body -> untouched P fin -> untouched P (try_finally body fin).
Proof.
  intros Hbody Hfin st p Hp. specialize (Hbody st p Hp). unfold try_finally.
  destruct (body st) as [r st1]. specialize (Hfin st1 p Hp).
  destruct (fin st1) as [[[]|e] st2]; simpl in *; congruence.
Qed.

Lemma untouched_mapM {A B} (P : string -> Prop) (f : A -> M B) (l : list A) :
  (forall a, untouched P (f a)) -> untouched P (mapM f l).
Proof.
  intros Hf. induction l as [|x l IH]; [by intros st p _|].
  cbn [mapM]. apply untouched_bind; [apply Hf|]. intros y.
  apply untouched_bind; [apply IH|]. by intros ys st p _.
Qed.

Lemma untouched_print (P : string -> Prop) (line : string) (args : list arg) :
  untouched P (print line args).
Proof. by intros st p _. Qed.

Lemma untouched_write_file (P : string -> Prop) (w : world) (enc : encoding)
    (path text : string) :
  (forall p, P p -> p <> path) -> untouched P (write_file w enc path text).
Proof.
  intros Hne st p Hp. unfold write_file.
  destruct (can_encode w enc text); simpl; apply lookup_insert_ne;
    intros Heq; by apply (Hne p Hp).
Qed.

Lemma untouched_remove_scratch (P : string -> Prop) :
  (forall p, P p -> p <> TEMP_PLOT_SCRIPT) -> untouched P remove_scratch.
Proof.
  intros Hne st p Hp. rewrite remove_scratch_delete. simpl.
  apply lookup_delete_ne. intros Heq. by apply (Hne p Hp).
Qed.

Lemma untouched_subprocess_run (P : string -> Prop) (w : world) :
  (forall p, P p -> child_keeps w p) -> untouched P (subprocess_run w).
Proof.
  intros Hkeep st p Hp. specialize (Hkeep p Hp (files st)). unfold subprocess_run.
  destruct (run_python w (files st)) as [[rc out err|why] fs]; simpl in *; [|done].
  by destruct (rc =? 0)%Z.
Qed.

Lemma stateless_py_getitem (v : json) (k : string) : stateless (py_getitem v k).
Proof.
  destruct v; try apply stateless_raise. cbn [py_getitem].
  destruct (assoc k fields); [apply stateless_ret | apply stateless_raise].
Qed.

Lemma stateless_py_getitem0 (v : json) : stateless (py_getitem0 v).
Proof.
  destruct v as [| | | | [|c s] | [|x items] |];
    apply stateless_ret || apply stateless_raise.
Qed.

Lemma stateless_py_contains (k : string) (v : json) : stateless (py_contains k v).
Proof. destruct v; apply stateless_ret || apply stateless_raise. Qed.

Lemma stateless_loads `{JsonLib} (s : string) : stateless (loads s).
Proof. unfold loads. destruct (json_loads s); [apply stateless_ret | apply stateless_raise]. Qed.

Create HintDb frame discriminated.
#[export] Hint Constants Opaque : frame.

#[export] Hint Resolve stateless_py_get stateless_py_iter stateless_py_getitem
  stateless_py_getitem0 stateless_py_contains stateless_plot_descriptions
  stateless_ret stateless_raise : frame.
#[export] Hint Resolve untouched_print : frame.

(** One step of a proof that a computation leaves the paths in [P] alone:
    a known stage, a primitive, or one layer of the control structure. *)
Ltac frame_step :=
  first
    [ solve [eauto with frame]
    | apply untouched_stateless; solve [eauto with frame | apply stateless_loads]
    | apply untouched_ret | apply untouched_raise | apply untouched_of_result
    | apply untouched_bind; [|intros ?]
    | apply untouched_try_finally
    | apply untouched_try_except; [|repeat constructor; intros ?; cbn [snd]]
    | apply untouched_mapM; intros ?
    | match goal with
      | |- untouched _ (if ?b then _ else _) => destruct b
      | |- untouched _ (match ?x with _ => _ end) => destruct x
      end ].

Ltac frame := repeat frame_step.

Lemma untouched_report_issues (P : string -> Prop) (review_json : json) :
  untouched P (report_issues review_json).
Proof. unfold report_issues, has_issues. frame. Qed.

#[export] Hint Resolve untouched_report_issues : frame.

Lemma untouched_load_api_key (P : string -> Prop) (w : world) :
  untouched P (load_api_key w).
Proof. unfold load_api_key. frame. Qed.

Lemma untouched_abort_report (P : string -> Prop) (h : string) (e : exn) :
  untouched P (abort_report h e).
Proof. unfold abort_report. frame. Qed.

Lemma untouched_say_complete (P : string -> Prop) (name : string) :
  untouched P (say_complete name).
Proof. unfold say_complete. frame. Qed.

#[export] Hint Resolve untouched_load_api_key untouched_abort_report
  untouched_say_complete : frame.

Section Frame.
Context `{JsonLib} (w : world).

Lemma beside_not_scratch (p : string) : beside_outputs w p -> p <> TEMP_PLOT_SCRIPT.
Proof. by intros (? & _). Qed.

Lemma beside_not_worksheet (p : string) :
  beside_outputs w p -> p <> "final_worksheet.tex".
Proof. by intros (_ & ? & _). Qed.

Lemma beside_child_keeps (p : string) : beside_outputs w p -> child_keeps w p.
Proof. by intros (_ & _ & ?). Qed.

Lemma untouched_write_value (v : json) :
  untouched (beside_outputs w) (write_value w "final_worksheet.tex" v).
Proof.
  pose proof (untouched_write_file (beside_outputs w) w Utf8 "final_worksheet.tex")
    as Hw. specialize (fun text => Hw text beside_not_worksheet).
  unfold write_value. destruct v; frame.
Qed.

Lemma untouched_V1_call (P : string -> Prop) (k model : string) (p : prompt) :
  untouched P (V1.call_openrouter w k model p).
Proof. unfold V1.call_openrouter. frame. Qed.

Lemma untouched_V2_call (P : string -> Prop) (k model : string) (p : prompt) :
  untouched P (V2.call_openrouter w k model p).
Proof. unfold V2.call_openrouter. frame. Qed.

Lemma untouched_V1_extract_json (P : string -> Prop) (text : string) :
  untouched P (V1._extract_json text).
Proof. unfold V1._extract_json. frame. Qed.

Lemma untouched_V2_extract_json (P : string -> Prop) (text : string) :
  untouched P (V2._extract_json text).
Proof. unfold V2._extract_json. frame. Qed.

Hint Resolve untouched_V1_call untouched_V2_call untouched_V1_extract_json
  untouched_V2_extract_json untouched_write_value : frame.

Lemma untouched_V1_syllabus (P : string -> Prop) (k : string) :
  untouched P (V1.get_and_generate_syllabus w k).
Proof. unfold V1.get_and_generate_syllabus, V1.lacks_sub_topics. frame. Qed.

Lemma untouched_V2_syllabus (P : string -> Prop) (k : string) :
  untouched P (V2.get_and_generate_syllabus w k).
Proof. unfold V2.get_and_generate_syllabus. frame. Qed.

Lemma untouched_V1_plots (k : string) (syllabus_json : json) :
  untouched (beside_outputs w) (V1.generate_plots w k syllabus_json).
Proof.
  pose proof (untouched_write_file (beside_outputs w) w LocaleEncoding TEMP_PLOT_SCRIPT)
    as Hw.
  specialize (fun text => Hw text beside_not_scratch).
  pose proof (untouched_remove_scratch (beside_outputs w) beside_not_scratch).
  pose proof (untouched_subprocess_run (beside_outputs w) w beside_child_keeps).
  unfold V1.generate_plots. frame.
Qed.

Lemma untouched_V2_plots (k : string) (syllabus_json : json) :
  untouched (beside_outputs w) (V2.generate_plots w k syllabus_json).
Proof.
  pose proof (untouched_write_file (beside_outputs w) w Utf8 TEMP_PLOT_SCRIPT) as Hw.
  specialize (fun text => Hw text beside_not_scratch).
  pose proof (untouched_remove_scratch (beside_outputs w) beside_not_scratch).
  pose proof (untouched_subprocess_run (beside_outputs w) w beside_child_keeps).
  unfold V2.generate_plots. frame.
Qed.

Lemma untouched_V1_part1 (P : string -> Prop) (k : string) (syllabus_json : json) :
  untouched P (V1.generate_worksheet_part1 w k syllabus_json).
Proof. unfold V1.generate_worksheet_part1. frame. Qed.

Lemma untouched_V1_part2 (P : string -> Prop) (k part1 : string) (plots_json : json) :
  untouched P (V1.generate_worksheet_part2 w k part1 plots_json).
Proof. unfold V1.generate_worksheet_part2. frame. Qed.

Lemma untouched_V2_full (P : string -> Prop) (k : string) (syllabus_json plots_json : json) :
  untouched P (V2.generate_full_worksheet w k syllabus_json plots_json).
Proof. unfold V2.generate_full_worksheet. frame. Qed.

Lemma untouched_V1_review (P : string -> Prop) (k draft topics : string) (plots_json : json) :
  untouched P (V1.review_worksheet w k draft topics plots_json).
Proof. unfold V1.review_worksheet. frame. Qed.

Lemma untouched_V2_review (P : string -> Prop) (k draft : string)
    (syllabus_json plots_json : json) :
  untouched P (V2.review_worksheet w k draft syllabus_json plots_json).
Proof. unfold V2.review_worksheet. frame. Qed.

Hint Resolve untouched_V1_syllabus untouched_V2_syllabus untouched_V1_plots
  untouched_V2_plots untouched_V1_part1 untouched_V1_part2 untouched_V2_full
  untouched_V1_review untouched_V2_review : frame.

(** X6. In both scripts [main] leaves every file alone that is neither
    the scratch file nor the final worksheet, unless the generated
    program itself touches it: whatever the run does and however it
    ends, such a file is afterwards as it was before. *)
Theorem main_touches_only_its_outputs (st : state) (p : string) :
  p <> TEMP_PLOT_SCRIPT ->
  p <> "final_worksheet.tex" ->
  child_keeps w p ->
  files (snd (V1.main w st)) !! p = files st !! p /\
  files (snd (V2.main w st)) !! p = files st !! p.
Proof.
  intros Hscratch Hsheet Hchild.
  assert (Hp : beside_outputs w p) by done.
  assert (H1 : untouched (beside_outputs w) (V1.main w)).
  { unfold V1.main, V1.pipeline. frame. }
  assert (H2 : untouched (beside_outputs w) (V2.main w)).
  { unfold V2.main, V2.pipeline. frame. }
  split; [by apply H1 | by apply H2].
Qed.
End Frame.

Lemma main_touches_only_its_outputs_witness :
  files (snd (@V1.main ref_json (scenario (Ok revised_reply) 0 one_plot_text)
                (State {["notes.txt" := "keep"]} []))) !! "notes.txt" = Some "keep".
Proof.
  rewrite (proj1 (@main_touches_only_its_outputs ref_json
                    (scenario (Ok revised_reply) 0 one_plot_text)
                    (State {["notes.txt" := "keep"]} []) "notes.txt"
                    ltac:(done) ltac:(done)
                    ltac:(intros fs; by apply lookup_insert_ne))).
  reflexivity.
Defined.


(** ** The syllabus stage *)

Lemma load_api_key_ok (w : world) (k : string) (st : state) :
  getenv_api_key w = Some k -> k <> "" ->
  load_api_key w st = (Ok k, say st "API Key loaded successfully." []).
Proof. intros Hkey Hk. unfold load_api_key. rewrite Hkey. by destruct k. Qed.

(** X7. An empty answer to the question for the topics stops both scripts
    before the first request to the gateway: [main] prints the
    critical-error report for the [ValueError] of the syllabus stage and
    returns, with every file as it was, whatever the gateway and the
    child interpreter would have done. *)
Theorem empty_topic_list_stops_before_any_request `{JsonLib} (w : world) (k : string)
    (st : state) :
  getenv_api_key w = Some k -> k <> "" -> input_line w = "" ->
  let e := Exn ValueError ["Topic list cannot be empty."] in
  V1.main w st
  = (Ok tt, says (asked_for_topics st)
              (abort_notice "--- A critical error occurred ---" e)) /\
  V2.main w st
  = (Ok tt, says (asked_for_topics st)
              (abort_notice "--- A critical error occurred ---" e)).
Proof.
  intros Hkey Hk Hline e. rewrite V1_main_guarded, V2_main_guarded. unfold guarded.
  unfold V1.pipeline, V2.pipeline.
  rewrite !(bind_ok _ _ _ _ _ (load_api_key_ok w k _ Hkey Hk)).
  unfold V1.get_and_generate_syllabus, V2.get_and_generate_syllabus.
  rewrite Hline. cbn [String.eqb]. unfold bind, print, raise. cbn [fst snd].
  unfold asked_for_topics, started, says, say. simpl. by rewrite <- !app_assoc.
Qed.

Lemma empty_topic_list_stops_before_any_request_witness :
  files (snd (@V2.main ref_json
                (World (Some "sk-1") "" (scripted (Ok revised_reply)) (child 0 one_plot_text)
                   any_text)
                fresh)) = ∅.
Proof.
  rewrite (proj2 (@empty_topic_list_stops_before_any_request ref_json
                    (World (Some "sk-1") "" (scripted (Ok revised_reply))
                       (child 0 one_plot_text) any_text)
                    "sk-1" fresh eq_refl ltac:(done) eq_refl)).
  reflexivity.
Defined.

Lemma V1_lacks_sub_topics_result `{JsonLib} (v : json) (st : state) :
  exists r, V1.lacks_sub_topics v st = (r, st) /\
    (r = Ok false <-> has_sub_topics_list v = true).
Proof.
  unfold V1.lacks_sub_topics.
  destruct v as [| b | n | f | s | items | fields]; cbn [py_contains has_sub_topics_list];
    try (eexists; split; [reflexivity|]; split; discriminate).
  - unfold bind, ret. destruct (occurs "sub_topics" s); cbn;
      eexists; (split; [reflexivity|]); split; discriminate.
  - unfold bind, ret. destruct (existsb (is_str "sub_topics") items); cbn;
      eexists; (split; [reflexivity|]); split; discriminate.
  - unfold bind, ret. cbn [py_getitem].
    destruct (assoc "sub_topics" fields) as [u|] eqn:Hsub.
    + rewrite bool_decide_eq_true_2 by by eexists. cbn.
      eexists. split; [reflexivity|].
      destruct u; cbn; split; (discriminate || done).
    + rewrite bool_decide_eq_false_2 by by intros [? ?]. cbn.
      eexists. split; [reflexivity|]. split; discriminate.
Qed.

(** X8. The syllabus stage of the first script returns exactly when the
    topics are not empty, the gateway answers, a value decodes from the
    answer, and that value is an object whose ['sub_topics'] is a list;
    it then returns the topics as typed and the decoded value. *)
Theorem V1_syllabus_stage_validates `{JsonLib} (w : world) (k topics : string)
    (syllabus_json : json) (st : state) :
  (exists st', V1.get_and_generate_syllabus w k st = (Ok (topics, syllabus_json), st')) <->
  topics = input_line w /\ topics <> "" /\
  syllabus_decoded w k topics 240 syllabus_json /\
  has_sub_topics_list syllabus_json = true.
Proof.
  unfold V1.get_and_generate_syllabus, syllabus_decoded.
  rewrite !(bind_ok _ _ _ _ _ (print_say _ _ _)).
  set (st0 := say (say st _ _) _ _).
  destruct (String.eqb_spec (input_line w) "") as [Hempty|Hline].
  { split; [by intros (st' & ?)|]. intros (-> & Hne & _). by destruct Hne. }
  destruct (V1_call_openrouter_post w k "perplexity/sonar"
              (Prompt "syllabus" [AStr (input_line w)]) st0) as (st1 & Hcall & _).
  destruct (post w k "perplexity/sonar" (Prompt "syllabus" [AStr (input_line w)]) 240)
    as [reply|e] eqn:Hpost.
  2:{ rewrite (bind_raise _ _ _ _ _ Hcall). split; [by intros (st' & ?)|].
      intros (-> & _ & (reply & Hreply & _) & _). congruence. }
  rewrite (bind_ok _ _ _ _ _ Hcall).
  destruct (V1_extract_json_decoded reply st1) as (st2 & Hext & _).
  destruct (decoded reply) as [v|] eqn:Hdec.
  2:{ rewrite (bind_raise _ _ _ _ _ Hext). split; [by intros (st' & ?)|].
      intros (-> & _ & (reply' & Hreply & Hdec') & _). congruence. }
  rewrite (bind_ok _ _ _ _ _ Hext).
  destruct (V1_lacks_sub_topics_result v st2) as (r & Hlacks & Hr).
  destruct r as [[|]|e].
  - rewrite (bind_ok _ _ _ _ _ Hlacks). split; [by intros (st' & ?)|].
    intros (-> & _ & (reply' & Hreply & Hdec') & Hlist).
    assert (v = syllabus_json) as -> by congruence.
    apply Hr in Hlist. done.
  - rewrite (bind_ok _ _ _ _ _ Hlacks).
    pose proof (proj1 Hr eq_refl) as Hlist.
    destruct v as [| | | | | |fields]; try discriminate.
    pose proof Hlist as Hsub. cbn in Hsub.
    cbn [py_getitem]. destruct (assoc "sub_topics" fields) as [u|]; [|discriminate].
    unfold bind, ret, print. cbn. split.
    + intros (st' & [= <- <- _]).
      split; [done|]. split; [done|]. split; [by exists reply | exact Hlist].
    + intros (-> & _ & (reply' & Hreply & Hdec') & _).
      assert (reply' = reply) as -> by congruence.
      assert (JObj fields = syllabus_json) as <- by congruence. by eexists.
  - rewrite (bind_raise _ _ _ _ _ Hlacks). split; [by intros (st' & ?)|].
    intros (-> & _ & (reply' & Hreply & Hdec') & Hlist).
    assert (v = syllabus_json) as -> by congruence.
    apply Hr in Hlist. done.
Qed.

(** X9. The syllabus stage of the second script checks nothing about the
    decoded value: it returns exactly when the topics are not empty, the
    gateway answers and a value decodes from the answer, whatever that
    value is. *)
Theorem V2_syllabus_stage_takes_any_value `{JsonLib} (w : world) (k topics : string)
    (syllabus_json : json) (st : state) :
  (exists st', V2.get_and_generate_syllabus w k st = (Ok (topics, syllabus_json), st')) <->
  topics = input_line w /\ topics <> "" /\
  syllabus_decoded w k topics 300 syllabus_json.
Proof.
  unfold V2.get_and_generate_syllabus, syllabus_decoded.
  rewrite !(bind_ok _ _ _ _ _ (print_say _ _ _)).
  set (st0 := say (say st _ _) _ _).
  destruct (String.eqb_spec (input_line w) "") as [Hempty|Hline].
  { split; [by intros (st' & ?)|]. intros (-> & Hne & _). by destruct Hne. }
  destruct (V2_call_openrouter_post w k "perplexity/sonar"
              (Prompt "syllabus" [AStr (input_line w)]) st0) as (st1 & Hcall & _).
  destruct (post w k "perplexity/sonar" (Prompt "syllabus" [AStr (input_line w)]) 300)
    as [reply|e] eqn:Hpost.
  2:{ rewrite (bind_raise _ _ _ _ _ Hcall). split; [by intros (st' & ?)|].
      intros (-> & _ & (reply & Hreply & _)). congruence. }
  rewrite (bind_ok _ _ _ _ _ Hcall). unfold bind at 1.
  rewrite V2_extract_json_decoded.
  destruct (decoded reply) as [v|] eqn:Hdec.
  2:{ split; [by intros (st' & ?)|].
      intros (-> & _ & (reply' & Hreply & Hdec')). congruence. }
  unfold bind, ret, print. cbn. split.
  - intros (st' & [= <- <- _]). split; [done|]. split; [done|]. by exists reply.
  - intros (-> & _ & (reply' & Hreply & Hdec')).
    assert (reply' = reply) as -> by congruence.
    assert (v = syllabus_json) as <- by congruence. by eexists.
Qed.


(** ** A child that cannot be started *)

(** X10. When [subprocess.run] itself raises (no interpreter on the path,
    a captured stream that is not UTF-8, another [OSError]), neither
    handler of [generate_plots] takes the exception: it leaves the stage
    as it is, nothing is printed after the line that announces the
    execution, and the scratch file is removed, in both scripts. [main]
    reports a missing interpreter and an undecodable stream as critical
    and a bare [OSError] as unexpected. In the first script the spawn is
    reached only when the locale's encoding took the program
    ([scratch_writable]). *)
Theorem spawn_failure_passes_the_handlers `{JsonLib} (w : world) (k resp : string)
    (syllabus_json : json) (st : state) (why : spawn_error) (fs : gmap string string) :
  run_python w (with_scratch st resp) = (SpawnRaised why, fs) ->
  let announced :=
    [Printed "  > Executing generated script: {TEMP_PLOT_SCRIPT}" [AStr TEMP_PLOT_SCRIPT]] in
  headline (spawn_exn why) = spawn_headline why /\
  (replies w k "google/gemini-2.5-pro" (plots_prompt syllabus_json) 240 resp ->
   scratch_writable w resp ->
   exists st',
     V1.generate_plots w k syllabus_json st = (Raise (spawn_exn why), st') /\
     files st' = delete TEMP_PLOT_SCRIPT fs /\ ends_with st' announced) /\
  (replies w k "google/gemini-2.5-pro" (plots_prompt syllabus_json) 300 resp ->
   exists st',
     V2.generate_plots w k syllabus_json st = (Raise (spawn_exn why), st') /\
     files st' = delete TEMP_PLOT_SCRIPT fs /\ ends_with st' announced).
Proof.
  intros Hrun announced. split; [by destruct why|].
  split; [intros Hpost Henc | intros Hpost].
  - unfold V1.generate_plots. run_sandbox V1_call_openrouter_ok Hrun.
    destruct why; simpl; rewrite remove_scratch_delete; simpl;
      (eexists; split; [reflexivity|]; split; [done|]; by eexists).
  - unfold V2.generate_plots. run_sandbox V2_call_openrouter_ok Hrun.
    destruct why; simpl; rewrite remove_scratch_delete; simpl;
      (eexists; split; [reflexivity|]; split; [done|]; by eexists).
Qed.

Lemma spawn_failure_passes_the_handlers_witness :
  exists st',
    @V1.generate_plots ref_json
      (World (Some "sk-1") "Genetics" (scripted (Ok revised_reply))
         (fun fs => (SpawnRaised NoInterpreter, fs)) any_text)
      "sk-1" demo_syllabus fresh
    = (Raise (Exn FileNotFoundError ["python"]), st') /\
    files st' = ∅.
Proof.
  edestruct (@spawn_failure_passes_the_handlers ref_json
               (World (Some "sk-1") "Genetics" (scripted (Ok revised_reply))
                  (fun fs => (SpawnRaised NoInterpreter, fs)) any_text)
               "sk-1" (fenced "python" "print(1)") demo_syllabus fresh NoInterpreter
               (with_scratch fresh (fenced "python" "print(1)")) eq_refl)
    as (_ & (st' & Hrun & Hfiles & _) & _); [reflexivity | reflexivity |].
  exists st'. split; [exact Hrun|]. rewrite Hfiles. unfold with_scratch.
  by rewrite delete_insert_eq.
Defined.

(** ** Runs in which every stage succeeds *)

Lemma V1_syllabus_ok `{JsonLib} (w : world) (k : string) (syllabus_json : json)
    (st : state) :
  input_line w <> "" ->
  syllabus_decoded w k (input_line w) 240 syllabus_json ->
  has_sub_topics_list syllabus_json = true ->
  exists st', V1.get_and_generate_syllabus w k st = (Ok (input_line w, syllabus_json), st')
    /\ files st' = files st.
Proof.
  intros Hline (reply & Hpost & Hdec) Hlist. unfold V1.get_and_generate_syllabus.
  rewrite !(bind_ok _ _ _ _ _ (print_say _ _ _)).
  destruct (String.eqb_spec (input_line w) "") as [|_]; [done|].
  rewrite (bind_ok _ _ _ _ _ (V1_call_openrouter_ok w k _ reply _ _ Hpost)).
  match goal with |- context [V1._extract_json reply] =>
    match goal with |- context [bind _ _ ?s] =>
      destruct (V1_extract_json_decoded reply s) as (st2 & Hext & Hfs)
    end
  end.
  rewrite Hdec in Hext. rewrite (bind_ok _ _ _ _ _ Hext).
  destruct (V1_lacks_sub_topics_result syllabus_json st2) as (r & Hlacks & Hr).
  apply Hr in Hlist as ->. rewrite (bind_ok _ _ _ _ _ Hlacks).
  pose proof (proj1 Hr eq_refl) as Hsub.
  destruct syllabus_json as [| | | | | |fields]; try discriminate. cbn in Hsub.
  cbn [py_getitem]. destruct (assoc "sub_topics" fields) as [u|]; [|discriminate].
  unfold bind, ret, print. cbn. eexists. split; [reflexivity|]. by rewrite Hfs.
Qed.

Lemma V2_syllabus_ok `{JsonLib} (w : world) (k : string) (syllabus_json : json)
    (st : state) :
  input_line w <> "" ->
  syllabus_decoded w k (input_line w) 300 syllabus_json ->
  exists st', V2.get_and_generate_syllabus w k st = (Ok (input_line w, syllabus_json), st')
    /\ files st' = files st.
Proof.
  intros Hline (reply & Hpost & Hdec). unfold V2.get_and_generate_syllabus.
  rewrite !(bind_ok _ _ _ _ _ (print_say _ _ _)).
  destruct (String.eqb_spec (input_line w) "") as [|_]; [done|].
  rewrite (bind_ok _ _ _ _ _ (V2_call_openrouter_ok w k _ reply _ _ Hpost)).
  unfold bind at 1. rewrite V2_extract_json_decoded, Hdec.
  unfold bind, ret, print. cbn. by eexists.
Qed.

Lemma V1_part1_ok `{JsonLib} (w : world) (k reply : string) (syllabus_json : json)
    (st : state) :
  replies w k "google/gemini-2.5-pro" (Prompt "part1" [AJson syllabus_json]) 240 reply ->
  exists st',
    V1.generate_worksheet_part1 w k syllabus_json st
    = (Ok (_extract_code reply "latex"), st') /\ files st' = files st.
Proof.
  intros Hpost. unfold V1.generate_worksheet_part1.
  rewrite (bind_ok _ _ _ _ _ (print_say _ _ _)).
  rewrite (bind_ok _ _ _ _ _ (V1_call_openrouter_ok w k _ reply _ _ Hpost)).
  unfold bind, ret, print. cbn. by eexists.
Qed.

Lemma V1_part2_ok `{JsonLib} (w : world) (k part1 reply : string) (plots_json : json)
    (st : state) :
  replies w k "google/gemini-2.5-pro"
    (Prompt "part2" [AStr part1; AJson plots_json]) 240 reply ->
  exists st',
    V1.generate_worksheet_part2 w k part1 plots_json st
    = (Ok (_extract_code reply "latex"), st') /\ files st' = files st.
Proof.
  intros Hpost. unfold V1.generate_worksheet_part2.
  rewrite (bind_ok _ _ _ _ _ (print_say _ _ _)).
  rewrite (bind_ok _ _ _ _ _ (V1_call_openrouter_ok w k _ reply _ _ Hpost)).
  unfold bind, ret, print. cbn. by eexists.
Qed.

(** The report on a list of issues returns. *)
Lemma report_issues_list (fields : list (string * json)) (st : state) :
  is_list (field "issues_found" (JArr []) fields) = true ->
  exists st', report_issues (JObj fields) st = (Ok tt, st') /\ files st' = files st.
Proof.
  unfold report_issues, field. cbn [py_get]. unfold bind at 1, ret at 1.
  generalize (from_option id (JArr []) (assoc "issues_found" fields)).
  intros [| | | | |items|]; try discriminate. intros _.
  destruct items as [|x items]; [by eexists|].
  unfold has_issues. cbn [truthy py_getitem0]. unfold bind at 1, bind at 1, ret at 1, ret at 1.
  destruct (truthy x); [|by eexists].
  by apply (announce_issues_files (JArr (x :: items)) (x :: items)).
Qed.

Lemma V1_review_ok `{JsonLib} (w : world) (k draft topics reply : string)
    (plots_json revised : json) (st : state) :
  V1_review_reply w k topics plots_json draft (Ok reply) ->
  review_gives reply revised ->
  exists st', V1.review_worksheet w k draft topics plots_json st = (Ok revised, st')
    /\ files st' = files st.
Proof.
  intros (ds & Hds & Hpost) (fields & Hdec & Hfinal & Hissues).
  unfold V1.review_worksheet. rewrite (bind_ok _ _ _ _ _ (print_say _ _ _)).
  rewrite (bind_ok _ _ _ _ _ (Hds _)).
  rewrite (bind_ok _ _ _ _ _ (V1_call_openrouter_ok w k _ reply _ _ Hpost)).
  match goal with |- context [bind _ _ ?s] =>
    destruct (V1_extract_json_decoded reply s) as (st2 & Hext & Hfs2)
  end.
  rewrite Hdec in Hext. rewrite (bind_ok _ _ _ _ _ Hext).
  destruct (report_issues_list fields st2 Hissues) as (st3 & Hrep & Hfs3).
  rewrite (bind_ok _ _ _ _ _ Hrep). cbn [py_getitem]. rewrite Hfinal.
  unfold bind, ret, print. cbn. eexists. split; [reflexivity|].
  cbn. by rewrite Hfs3, Hfs2.
Qed.

(** X11. The first script, when every stage succeeds: with the key set,
    topics typed, a syllabus with a ['sub_topics'] list decoded from the
    first answer, a plot program the locale's encoding takes, a child
    that exits with status 0 and prints a decodable text, the two drafting requests answered (the second one made with
    the extracted text of the first and the decoded plot result), and a
    usable reply to the review request made with the topics, the plot
    descriptions and the extracted draft, [main] writes the reviewer's
    ['revised_latex'] to [final_worksheet.tex], leaves the other files as
    the child left them, minus the scratch file, and ends with the
    completion notice. *)
Theorem first_script_completes `{JsonLib} (w : world) (st : state)
    (k plots_reply out err part1_reply part2_reply review_reply final : string)
    (syllabus_json plots_json : json) (fs : gmap string string) :
  getenv_api_key w = Some k -> k <> "" ->
  input_line w <> "" ->
  syllabus_decoded w k (input_line w) 240 syllabus_json ->
  has_sub_topics_list syllabus_json = true ->
  replies w k "google/gemini-2.5-pro" (plots_prompt syllabus_json) 240 plots_reply ->
  scratch_writable w plots_reply ->
  run_python w (with_scratch st plots_reply) = (Exited 0 out err, fs) ->
  json_loads out = Some plots_json ->
  replies w k "google/gemini-2.5-pro" (Prompt "part1" [AJson syllabus_json]) 240
    part1_reply ->
  replies w k "google/gemini-2.5-pro"
    (Prompt "part2" [AStr (_extract_code part1_reply "latex"); AJson plots_json]) 240
    part2_reply ->
  V1_review_reply w k (input_line w) plots_json (_extract_code part2_reply "latex")
    (Ok review_reply) ->
  review_gives review_reply (JStr final) ->
  exists st',
    V1.main w st = (Ok tt, st') /\
    files st' = <["final_worksheet.tex" := final]> (delete TEMP_PLOT_SCRIPT fs) /\
    ends_with st' completion_notice.
Proof.
  intros Hkey Hk Hline Hsyl Hlist Hplots Henc Hrun Hout Hp1 Hp2 Hreview Husable.
  rewrite V1_main_guarded. unfold guarded, V1.pipeline.
  rewrite (bind_ok _ _ _ _ _ (load_api_key_ok w k _ Hkey Hk)).
  match goal with |- context [bind _ _ ?s] =>
    destruct (V1_syllabus_ok w k syllabus_json s Hline Hsyl Hlist) as (st2 & Hs2 & Hfs2)
  end.
  rewrite (bind_ok _ _ _ _ _ Hs2). cbv beta iota.
  assert (Hrun2 : run_python w (with_scratch st2 plots_reply) = (Exited 0 out err, fs)).
  { unfold with_scratch in *. by rewrite Hfs2. }
  destruct (V1_generate_plots_accepts w k plots_reply out err syllabus_json plots_json
              st2 fs Hplots Henc Hrun2 Hout) as (st3 & Hs3 & Hfs3).
  destruct (V1_part1_ok w k part1_reply syllabus_json st3 Hp1) as (st4 & Hs4 & Hfs4).
  destruct (V1_part2_ok w k _ part2_reply plots_json st4 Hp2) as (st5 & Hs5 & Hfs5).
  destruct (V1_review_ok w k _ _ review_reply plots_json (JStr final) st5 Hreview Husable)
    as (st6 & Hs6 & Hfs6).
  rewrite (bind_ok _ _ _ _ _ Hs3), (bind_ok _ _ _ _ _ Hs4), (bind_ok _ _ _ _ _ Hs5),
    (bind_ok _ _ _ _ _ Hs6).
  cbn [write_value]. unfold bind at 1, write_file; cbn [can_encode].
  rewrite say_complete_says. eexists. split; [reflexivity|].
  split; [|apply ends_with_says].
  cbn. by rewrite Hfs6, Hfs5, Hfs4, Hfs3.
Qed.

Lemma first_script_completes_witness :
  exists st',
    @V1.main ref_json (scenario (Ok revised_reply) 0 one_plot_text) fresh = (Ok tt, st') /\
    worksheet st' = Some "FINAL".
Proof.
  edestruct (@first_script_completes ref_json (scenario (Ok revised_reply) 0 one_plot_text)
               fresh "sk-1" (fenced "python" "print(1)") one_plot_text "traceback"
               demo_draft demo_draft revised_reply "FINAL" demo_syllabus one_plot
               (<["./plots/p.png" := "png"]>
                  (with_scratch fresh (fenced "python" "print(1)"))))
    as (st' & Hmain & Hfiles & _).
  - reflexivity.
  - done.
  - done.
  - exists syllabus_reply. split; vm_compute; reflexivity.
  - reflexivity.
  - reflexivity.
  - reflexivity.
  - reflexivity.
  - vm_compute. reflexivity.
  - reflexivity.
  - reflexivity.
  - exists [JStr ""]. split; [intros st; reflexivity | reflexivity].
  - exists [("issues_found", JArr []); ("revised_latex", JStr "FINAL")].
    repeat split; vm_compute; reflexivity.
  - exists st'. split; [exact Hmain|]. unfold worksheet. rewrite Hfiles.
    apply lookup_insert_eq.
Defined.

Lemma V2_full_worksheet_ok `{JsonLib} (w : world) (k reply : string)
    (syllabus_fields : list (string * json)) (plots_json : json) (items : list json)
    (path : json) (st : state) :
  shown_plots plots_json items path ->
  replies w k "google/gemini-2.5-pro" (full_worksheet_prompt syllabus_fields items path)
    300 reply ->
  exists st',
    V2.generate_full_worksheet w k (JObj syllabus_fields) plots_json st
    = (Ok (_extract_code reply "latex"), st') /\ files st' = files st.
Proof.
  intros (fields & last_fields & -> & Hplots & Hlast & Hpath) Hpost.
  unfold V2.generate_full_worksheet. rewrite (bind_ok _ _ _ _ _ (print_say _ _ _)).
  cbn [is_dict py_get]. rewrite Hplots. cbn [from_option id].
  unfold bind at 1, ret at 1.
  destruct items as [|x items]; [discriminate|].
  cbn [truthy py_iter]. unfold bind at 1, ret at 1. unfold bind at 1, ret at 1.
  unfold last_bound. rewrite Hlast.
  unfold bind at 1, ret at 1. unfold bind at 1, ret at 1.
  cbn [py_getitem]. rewrite Hpath. unfold bind at 1, ret at 1.
  unfold full_worksheet_prompt, field in Hpost.
  rewrite (bind_ok _ _ _ _ _ (V2_call_openrouter_ok w k _ reply _ _ Hpost)).
  unfold bind, ret, print. cbn. by eexists.
Qed.

Lemma V2_review_ok `{JsonLib} (w : world) (k draft reply : string)
    (syllabus_json plots_json revised : json) (st : state) :
  V2_review_reply w k syllabus_json plots_json draft (Ok reply) ->
  review_gives reply revised -> truthy revised = true ->
  exists st',
    V2.review_worksheet w k draft syllabus_json plots_json st = (Ok revised, st')
    /\ files st' = files st.
Proof.
  intros (ds & Hds & Hpost) (fields & Hdec & Hfinal & Hissues) Htruthy.
  unfold V2.review_worksheet. rewrite (bind_ok _ _ _ _ _ (print_say _ _ _)).
  rewrite (bind_ok _ _ _ _ _ (Hds _)).
  set (st1 := say st _ _).
  destruct (report_issues_list fields
              (say st1 "  > Calling model: {model}..." [AStr "google/gemini-2.5-flash"])
              Hissues) as (st3 & Hrep & Hfs3).
  eexists. split.
  - apply try_except_ok.
    rewrite (bind_ok _ _ _ _ _ (V2_call_openrouter_ok w k _ reply _ _ Hpost)).
    unfold bind at 1. rewrite V2_extract_json_decoded, Hdec.
    rewrite (bind_ok _ _ _ _ _ Hrep). cbn [py_get]. rewrite Hfinal.
    unfold bind at 1, ret at 1. cbn [from_option id]. rewrite Htruthy.
    cbn [negb]. unfold bind, print, ret. cbn. reflexivity.
  - cbn. by rewrite Hfs3.
Qed.

(** X12. The second script, when every stage succeeds: with the key set,
    topics typed, a syllabus object decoded from the first answer, a
    child that exits with status 0 and prints an object whose ['plots']
    list ends in an object with a ['path'], the worksheet request (made
    with the syllabus, its chapter and lesson names or their defaults,
    the plot entries and that path) answered, and a usable reply with a
    non-empty ['revised_latex'] to the review request, [main] writes the
    reviewer's text to [final_worksheet.tex], leaves the other files as
    the child left them, minus the scratch file, and ends with the
    completion notice. *)
Theorem second_script_completes `{JsonLib} (w : world) (st : state)
    (k plots_reply out err draft_reply review_reply final : string)
    (syllabus_fields : list (string * json)) (plots_json path : json)
    (items : list json) (fs : gmap string string) :
  getenv_api_key w = Some k -> k <> "" ->
  input_line w <> "" ->
  syllabus_decoded w k (input_line w) 300 (JObj syllabus_fields) ->
  replies w k "google/gemini-2.5-pro" (plots_prompt (JObj syllabus_fields)) 300
    plots_reply ->
  run_python w (with_scratch st plots_reply) = (Exited 0 out err, fs) ->
  json_loads out = Some plots_json ->
  shown_plots plots_json items path ->
  replies w k "google/gemini-2.5-pro" (full_worksheet_prompt syllabus_fields items path)
    300 draft_reply ->
  V2_review_reply w k (JObj syllabus_fields) plots_json (_extract_code draft_reply "latex")
    (Ok review_reply) ->
  review_gives review_reply (JStr final) -> final <> "" ->
  exists st',
    V2.main w st = (Ok tt, st') /\
    files st' = <["final_worksheet.tex" := final]> (delete TEMP_PLOT_SCRIPT fs) /\
    ends_with st' completion_notice.
Proof.
  intros Hkey Hk Hline Hsyl Hplots Hrun Hout Hshown Hdraft Hreview Husable Hfinal.
  rewrite V2_main_guarded. unfold guarded, V2.pipeline.
  rewrite (bind_ok _ _ _ _ _ (load_api_key_ok w k _ Hkey Hk)).
  match goal with |- context [bind _ _ ?s] =>
    destruct (V2_syllabus_ok w k (JObj syllabus_fields) s Hline Hsyl) as (st2 & Hs2 & Hfs2)
  end.
  rewrite (bind_ok _ _ _ _ _ Hs2). cbv beta iota.
  assert (Hrun2 : run_python w (with_scratch st2 plots_reply) = (Exited 0 out err, fs)).
  { unfold with_scratch in *. by rewrite Hfs2. }
  destruct (V2_generate_plots_accepts w k plots_reply out err (JObj syllabus_fields)
              plots_json st2 fs Hplots Hrun2 Hout) as (st3 & Hs3 & Hfs3).
  destruct (V2_full_worksheet_ok w k draft_reply syllabus_fields plots_json items path st3
              Hshown Hdraft) as (st4 & Hs4 & Hfs4).
  assert (Htruthy : truthy (JStr final) = true).
  { cbn. by destruct (String.eqb_spec final ""). }
  destruct (V2_review_ok w k _ review_reply (JObj syllabus_fields) plots_json (JStr final)
              st4 Hreview Husable Htruthy) as (st5 & Hs5 & Hfs5).
  rewrite (bind_ok _ _ _ _ _ Hs3), (bind_ok _ _ _ _ _ Hs4), (bind_ok _ _ _ _ _ Hs5).
  cbn [write_value]. unfold bind at 1, write_file; cbn [can_encode].
  rewrite say_complete_says. eexists. split; [reflexivity|].
  split; [|apply ends_with_says].
  cbn. by rewrite Hfs5, Hfs4, Hfs3.
Qed.

Lemma second_script_completes_witness :
  exists st',
    @V2.main ref_json (scenario (Ok revised_reply) 0 one_plot_text) fresh = (Ok tt, st') /\
    worksheet st' = Some "FINAL".
Proof.
  edestruct (@second_script_completes ref_json (scenario (Ok revised_reply) 0 one_plot_text)
               fresh "sk-1" (fenced "python" "print(1)") one_plot_text "traceback"
               demo_draft revised_reply "FINAL"
               [("chapter_name", JStr "Life Science"); ("sub_topics", JArr [])]
               one_plot (JStr "a.png") [JObj [("path", JStr "a.png")]]
               (<["./plots/p.png" := "png"]>
                  (with_scratch fresh (fenced "python" "print(1)"))))
    as (st' & Hmain & Hfiles & _).
  - reflexivity.
  - done.
  - done.
  - exists syllabus_reply. split; vm_compute; reflexivity.
  - reflexivity.
  - reflexivity.
  - vm_compute. reflexivity.
  - exists [("plots", JArr [JObj [("path", JStr "a.png")]])], [("path", JStr "a.png")].
    repeat split.
  - reflexivity.
  - exists [JStr ""]. split; [intros st; reflexivity | reflexivity].
  - exists [("issues_found", JArr []); ("revised_latex", JStr "FINAL")].
    repeat split; vm_compute; reflexivity.
  - done.
  - exists st'. split; [exact Hmain|]. unfold worksheet. rewrite Hfiles.
    apply lookup_insert_eq.
Defined.

(** ** A revision that is not a text *)

Lemma write_value_refused (w : world) (v : json) (st : state) :
  is_text v = false ->
  write_value w "final_worksheet.tex" v st
  = (Raise (Exn TypeError [type_name v; "write"]),
     State (<["final_worksheet.tex" := ""]> (files st)) (printed st)).
Proof. by destruct v. Qed.

(** X13. A reviewer whose ['revised_latex'] is not a text (a number, a
    list, an object; in the first script also [null], [false] and the
    like, which the second script replaces by the draft) gets as far as
    the output file: [main] opens [final_worksheet.tex], which leaves it
    empty, the [write] raises [TypeError], and the run ends with the
    report of an unexpected error, in both scripts. *)
Theorem non_text_revision_leaves_empty_worksheet `{JsonLib} (w : world) (st st5 : state)
    (k topics draft reply : string) (syllabus_json plots_json revised : json) :
  review_gives reply revised -> is_text revised = false ->
  let e := Exn TypeError [type_name revised; "write"] in
  let left_empty st' :=
    files st' = <["final_worksheet.tex" := ""]> (files st5) /\
    ends_with st' (abort_notice "--- An unexpected error occurred ---" e) in
  (V1_draft_ready w st k topics syllabus_json plots_json draft st5 ->
   V1_review_reply w k topics plots_json draft (Ok reply) ->
   exists st', V1.main w st = (Ok tt, st') /\ left_empty st') /\
  (V2_draft_ready w st k syllabus_json plots_json draft st5 ->
   V2_review_reply w k syllabus_json plots_json draft (Ok reply) ->
   truthy revised = true ->
   exists st', V2.main w st = (Ok tt, st') /\ left_empty st').
Proof.
  intros Hgives Htext e left_empty. split.
  - intros Hready Hreview. rewrite V1_main_guarded. unfold guarded.
    rewrite (V1_pipeline_after_draft _ _ _ _ _ _ _ _ Hready).
    destruct (V1_review_ok w k draft topics reply plots_json revised st5 Hreview Hgives)
      as (st6 & Hs6 & Hfs6).
    rewrite (bind_ok _ _ _ _ _ Hs6).
    rewrite (bind_raise _ _ _ _ _ (write_value_refused w revised st6 Htext)).
    eexists. split; [reflexivity|]. split; [cbn; by rewrite Hfs6|].
    apply ends_with_says.
  - intros Hready Hreview Htruthy. rewrite V2_main_guarded. unfold guarded.
    rewrite (V2_pipeline_after_draft _ _ _ _ _ _ _ Hready).
    destruct (V2_review_ok w k draft reply syllabus_json plots_json revised st5
                Hreview Hgives Htruthy) as (st6 & Hs6 & Hfs6).
    rewrite (bind_ok _ _ _ _ _ Hs6).
    rewrite (bind_raise _ _ _ _ _ (write_value_refused w revised st6 Htext)).
    eexists. split; [reflexivity|]. split; [cbn; by rewrite Hfs6|].
    apply ends_with_says.
Qed.

Lemma non_text_revision_leaves_empty_worksheet_witness :
  exists st',
    @V1.main ref_json (scenario (Ok numeric_revision) 0 one_plot_text) fresh = (Ok tt, st') /\
    worksheet st' = Some "".
Proof.
  assert (exists st5, @V1_draft_ready ref_json (scenario (Ok numeric_revision) 0 one_plot_text)
                        fresh "sk-1" "Genetics" demo_syllabus one_plot demo_draft st5)
    as (st5 & Hready).
  { eexists. eexists. eexists. eexists. eexists. split; [|split; [|split]].
    - eexists. split; vm_compute; reflexivity.
    - vm_compute. reflexivity.
    - vm_compute. reflexivity.
    - vm_compute. reflexivity. }
  destruct (@non_text_revision_leaves_empty_worksheet ref_json
              (scenario (Ok numeric_revision) 0 one_plot_text) fresh st5 "sk-1" "Genetics"
              demo_draft numeric_revision demo_syllabus one_plot (JInt 5))
    as [Hfirst _].
  - exists [("issues_found", JArr []); ("revised_latex", JInt 5)].
    repeat split; vm_compute; reflexivity.
  - reflexivity.
  - destruct Hfirst as (st' & Hmain & Hfiles & _).
    + exact Hready.
    + exists [JStr ""]. split; [intros st; reflexivity | reflexivity].
    + exists st'. split; [exact Hmain|]. unfold worksheet. rewrite Hfiles.
      apply lookup_insert_eq.
Defined.


(** ** A fence without the tag asked for *)

Lemma tag_line_beyond (language inner : string) :
  plain_word language = true ->
  String.prefix (language +:+ nl) inner = false ->
  String.prefix (language +:+ nl) (inner +:+ "```") = false.
Proof.
  revert inner. induction language as [|t language IH]; intros inner Hplain Hp.
  - rewrite app_nil_str in *. destruct inner as [|c inner]; [done|].
    rewrite app_cons_str. unfold nl in *. rewrite prefix_cons in *.
    by rewrite prefix_nil in *.
  - cbn [plain_word] in Hplain. apply andb_prop in Hplain as [Ht Hplain].
    rewrite app_cons_str in *. destruct inner as [|c inner].
    + rewrite app_nil_str. rewrite prefix_cons.
      rewrite bool_decide_eq_false_2; [done|]. by intros ->.
    + rewrite app_cons_str. rewrite prefix_cons in *.
      case_bool_decide; [|done]. cbn [andb] in *. by apply IH.
Qed.

Lemma opening_needs_backquote (language : string) (c : ascii) (s : string) :
  c <> "`"%char -> String.prefix (fence_open language) (String c s) = false.
Proof.
  intros Hc. unfold fence_open. rewrite !app_cons_str, prefix_cons.
  rewrite bool_decide_eq_false_2; [done|]. by intros <-.
Qed.

Lemma opening_not_in_markers (language s : string) :
  plain_word language = true ->
  str_forall (Ascii.eqb "`") s = true ->
  String.prefix (fence_open language) s = false.
Proof.
  intros Hplain. unfold fence_open. rewrite !app_cons_str, app_nil_str.
  destruct s as [|c1 [|c2 [|c3 s]]]; try done.
  - rewrite !prefix_cons. by rewrite andb_false_r.
  - rewrite !prefix_cons. destruct (language +:+ nl) eqn:Hl; [|by rewrite !andb_false_r].
    destruct language; discriminate.
  - cbn [str_forall]. intros (_ & (_ & (_ & Hs)%andb_prop)%andb_prop)%andb_prop.
    rewrite !prefix_cons.
    destruct s as [|c4 s].
    + destruct (language +:+ nl) eqn:Hl; [|by rewrite !andb_false_r].
      destruct language; discriminate.
    + cbn [str_forall] in Hs. apply andb_prop in Hs as [<-%Ascii.eqb_eq _].
      by rewrite (tag_line_not_backquote _ _ Hplain), !andb_false_r.
Qed.

Lemma re_search_markers (language s : string) :
  plain_word language = true ->
  str_forall (Ascii.eqb "`") s = true ->
  re_search (fence_open language) fence_close s = None.
Proof.
  intros Hplain. induction s as [|c s IH]; intros Hs; cbn [re_search]; unfold match_here.
  - by rewrite (opening_not_in_markers _ _ Hplain Hs).
  - rewrite (opening_not_in_markers _ _ Hplain Hs). apply IH.
    cbn [str_forall] in Hs. by apply andb_prop in Hs as [_ ?].
Qed.

Lemma re_search_no_backquote (language inner : string) :
  plain_word language = true ->
  occurs "`" inner = false ->
  re_search (fence_open language) fence_close (inner +:+ "```") = None.
Proof.
  intros Hplain. induction inner as [|c inner IH]; intros Hin.
  - rewrite app_nil_str. by apply re_search_markers.
  - rewrite occurs_cons in Hin. apply orb_false_elim in Hin as [Hc Hin].
    rewrite app_cons_str. cbn [re_search]. unfold match_here.
    rewrite opening_needs_backquote; [by apply IH|].
    intros ->. by rewrite prefix_cons, prefix_nil, bool_decide_eq_true_2 in Hc.
Qed.

Lemma re_search_bare_fence (language inner : string) :
  plain_word language = true ->
  occurs "`" inner = false ->
  String.prefix (language +:+ nl) inner = false ->
  re_search (fence_open language) fence_close (bare_fence inner) = None.
Proof.
  intros Hplain Hin Htag. unfold bare_fence.
  assert (Hrest : re_search (fence_open language) fence_close (inner +:+ "```") = None)
    by by apply re_search_no_backquote.
  rewrite !app_cons_str, app_nil_str.
  cbn [re_search]. unfold match_here at 1.
  replace (String.prefix (fence_open language) (String "`" (String "`" (String "`"
             (inner +:+ "```"))))) with false.
  2:{ unfold fence_open. rewrite !app_cons_str, app_nil_str, !prefix_cons.
      rewrite (tag_line_beyond _ _ Hplain Htag). by rewrite !andb_false_r. }
  cbn [re_search]. unfold match_here at 1.
  replace (String.prefix (fence_open language) (String "`" (String "`" (inner +:+ "```"))))
    with false.
  2:{ unfold fence_open. rewrite !app_cons_str, app_nil_str, !prefix_cons.
      destruct inner as [|c inner].
      - rewrite app_nil_str, prefix_cons.
        by rewrite (tag_line_not_backquote _ _ Hplain), !andb_false_r.
      - rewrite app_cons_str, prefix_cons.
        rewrite occurs_cons, prefix_cons, prefix_nil in Hin.
        apply orb_false_elim in Hin as [Hc _]. rewrite andb_true_r in Hc.
        by rewrite Hc, !andb_false_r. }
  cbn [re_search]. unfold match_here at 1.
  replace (String.prefix (fence_open language) (String "`" (inner +:+ "```"))) with false.
  2:{ unfold fence_open. rewrite !app_cons_str, app_nil_str, !prefix_cons.
      destruct inner as [|c inner].
      - rewrite app_nil_str, !prefix_cons.
        by rewrite (tag_line_not_backquote _ _ Hplain), !andb_false_r.
      - rewrite app_cons_str, prefix_cons.
        rewrite occurs_cons, prefix_cons, prefix_nil in Hin.
        apply orb_false_elim in Hin as [Hc _]. rewrite andb_true_r in Hc.
        by rewrite Hc, !andb_false_r. }
  exact Hrest.
Qed.

Lemma last_char_app (a : string) (c : ascii) (s : string) :
  last_char (a +:+ String c s) = last_char (String c s).
Proof.
  induction a as [|d a IH]; [by rewrite app_nil_str|].
  rewrite app_cons_str. cbn [last_char]. rewrite IH.
  destruct (a +:+ String c s) eqn:Ha; [|done]. by destruct a.
Qed.

Lemma endswith_app (a p : string) : endswith (a +:+ p) p = true.
Proof.
  induction a as [|c a IH].
  - rewrite app_nil_str. destruct p; cbn [endswith]; by rewrite String.eqb_refl.
  - rewrite app_cons_str. cbn [endswith]. by rewrite IH, orb_true_r.
Qed.

Lemma str_take_app (a t : string) : str_take (String.length a) (a +:+ t) = a.
Proof.
  induction a as [|c a IH]; [by destruct t|].
  rewrite app_cons_str. cbn [String.length str_take]. by rewrite IH.
Qed.

Lemma length_app_str (a t : string) :
  String.length (a +:+ t) = String.length a + String.length t.
Proof.
  induction a as [|c a IH]; [by rewrite app_nil_str|].
  rewrite app_cons_str. cbn [String.length]. by rewrite IH.
Qed.

Lemma strip_bare_fence (inner : string) : strip (bare_fence inner) = bare_fence inner.
Proof.
  unfold strip, bare_fence. rewrite !app_cons_str, app_nil_str. cbn [lstrip].
  change (is_space "`") with false. cbv iota.
  apply rstrip_closes_well. unfold closes_well.
  change (String "`" (String "`" (String "`" (inner +:+ "```"))))
    with (String "`" (String "`" (String "`" (inner +:+ String "`" "``")))).
  cbn [last_char].
  destruct (inner +:+ String "`" "``") eqn:Hi; [by destruct inner|].
  rewrite <- Hi.
  assert (Hl : last_char (inner +:+ String "`" "``") = Some "`"%char)
    by by rewrite last_char_app.
  destruct (String "`" (inner +:+ String "`" "``")) eqn:H1; [done|].
  injection H1 as <- <-.
  destruct (String "`" (inner +:+ String "`" "``")) eqn:H2; [done|].
  injection H2 as <- <-. rewrite Hi in *.
  by rewrite Hl.
Qed.

Lemma slice_bare_fence (inner : string) : slice_3_m3 (bare_fence inner) = inner.
Proof.
  unfold slice_3_m3, bare_fence. rewrite !app_cons_str, app_nil_str.
  cbn [String.length str_drop]. rewrite length_app_str. cbn [String.length].
  replace (S (S (S (String.length inner + 3))) - 3 - 3) with (String.length inner) by lia.
  apply str_take_app.
Qed.

(** X14. A text that is one fence without the tag asked for (no tag, or
    another tag) takes the generic path of [_extract_code]: when the part
    between the two markers holds no backquote and does not start with
    the tag and a newline, the result is that part, trimmed. A foreign
    tag is part of it and stays in the result. *)
Theorem extract_code_bare_fence (inner language : string) :
  plain_word language = true ->
  occurs "`" inner = false ->
  String.prefix (language +:+ nl) inner = false ->
  _extract_code (bare_fence inner) language = strip inner.
Proof.
  intros Hplain Hin Htag. unfold _extract_code.
  rewrite (re_search_bare_fence _ _ Hplain Hin Htag), strip_bare_fence, slice_bare_fence.
  assert (startswith (bare_fence inner) "```" = true) as -> by apply prefix_app.
  assert (endswith (bare_fence inner) "```" = true) as ->; [|done].
  unfold bare_fence. rewrite <- app_assoc_str. apply endswith_app.
Qed.

Lemma extract_code_bare_fence_witness :
  wrap_in_fence "print(1)" "python" = bare_fence ("python" +:+ nl +:+ "print(1)" +:+ nl) /\
  _extract_code (wrap_in_fence "print(1)" "python") "json"
  = "python" +:+ nl +:+ "print(1)".
Proof.
  split; [reflexivity|].
  change (wrap_in_fence "print(1)" "python")
    with (bare_fence ("python" +:+ nl +:+ "print(1)" +:+ nl)).
  rewrite (extract_code_bare_fence ("python" +:+ nl +:+ "print(1)" +:+ nl) "json");
    reflexivity.
Defined.

(** ** A plot result that is not an object *)

(** X15. The review stage reads the plot descriptions with
    [plots_json.get] while it builds its prompt, in the second script
    before the [try] that holds the fallback. A plot result that is not
    an object (a bare list, which [generate_full_worksheet] accepts)
    therefore ends the run in both scripts: once the draft is there,
    [main] prints the headline of the review stage and the report of an
    unexpected [AttributeError]; the reviewer is not asked and no file is
    written. *)
Theorem plot_result_must_be_an_object_for_the_review `{JsonLib} (w : world)
    (st st' : state) (k topics draft : string) (syllabus_json plots_json : json) :
  is_dict plots_json = false ->
  let e := Exn AttributeError [type_name plots_json; "get"] in
  let report := abort_notice "--- An unexpected error occurred ---" e in
  (V1_draft_ready w st k topics syllabus_json plots_json draft st' ->
   V1.main w st = (Ok tt, says (say st' "--- Step 5: Final Review ---" []) report)) /\
  (V2_draft_ready w st k syllabus_json plots_json draft st' ->
   V2.main w st = (Ok tt, says (say st' "--- Step 4: Final Review ---" []) report)).
Proof.
  intros Hdict e report. split; intros Hready.
  - rewrite V1_main_guarded. unfold guarded.
    rewrite (V1_pipeline_after_draft _ _ _ _ _ _ _ _ Hready).
    destruct plots_json; try discriminate; reflexivity.
  - rewrite V2_main_guarded. unfold guarded.
    rewrite (V2_pipeline_after_draft _ _ _ _ _ _ _ Hready).
    destruct plots_json; try discriminate; reflexivity.
Qed.

Lemma plot_result_must_be_an_object_for_the_review_witness :
  exists st4,
    @V2.main ref_json (scenario (Ok revised_reply) 0 plot_list_text) fresh
    = (Ok tt, says (say st4 "--- Step 4: Final Review ---" [])
                (abort_notice "--- An unexpected error occurred ---"
                   (Exn AttributeError ["list"; "get"]))).
Proof.
  assert (exists st4, @V2_draft_ready ref_json (scenario (Ok revised_reply) 0 plot_list_text)
                        fresh "sk-1" demo_syllabus plot_list demo_draft st4)
    as (st4 & Hready).
  { eexists. exists "Genetics". eexists. eexists. split; [|split].
    - eexists. split; vm_compute; reflexivity.
    - vm_compute. reflexivity.
    - vm_compute. reflexivity. }
  exists st4.
  exact (proj2 (@plot_result_must_be_an_object_for_the_review ref_json
                  (scenario (Ok revised_reply) 0 plot_list_text) fresh st4 "sk-1" ""
                  demo_draft demo_syllabus plot_list eq_refl) Hready).
Defined.


(** ** The report on the reviewer's issues *)

Lemma print_each_says (line : string) (items : list json) (st : state) :
  exists us,
    mapM (fun issue => print line [AJson issue]) items st
    = (Ok us, says st ((fun issue => Printed line [AJson issue]) <$> items)).
Proof.
  revert st. induction items as [|x items IH]; intros st.
  - exists []. unfold says. cbn. rewrite app_nil_r. by destruct st.
  - cbn [mapM]. unfold bind at 1. rewrite print_say.
    destruct (IH (say st line [AJson x])) as (us & Hm).
    unfold bind at 1. rewrite Hm. exists (() :: us). unfold ret, says, say. cbn.
    by rewrite <- app_assoc.
Qed.

(** X16. The report of the review stage looks at the first issue only:
    for a list of issues, [report_issues] prints the heading and one line
    for each issue when the first one is truthy, and the line about no
    major issues otherwise, also when later issues are not empty. It
    never raises on a list. *)
Theorem issue_report_follows_the_first_issue (fields : list (string * json))
    (issues : list json) (st : state) :
  field "issues_found" (JArr []) fields = JArr issues ->
  report_issues (JObj fields) st = (Ok tt, says st (issue_report issues)).
Proof.
  unfold report_issues, field. cbn [py_get]. unfold bind at 1, ret at 1.
  intros ->. unfold has_issues, issue_report.
  destruct issues as [|x items]; [reflexivity|].
  cbn [truthy py_getitem0]. unfold bind at 1, bind at 1, ret at 1, ret at 1.
  destruct (truthy x); [|reflexivity].
  unfold bind at 1. rewrite print_say. cbn [py_iter]. unfold bind at 1, ret at 1.
  destruct (print_each_says "    - {issue}" (x :: items)
              (say st "  > Reviewer found and fixed the following issues:" []))
    as (us & Hm).
  rewrite (bind_ok _ _ _ _ _ Hm). unfold ret, says, say. cbn.
  by rewrite <- app_assoc.
Qed.

Lemma issue_report_follows_the_first_issue_witness :
  report_issues (JObj [("issues_found", JArr [JStr ""; JStr "wrong sign in Q3"])]) fresh
  = (Ok tt, says fresh [Printed "  > Reviewer found no major issues." []]).
Proof.
  apply (issue_report_follows_the_first_issue
           [("issues_found", JArr [JStr ""; JStr "wrong sign in Q3"])]
           [JStr ""; JStr "wrong sign in Q3"] fresh).
  reflexivity.
Defined.

(** ** The two versions of the extraction *)

(** X17. [_extract_json] of the first and of the second script give the
    same outcome on every text, with every decoder: the value decoded
    from the extracted block or else from the whole text, or
    [JSONDecodeError] carrying the whole text. Neither touches a file;
    they differ in what they print, and the second script prints only
    when it raises. *)
Theorem extract_json_versions_agree `{JsonLib} (text : string) (st : state) :
  fst (V1._extract_json text st) = extraction text /\
  fst (V2._extract_json text st) = extraction text /\
  files (snd (V1._extract_json text st)) = files st /\
  files (snd (V2._extract_json text st)) = files st /\
  (answered (extraction text) -> snd (V2._extract_json text st) = st).
Proof.
  destruct (V1_extract_json_decoded text st) as (st1 & H1 & Hfs1).
  rewrite H1, V2_extract_json_decoded. unfold extraction.
  destruct (decoded text) as [v|]; cbn; repeat split; done.
Qed.

Lemma extract_json_versions_agree_witness :
  snd (@V2._extract_json ref_json x1_text fresh) = fresh.
Proof.
  apply (proj2 (proj2 (proj2 (proj2 (@extract_json_versions_agree ref_json x1_text fresh))))).
  vm_compute. exact I.
Defined.

(** ** The worksheet stage of the second script and the syllabus *)

Lemma V2_full_worksheet_needs_an_object `{JsonLib} (w : world) (k : string)
    (syllabus_json plots_json : json) (st : state) :
  is_dict syllabus_json = false ->
  exists e,
    V2.generate_full_worksheet w k syllabus_json plots_json st
    = (Raise e, say st "--- Step 3: Generating Full Worksheet from Template ---" []) /\
    critical e = false.
Proof.
  intros Hdict. unfold V2.generate_full_worksheet.
  rewrite (bind_ok _ _ _ _ _ (print_say _ _ _)). set (st1 := say st _ _).
  assert (Hlist : exists plot_list,
             (if is_dict plots_json then py_get plots_json "plots" (JArr [])
              else if is_list plots_json then ret plots_json else ret (JArr [])) st1
             = (Ok plot_list, st1)).
  { destruct plots_json; by eexists. }
  destruct Hlist as (plot_list & Hlist). rewrite (bind_ok _ _ _ _ _ Hlist).
  destruct (truthy plot_list).
  - destruct plot_list; cbn [py_iter];
      try (eexists; split; [reflexivity|done]);
      unfold bind at 1, bind at 1, ret at 1, ret at 1; cbv beta iota;
      destruct syllabus_json; try discriminate; eexists; (split; [reflexivity|done]).
  - unfold bind at 1, ret at 1. cbv beta iota.
    destruct syllabus_json; try discriminate; eexists; (split; [reflexivity|done]).
Qed.

(** X18. The second script notices a syllabus that is not an object only
    in its worksheet stage: the syllabus stage lets it pass, the plot
    stage runs with it, and [generate_full_worksheet] then raises before
    it asks the gateway, whatever the plot result is. [main] reports an
    unexpected error and writes no worksheet. *)
Theorem second_script_notices_the_syllabus_late `{JsonLib} (w : world) (st st2 st3 : state)
    (k topics : string) (syllabus_json plots_json : json) :
  is_dict syllabus_json = false ->
  V2_syllabus_ready w st k topics syllabus_json st2 ->
  V2.generate_plots w k syllabus_json st2 = (Ok plots_json, st3) ->
  exists e,
    V2.main w st
    = (Ok tt, says (say st3 "--- Step 3: Generating Full Worksheet from Template ---" [])
                (abort_notice "--- An unexpected error occurred ---" e)).
Proof.
  intros Hdict (st1 & Hkey & Hsyl) Hplots.
  destruct (V2_full_worksheet_needs_an_object w k syllabus_json plots_json st3 Hdict)
    as (e & Hfull & Hcrit).
  exists e. rewrite V2_main_guarded. unfold guarded, V2.pipeline.
  rewrite (bind_ok _ _ _ _ _ Hkey), (bind_ok _ _ _ _ _ Hsyl). cbv beta iota.
  rewrite (bind_ok _ _ _ _ _ Hplots), (bind_raise _ _ _ _ _ Hfull).
  unfold headline. by rewrite Hcrit.
Qed.

Lemma second_script_notices_the_syllabus_late_witness :
  exists e st3,
    @V2.main ref_json list_syllabus_world fresh
    = (Ok tt, says (say st3 "--- Step 3: Generating Full Worksheet from Template ---" [])
                (abort_notice "--- An unexpected error occurred ---" e)).
Proof.
  assert (exists st2, @V2_syllabus_ready ref_json list_syllabus_world fresh "sk-1" "Genetics"
                        (JArr [JInt 1]) st2) as (st2 & Hready).
  { eexists. eexists. split; vm_compute; reflexivity. }
  destruct (@V2_generate_plots_accepts ref_json list_syllabus_world "sk-1"
              (fenced "python" "print(1)") one_plot_text "traceback" (JArr [JInt 1])
              one_plot st2 _ eq_refl eq_refl) as (st3 & Hplots & _).
  { vm_compute. reflexivity. }
  destruct (@second_script_notices_the_syllabus_late ref_json list_syllabus_world fresh
              st2 st3 "sk-1" "Genetics" (JArr [JInt 1]) one_plot eq_refl Hready Hplots)
    as (e & Hmain).
  exists e, st3. exact Hmain.
Defined.

(** ** A reply without a revised worksheet in the first script *)

(** X19. The first script has no fallback for a reviewer reply without
    ['revised_latex']: when the reply decodes to an object that lacks the
    key (its issues, if any, a list), [review_json['revised_latex']]
    raises [KeyError], [main] reports an unexpected error, and no
    worksheet is written although the draft was ready. *)
Theorem first_script_needs_the_revision `{JsonLib} (w : world) (st st5 : state)
    (k topics draft reply : string) (syllabus_json plots_json : json)
    (fields : list (string * json)) :
  V1_draft_ready w st k topics syllabus_json plots_json draft st5 ->
  V1_review_reply w k topics plots_json draft (Ok reply) ->
  decoded reply = Some (JObj fields) ->
  assoc "revised_latex" fields = None ->
  is_list (field "issues_found" (JArr []) fields) = true ->
  exists st',
    V1.main w st = (Ok tt, st') /\ files st' = files st5 /\
    ends_with st'
      (abort_notice "--- An unexpected error occurred ---" (Exn KeyError ["revised_latex"])).
Proof.
  intros Hready (ds & Hds & Hpost) Hdec Hmissing Hissues.
  rewrite V1_main_guarded. unfold guarded.
  rewrite (V1_pipeline_after_draft _ _ _ _ _ _ _ _ Hready).
  unfold V1.review_worksheet. unfold bind at 1.
  rewrite (bind_ok _ _ _ _ _ (print_say _ _ _)), (bind_ok _ _ _ _ _ (Hds _)).
  rewrite (bind_ok _ _ _ _ _ (V1_call_openrouter_ok w k _ reply _ _ Hpost)).
  match goal with |- context [bind (V1._extract_json reply) _ ?s] =>
    destruct (V1_extract_json_decoded reply s) as (st2 & Hext & Hfs2)
  end.
  rewrite Hdec in Hext. rewrite (bind_ok _ _ _ _ _ Hext).
  destruct (report_issues_list fields st2 Hissues) as (st3 & Hrep & Hfs3).
  rewrite (bind_ok _ _ _ _ _ Hrep). cbn [py_getitem]. rewrite Hmissing.
  unfold bind at 1, raise at 1.
  eexists. split; [reflexivity|]. split; [cbn; by rewrite Hfs3, Hfs2|].
  apply ends_with_says.
Qed.

Lemma first_script_needs_the_revision_witness :
  exists st',
    @V1.main ref_json (scenario (Ok reply_without_revision) 0 one_plot_text) fresh
    = (Ok tt, st') /\
    ends_with st'
      (abort_notice "--- An unexpected error occurred ---" (Exn KeyError ["revised_latex"])).
Proof.
  assert (exists st5, @V1_draft_ready ref_json
                        (scenario (Ok reply_without_revision) 0 one_plot_text)
                        fresh "sk-1" "Genetics" demo_syllabus one_plot demo_draft st5)
    as (st5 & Hready).
  { eexists. eexists. eexists. eexists. eexists. split; [|split; [|split]].
    - eexists. split; vm_compute; reflexivity.
    - vm_compute. reflexivity.
    - vm_compute. reflexivity.
    - vm_compute. reflexivity. }
  destruct (@first_script_needs_the_revision ref_json
              (scenario (Ok reply_without_revision) 0 one_plot_text) fresh st5 "sk-1"
              "Genetics" demo_draft reply_without_revision demo_syllabus one_plot
              [("issues_found", JArr [])] Hready)
    as (st' & Hmain & _ & Hends).
  - exists [JStr ""]. split; [intros st; reflexivity | reflexivity].
  - vm_compute. reflexivity.
  - reflexivity.
  - reflexivity.
  - exists st'. split; [exact Hmain | exact Hends].
Defined.
